(** * OpenStax MCP server: a shallow embedding of the worker and its properties

    The worker (TypeScript, one class [OpenStaxMCPServer] and a [fetch] entry
    point) is embedded function by function.  JavaScript data is dynamically
    typed, so the embedding works over one type of JSON-like values; the
    platform services the worker calls (HTTP fetch, the XML parser, Workers AI,
    Vectorize, the serialiser) are parameters collected in a record, and the
    three KV cache regions, the vector index and the console are an explicit
    state threaded through every asynchronous function. *)

From stdpp Require Import base option strings list gmap pretty.
From Stdlib Require Import ZArith Ascii.

#[local] Set Warnings "-register-all".

#[local] Open Scope Z_scope.

(** ** JavaScript values *)

(** JSON-like values.  Numbers are integers (those that are doubles): the
    worker computes only with counts and bounds, every other number is passed
    through.  A string is the sequence of its UTF-16 code units, one character
    for each, and the units are below 256: the embedding covers text in
    ISO 8859-1.  An object is the list of its own properties in the order
    JavaScript enumerates them, one for a name; no property is a function, as
    in every value JSON gives. *)
Inductive value : Type :=
| VUndef
| VNull
| VBool (b : bool)
| VNum (n : Z)
| VStr (s : string)
| VArr (items : list value)
| VObj (fields : list (string * value)).

(** Induction over values that also gives the hypothesis for the elements of
    arrays and the property values of objects. *)
Section value_induction.
Variable P : value → Prop.
Hypothesis Hundef : P VUndef.
Hypothesis Hnull : P VNull.
Hypothesis Hbool : ∀ b, P (VBool b).
Hypothesis Hnum : ∀ n, P (VNum n).
Hypothesis Hstr : ∀ s, P (VStr s).
Hypothesis Harr : ∀ items, Forall P items → P (VArr items).
Hypothesis Hobj : ∀ fields, Forall (λ kv, P kv.2) fields → P (VObj fields).

Fixpoint value_nested_ind (v : value) : P v :=
  match v with
  | VUndef => Hundef
  | VNull => Hnull
  | VBool b => Hbool b
  | VNum n => Hnum n
  | VStr s => Hstr s
  | VArr items =>
      Harr items
        ((fix go (l : list value) : Forall P l :=
            match l with
            | [] => Forall_nil_2 P
            | x :: l' => Forall_cons_2 P x l' (value_nested_ind x) (go l')
            end) items)
  | VObj fields =>
      Hobj fields
        ((fix go (l : list (string * value)) : Forall (λ kv, P kv.2) l :=
            match l with
            | [] => Forall_nil_2 _
            | kv :: l' =>
                Forall_cons_2 (λ kv, P kv.2) kv l' (value_nested_ind kv.2) (go l')
            end) fields)
  end.
End value_induction.

(** A thrown value: an [Error] object with its message (every error the worker
    or the engine raises), or anything else a collaborator may throw. *)
Inductive exn : Type :=
| JsError (message : string)
| JsThrown (v : value).

(** The outcome of synchronous code: a value, or a throw. *)
Inductive result (A : Type) : Type :=
| Ok (a : A)
| Throw (e : exn).
Arguments Ok {A} a.
Arguments Throw {A} e.

#[global] Instance result_ret : MRet result := λ A a, Ok a.
#[global] Instance result_bind : MBind result := λ A B f m,
  match m with
  | Ok a => f a
  | Throw e => Throw e
  end.
#[global] Instance result_fmap : FMap result := λ A B f m,
  match m with
  | Ok a => Ok (f a)
  | Throw e => Throw e
  end.

(** [!v] is [negb (truthy v)]. *)
Definition truthy (v : value) : bool :=
  match v with
  | VUndef | VNull => false
  | VBool b => b
  | VNum n => negb (n =? 0)
  | VStr s => match s with EmptyString => false | String _ _ => true end
  | VArr _ | VObj _ => true
  end.

Definition nullish (v : value) : bool :=
  match v with
  | VUndef | VNull => true
  | _ => false
  end.

(** [a || b] *)
Definition js_or (a b : value) : value := if truthy a then a else b.

(** Own property [k] of an object, [undefined] when there is none. *)
Fixpoint lookup_field (k : string) (fields : list (string * value)) : value :=
  match fields with
  | [] => VUndef
  | (k', v) :: fields' => if String.eqb k k' then v else lookup_field k fields'
  end.

(** The same lookup with the property handed to a continuation; recursive
    functions over values read properties through it, so that their recursive
    calls stay on parts of the value. *)
Definition with_prop {A : Type} (k : string) (fields : list (string * value))
    (absent : A) (present : value → A) : A :=
  (fix go (fields : list (string * value)) : A :=
     match fields with
     | [] => absent
     | (k', v) :: fields' => if String.eqb k k' then present v else go fields'
     end) fields.

(** [v?.k] for the property names the worker reads.  Strings and arrays have a
    [length]; none of the other names the worker reads is a member of a
    string, an array, a number or a boolean. *)
Definition opt_get (v : value) (k : string) : value :=
  match v with
  | VObj fields => lookup_field k fields
  | VArr items => if String.eqb k "length" then VNum (Z.of_nat (length items)) else VUndef
  | VStr s => if String.eqb k "length" then VNum (Z.of_nat (String.length s)) else VUndef
  | _ => VUndef
  end.

Definition typeof_name (v : value) : string :=
  match v with
  | VUndef => "undefined"
  | _ => "null"
  end.

(** The message V8 gives a failed property read. *)
Definition TypeError_read (v : value) (k : string) : exn :=
  JsError ("Cannot read properties of " +:+ typeof_name v +:+ " (reading '" +:+ k +:+ "')").

(** [v.k]: reading a property of [undefined] or [null] throws a TypeError. *)
Definition get (v : value) (k : string) : result value :=
  if nullish v then Throw (TypeError_read v k) else Ok (opt_get v k).

(** [v?.[0]]: the first element of an array, the first code unit of a
    string, the property [0] of an object. *)
Definition opt_index0 (v : value) : value :=
  match v with
  | VArr items => match items with [] => VUndef | x :: _ => x end
  | VStr s => match s with EmptyString => VUndef | String c _ => VStr (String c EmptyString) end
  | VObj fields => lookup_field "0" fields
  | _ => VUndef
  end.

(** [Array.isArray(v) ? v : [v]] *)
Definition array_or_single (v : value) : list value :=
  match v with
  | VArr items => items
  | _ => [v]
  end.

(** ** Strings *)

Definition nl : string := String "010" EmptyString.

Fixpoint js_join (sep : string) (parts : list string) : string :=
  match parts with
  | [] => EmptyString
  | [p] => p
  | p :: rest => p +:+ sep +:+ js_join sep rest
  end.

(** ** Numbers as text *)

(** The number of decimal digits of a positive integer. *)
Definition decimal_length (x : Z) : Z := Z.of_nat (String.length (pretty x)).

(** The double nearest to an integer, ties to the even significand: below
    [2^53] every integer is a double. *)
Definition nearest_double (x : Z) : Z :=
  if x <? 2 ^ 53 then x
  else
    let unit := 2 ^ (Z.log2 x - 52) in
    let q := x / unit in
    let r := x mod unit in
    let q := if (unit <? 2 * r) || ((unit =? 2 * r) && Z.odd q) then q + 1 else q in
    q * unit.

(** Whether the decimal [c] reads back as the double [x] (for [2^53 <= x]):
    it lies between the midpoints to the neighbours of [x], the midpoints
    included when the significand of [x] is even.  The comparison is made on
    four times the values; the neighbour below a power of two is half as far. *)
Definition reads_back (x c : Z) : bool :=
  let unit := 2 ^ (Z.log2 x - 52) in
  let below := if x =? 2 ^ Z.log2 x then unit else 2 * unit in
  let above := 2 * unit in
  if Z.even (x / unit) then (4 * x - below <=? 4 * c) && (4 * c <=? 4 * x + above)
  else (4 * x - below <? 4 * c) && (4 * c <? 4 * x + above).

(** The decimal with the fewest significant digits that reads back as [x],
    the closest to [x] when there are two; [zeros] trailing zeros are tried,
    fewer at each turn. *)
Fixpoint shortest_from (x : Z) (zeros : nat) : Z :=
  match zeros with
  | O => x
  | S zeros' =>
      let p := 10 ^ Z.of_nat zeros in
      let lo := x / p * p in
      let hi := lo + p in
      match reads_back x lo, reads_back x hi with
      | true, true =>
          if x - lo <? hi - x then lo
          else if hi - x <? x - lo then hi
          else if Z.even (lo / p) then lo else hi
      | true, false => lo
      | false, true => hi
      | false, false => shortest_from x zeros'
      end
  end.

Definition shortest_decimal (x : Z) : Z :=
  if x <? 2 ^ 53 then x else shortest_from x (Z.to_nat (decimal_length x)).

Fixpoint strip_zeros (fuel : nat) (x : Z) : Z :=
  match fuel with
  | O => x
  | S fuel' => if (x mod 10 =? 0) && negb (x =? 0) then strip_zeros fuel' (x / 10) else x
  end.

(** [Number.prototype.toString] of a positive integer: its digits when it
    has at most 21, and otherwise the significant digits with an exponent. *)
Definition positive_to_string (x : Z) : string :=
  let x := nearest_double x in
  if 2 ^ 1024 <=? x then "Infinity"
  else
    let c := shortest_decimal x in
    let n := decimal_length c in
    if n <=? 21 then pretty c
    else
      let significant := pretty (strip_zeros (Z.to_nat n) c) in
      match significant with
      | String d EmptyString => String d EmptyString +:+ "e+" +:+ pretty (n - 1)
      | String d more => String d ("." +:+ more) +:+ "e+" +:+ pretty (n - 1)
      | EmptyString => EmptyString
      end.

(** [String(n)] of an integer. *)
Definition number_to_string (n : Z) : string :=
  if n =? 0 then "0"
  else if n <? 0 then "-" +:+ positive_to_string (- n)
  else positive_to_string n.

(** ** Conversion to a string *)

(** What a conversion throws for an object whose [toString] is not callable. *)
Definition cannot_convert : exn := JsError "Cannot convert object to primitive value".

(** The own property [k] of an object, if it has one. *)
Fixpoint find_field (k : string) (fields : list (string * value)) : option value :=
  match fields with
  | [] => None
  | (k', v) :: fields' => if String.eqb k k' then Some v else find_field k fields'
  end.

(** [String(v)], also the conversion of template literals and of [+=] to a
    string.  An array joins the conversions of its elements.  An object is
    converted by its [toString]: the inherited one gives [[object Object]];
    an own property of that name shadows it, is not callable, and neither is
    the inherited [valueOf] of any help, so the conversion throws. *)
Fixpoint to_string (v : value) : result string :=
  match v with
  | VUndef => Ok "undefined"
  | VNull => Ok "null"
  | VBool true => Ok "true"
  | VBool false => Ok "false"
  | VNum n => Ok (number_to_string n)
  | VStr s => Ok s
  | VArr items =>
      match
        (fix join_items (items : list value) : result (list string) :=
           match items with
           | [] => Ok []
           | x :: items' =>
               match (if nullish x then Ok EmptyString else to_string x) with
               | Ok part =>
                   match join_items items' with
                   | Ok parts => Ok (part :: parts)
                   | Throw e => Throw e
                   end
               | Throw e => Throw e
               end
           end) items
      with
      | Ok parts => Ok (js_join "," parts)
      | Throw e => Throw e
      end
  | VObj fields =>
      match find_field "toString" fields with
      | Some _ => Throw cannot_convert
      | None => Ok "[object Object]"
      end
  end.

(** White space of [String.prototype.trim] and of [\s] among the code units
    below 256: tab, line feed, vertical tab, form feed, carriage return,
    space and no-break space. *)
Definition is_js_space (c : ascii) : bool :=
  let n := nat_of_ascii c in
  ((9 <=? n)%nat && (n <=? 13)%nat) || (n =? 32)%nat || (n =? 160)%nat.

Fixpoint trimStart (s : string) : string :=
  match s with
  | EmptyString => EmptyString
  | String c s' => if is_js_space c then trimStart s' else s
  end.

Fixpoint trimEnd (s : string) : string :=
  match s with
  | EmptyString => EmptyString
  | String c s' =>
      match trimEnd s' with
      | EmptyString => if is_js_space c then EmptyString else String c EmptyString
      | kept => String c kept
      end
  end.

Definition trim (s : string) : string := trimEnd (trimStart s).

Definition all_space (s : string) : bool :=
  forallb is_js_space (String.list_ascii_of_string s).

(** The first, and the last, character of a string is white space. *)
Definition leading_space (s : string) : bool :=
  match s with
  | EmptyString => false
  | String c _ => is_js_space c
  end.

Fixpoint trailing_space (s : string) : bool :=
  match s with
  | EmptyString => false
  | String c EmptyString => is_js_space c
  | String _ s' => trailing_space s'
  end.

(** [s] is [text] without the white space at its two ends. *)
Definition trimmed_of (text s : string) : Prop :=
  ∃ before after,
    text = before +:+ s +:+ after ∧
    all_space before = true ∧ all_space after = true ∧
    leading_space s = false ∧ trailing_space s = false.

(** ** Text as numbers *)

(** An integer or an infinity: what [ToIntegerOrInfinity] gives. *)
Inductive integer_or_infinity : Type :=
| Finite (n : Z)
| PlusInfinity
| MinusInfinity.

(** The value of a digit in a radix, if it is one. *)
Definition digit_value (radix : Z) (c : ascii) : option Z :=
  let n := Z.of_nat (nat_of_ascii c) in
  let d :=
    if (48 <=? n) && (n <=? 57) then n - 48
    else if (97 <=? n) && (n <=? 122) then n - 87
    else if (65 <=? n) && (n <=? 90) then n - 55
    else radix in
  if d <? radix then Some d else None.

(** The longest prefix of digits: its value after [acc], how many digits it
    has, and what follows it. *)
Fixpoint read_digits (radix : Z) (s : string) (acc : Z) (count : Z) : Z * Z * string :=
  match s with
  | EmptyString => (acc, count, s)
  | String c s' =>
      match digit_value radix c with
      | Some d => read_digits radix s' (radix * acc + d) (count + 1)
      | None => (acc, count, s)
      end
  end.

(** A double that is at least [2^53] is an integer; [num / den] rounded to
    the nearest double and then truncated, for [0 <= num] and [0 < den]. *)
Definition round_and_truncate (num den : Z) : integer_or_infinity :=
  let n := num / den in
  if 2 ^ 53 <=? n then
    let unit := 2 ^ (Z.log2 n - 52) in
    let q := num / (den * unit) in
    let r := num - q * (den * unit) in
    let q := if (den * unit <? 2 * r) || ((den * unit =? 2 * r) && Z.odd q) then q + 1 else q in
    if 2 ^ 1024 <=? q * unit then PlusInfinity else Finite (q * unit)
  else
    (* the double is [n] or [n + 1]: [n + 1] when the value is at or above
       the midpoint between [n + 1] and the double before it *)
    let b := Z.log2 (n + 1) in
    let t := if n + 1 =? 2 ^ b then 54 - b else 53 - b in
    let lhs := num * 2 ^ t in
    let rhs := ((n + 1) * 2 ^ t - 1) * den in
    if (rhs <? lhs) || ((rhs =? lhs) && ((t =? 54 - b) || (b <? 52) || Z.even (n + 1)))
    then Finite (n + 1)
    else Finite n.

(** The integer part of the double a decimal literal denotes: the digits
    [digits], of which there are [count], times ten to the [exponent]. *)
Definition decimal_to_integer (digits count exponent : Z) : integer_or_infinity :=
  if digits =? 0 then Finite 0
  else if 310 <? count + exponent then PlusInfinity
  else if count + exponent <? 0 then Finite 0
  else round_and_truncate (digits * 10 ^ Z.max exponent 0) (10 ^ Z.max (- exponent) 0).

Definition negate (r : integer_or_infinity) : integer_or_infinity :=
  match r with
  | Finite n => Finite (- n)
  | PlusInfinity => MinusInfinity
  | MinusInfinity => PlusInfinity
  end.

(** The exponent part of a decimal literal and what follows it; [None] when
    there is an [e] without digits. *)
Definition read_exponent (s : string) : option (Z * string) :=
  match s with
  | String c s' =>
      if Ascii.eqb c "e" || Ascii.eqb c "E" then
        let '(negative, s1) :=
          match s' with
          | String "-" s1 => (true, s1)
          | String "+" s1 => (false, s1)
          | _ => (false, s')
          end in
        let '(e, count, rest) := read_digits 10 s1 0 0 in
        if count =? 0 then None else Some (if negative : bool then - e else e, rest)
      else Some (0, s)
  | EmptyString => Some (0, s)
  end.

(** An unsigned decimal literal: [Infinity], or digits with an optional
    fraction and exponent, at least one digit before the exponent. *)
Definition unsigned_decimal (s : string) : option integer_or_infinity :=
  if String.eqb s "Infinity" then Some PlusInfinity
  else
    let '(whole, whole_count, s1) := read_digits 10 s 0 0 in
    let '(digits, fraction_count, s2) :=
      match s1 with
      | String "." s1' => read_digits 10 s1' whole 0
      | _ => (whole, 0, s1)
      end in
    if whole_count + fraction_count =? 0 then None
    else
      match read_exponent s2 with
      | Some (e, EmptyString) =>
          Some (decimal_to_integer digits (Z.of_nat (String.length (pretty digits)))
                  (e - fraction_count))
      | _ => None
      end.

(** [0x], [0o] and [0b] literals. *)
Definition radix_literal (s : string) : option (option integer_or_infinity) :=
  match s with
  | String "0" (String c s') =>
      let radix :=
        if Ascii.eqb c "x" || Ascii.eqb c "X" then Some 16
        else if Ascii.eqb c "o" || Ascii.eqb c "O" then Some 8
        else if Ascii.eqb c "b" || Ascii.eqb c "B" then Some 2
        else None in
      match radix with
      | Some radix =>
          let '(n, count, rest) := read_digits radix s' 0 0 in
          Some (match rest with
                | EmptyString => if count =? 0 then None else Some (round_and_truncate n 1)
                | _ => None
                end)
      | None => None
      end
  | _ => None
  end.

(** [ToIntegerOrInfinity] of a string: the integer part of the number the
    string converts to, 0 when it converts to [NaN]. *)
Definition string_to_integer (s : string) : integer_or_infinity :=
  let s := trim s in
  default (Finite 0)
    (match s with
     | EmptyString => Some (Finite 0)
     | String "-" s' => negate <$> unsigned_decimal s'
     | String "+" s' => unsigned_decimal s'
     | _ =>
         match radix_literal s with
         | Some r => r
         | None => unsigned_decimal s
         end
     end).

(** ** Text content extraction *)

(** A [for ... of] loop whose body updates an accumulator and may throw. *)
Fixpoint foldR {A B : Type} (body : A → B → result A) (items : list B) (acc : A)
    : result A :=
  match items with
  | [] => Ok acc
  | x :: items' =>
      match body acc x with
      | Ok acc' => foldR body items' acc'
      | Throw e => Throw e
      end
  end.

(** A [map] with a function that may throw. *)
Fixpoint mapR {A B : Type} (f : A → result B) (items : list A) : result (list B) :=
  match items with
  | [] => Ok []
  | x :: items' =>
      match f x with
      | Ok y =>
          match mapR f items' with
          | Ok ys => Ok (y :: ys)
          | Throw e => Throw e
          end
      | Throw e => Throw e
      end
  end.

(** [extractTextContent], lines 529-544.  A truthy value that is not a string
    has a [para] or [_] property only when it is an object.  [text += x]
    converts [x] to a string, which throws for an object that cannot be
    converted. *)
Fixpoint extractTextContent (node : value) : result string :=
  if negb (truthy node) then Ok EmptyString
  else
    match node with
    | VStr s => Ok s
    | VObj fields =>
        let text := EmptyString in
        match
          with_prop "para" fields (Ok text) (λ para,
            if truthy para then
              match para with
              | VArr paras =>
                  foldR (λ text para,
                           match extractTextContent para with
                           | Ok extracted => Ok (text +:+ (extracted +:+ nl +:+ nl))
                           | Throw e => Throw e
                           end) paras text
              | _ =>
                  match extractTextContent para with
                  | Ok extracted => Ok (text +:+ (extracted +:+ nl +:+ nl))
                  | Throw e => Throw e
                  end
              end
            else Ok text)
        with
        | Throw e => Throw e
        | Ok text =>
            match
              with_prop "_" fields (Ok text) (λ direct,
                if truthy direct then
                  match to_string direct with
                  | Ok direct => Ok (text +:+ direct)
                  | Throw e => Throw e
                  end
                else Ok text)
            with
            | Throw e => Throw e
            | Ok text => Ok (trim text)
            end
        end
    | _ => Ok (trim EmptyString)
    end.

(** The paragraph children and the direct text of a node, read with the plain
    property accessors. *)
Definition paragraphs (node : value) : list value :=
  let para := opt_get node "para" in
  if truthy para then array_or_single para else [].

Definition direct_text (node : value) : result string :=
  let direct := opt_get node "_" in
  if truthy direct then to_string direct else Ok EmptyString.


(** Every direct text the extraction reaches converts to a string: that of
    the node, and those of its paragraphs, at every depth. *)
Inductive texts_convert : value → Prop :=
| texts_convert_node (node : value) (direct : string) :
    Forall texts_convert (paragraphs node) →
    direct_text node = Ok direct →
    texts_convert node.

(** No object of the value, at any depth, has a property of the given name. *)
Fixpoint without_property (name : string) (v : value) : bool :=
  match v with
  | VArr items => forallb (without_property name) items
  | VObj fields =>
      forallb (λ kv, negb (String.eqb name kv.1) && without_property name kv.2) fields
  | _ => true
  end.


(** ** Module listing extraction *)

(** The body of the loop over [node.module], lines 449-454: [modules.push] is
    an append to the accumulator. *)
Definition push_module (modules : list value) (mod' : value) : result (list value) :=
  attrs ← get mod' "$";
  if truthy (opt_get attrs "document") then
    document ← get attrs "document";
    title ← get mod' "title";
    Ok (modules ++
        [VObj [("id", document);
               ("title", js_or (opt_index0 title) (VStr "Untitled"))]])
  else Ok modules.

(** [traverse], lines 446-462; the array it pushes to is passed in and
    returned.  Only an object has a [module] or [subcollection] property. *)
Fixpoint traverse (node : value) (modules : list value) {struct node}
    : result (list value) :=
  match node with
  | VUndef | VNull => Throw (TypeError_read node "module")
  | VObj fields =>
      match
        with_prop "module" fields (Ok modules) (λ module,
          if truthy module then foldR push_module (array_or_single module) modules
          else Ok modules)
      with
      | Throw e => Throw e
      | Ok modules =>
          with_prop "subcollection" fields (Ok modules) (λ subcollection,
            if truthy subcollection then
              match subcollection with
              | VArr subs => foldR (λ modules sub, traverse sub modules) subs modules
              | _ => traverse subcollection modules
              end
            else Ok modules)
      end
  | _ => Ok modules
  end.

(** [extractModules], lines 443-471. *)
Definition extractModules (collection : value) : result (list value) :=
  let modules := [] in
  content ← get collection "content";
  if truthy content then
    foldR (λ modules content, traverse content modules) (array_or_single content) modules
  else Ok modules.

(** The module and subcollection children of a node, read with the plain
    property accessors. *)
Definition module_elements (node : value) : list value :=
  let module := opt_get node "module" in
  if truthy module then array_or_single module else [].

Definition subcollection_elements (node : value) : list value :=
  let subcollection := opt_get node "subcollection" in
  if truthy subcollection then array_or_single subcollection else [].

Definition content_elements (collection : value) : list value :=
  let content := opt_get collection "content" in
  if truthy content then array_or_single content else [].

(** [mod.$?.document] is truthy. *)
Definition has_document (mod' : value) : bool :=
  truthy (opt_get (opt_get mod' "$") "document").

(** The Module reference pushed for a module element. *)
Definition module_ref (mod' : value) : value :=
  VObj [("id", opt_get (opt_get mod' "$") "document");
        ("title", js_or (opt_index0 (opt_get mod' "title")) (VStr "Untitled"))].

(** The order of the listing: the module elements attached to a node that
    carry a document reference, in their order, and after them the listings of
    the node's subcollections, in their order. *)
Inductive listing : value → list value → Prop :=
| listing_node (node : value) (subs : list (list value)) :
    Forall2 listing (subcollection_elements node) subs →
    listing node
      (map module_ref (List.filter has_document (module_elements node)) ++ concat subs).

(** The module elements the traversal visits below a node: those attached to
    the node, and after them those it visits below the subcollections of the
    node, in their order. *)
Inductive visited : value → list value → Prop :=
| visited_node (node : value) (below : list (list value)) :
    Forall2 visited (subcollection_elements node) below →
    visited node (module_elements node ++ concat below).

(** What the XML parser builds: strings, arrays and objects. *)
Fixpoint parsed_tree (v : value) : bool :=
  match v with
  | VStr _ => true
  | VArr items => forallb parsed_tree items
  | VObj fields => forallb (λ kv, parsed_tree kv.2) fields
  | _ => false
  end.

(** An entry of the listing comes from a module element that carries a
    document reference. *)
Definition emitted_ref (m : value) : Prop :=
  ∃ mod', has_document mod' = true ∧ m = module_ref mod'.

(** A Module reference as the data model has it: an id that is present and not
    empty, and a title that is the upstream title or the sentinel. *)
Definition is_module_ref (m : value) : Prop :=
  ∃ id title,
    m = VObj [("id", id); ("title", title)] ∧
    truthy id = true ∧ id ≠ VStr EmptyString ∧ nullish id = false ∧
    truthy title = true.

(** The Module reference [m] is the one of the module element [mod']: its id
    is the document reference of the element, and its title is the first
    title of the element, or the sentinel when the element has no title or
    an empty one. *)
Definition module_reference (mod' m : value) : Prop :=
  is_module_ref m ∧
  opt_get m "id" = opt_get (opt_get mod' "$") "document" ∧
  (opt_get mod' "title" = VUndef → opt_get m "title" = VStr "Untitled") ∧
  (truthy (opt_index0 (opt_get mod' "title")) = false →
   opt_get m "title" = VStr "Untitled") ∧
  (truthy (opt_index0 (opt_get mod' "title")) = true →
   opt_get m "title" = opt_index0 (opt_get mod' "title")).

(** A collection with three module elements: one with a document reference
    and no title, one without a document reference, and an empty one. *)
Definition sparse_collection : value :=
  VObj [("content", VArr [VObj [("module", VArr [
     VObj [("$", VObj [("document", VStr "m1")])];
     VObj [("title", VArr [VStr "No reference"])];
     VStr EmptyString])]])].

(** Every node of a parsed tree is traversed without a throw; what is pushed
    is the listing of the node, and every entry is a Module reference. *)
Definition traverse_ok (node : value) : Prop :=
  parsed_tree node = true →
  ∀ modules, ∃ ms,
    traverse node modules = Ok (modules ++ ms) ∧ listing node ms ∧
    Forall emitted_ref ms.

(** ** The collection document and its parsed form *)

(** An element of the collection document: its tag, its attributes, its child
    elements in document order, and its character data. *)
Inductive element : Type :=
| Element (tag : string) (attrs : list (string * string)) (children : list element)
          (text : string).

Definition tag_of (e : element) : string :=
  match e with Element tag _ _ _ => tag end.

Definition children_of (e : element) : list element :=
  match e with Element _ _ children _ => children end.

Section element_induction.
Variable P : element → Prop.
Hypothesis Helement : ∀ tag attrs children text,
  Forall P children → P (Element tag attrs children text).

Fixpoint element_nested_ind (e : element) : P e :=
  match e with
  | Element tag attrs children text =>
      Helement tag attrs children text
        ((fix go (l : list element) : Forall P l :=
            match l with
            | [] => Forall_nil_2 P
            | x :: l' => Forall_cons_2 P x l' (element_nested_ind x) (go l')
            end) children)
  end.
End element_induction.

(** How xml2js attaches a parsed child to its parent: the children of one tag
    are collected, in their order, in one array under the tag. *)
Fixpoint add_child (k : string) (v : value) (fields : list (string * value))
    : list (string * value) :=
  match fields with
  | [] => [(k, VArr [v])]
  | (k', x) :: fields' =>
      if String.eqb k k' then
        (k', match x with VArr items => VArr (items ++ [v]) | _ => VArr [x; v] end) :: fields'
      else (k', x) :: add_child k v fields'
  end.

(** The tree [parseStringPromise] of xml2js builds for an element under its
    default options, the way the worker calls it: the attributes under [$],
    character data that is not white space under [_], the child elements
    grouped by tag, and a plain string for an element with neither attributes
    nor children.  Tags are XML names other than [_]. *)
Fixpoint xml2js (e : element) : value :=
  match e with
  | Element _ attrs children text =>
      let attributes :=
        match attrs with
        | [] => []
        | _ => [("$", VObj (map (λ a : string * string, (a.1, VStr a.2)) attrs))]
        end in
      let fields :=
        foldl (λ fields child, add_child (tag_of child) (xml2js child) fields)
              attributes children in
      match fields with
      | [] => VStr text
      | _ => if all_space text then VObj fields else VObj (("_", VStr text) :: fields)
      end
  end.

(** Document order of the Module references below a node: the children are
    visited in the order of the document, a module element gives its
    reference, a subcollection is entered. *)
Fixpoint document_order (e : element) : list value :=
  match e with
  | Element _ _ children _ =>
      flat_map (λ child,
        if String.eqb (tag_of child) "module" then
          if has_document (xml2js child) then [module_ref (xml2js child)] else []
        else if String.eqb (tag_of child) "subcollection" then document_order child
        else []) children
  end.

Definition collection_document_order (collection : element) : list value :=
  flat_map (λ child,
    if String.eqb (tag_of child) "content" then document_order child else [])
    (children_of collection).

(** No module element follows a subcollection among these siblings. *)
Fixpoint modules_before_subcollections (siblings : list element) : bool :=
  match siblings with
  | [] => true
  | e :: rest =>
      (if String.eqb (tag_of e) "subcollection" then
         forallb (λ e', negb (String.eqb (tag_of e') "module")) rest
       else true)
      && modules_before_subcollections rest
  end.

(** The same at every node the traversal enters. *)
Fixpoint modules_first (e : element) : bool :=
  match e with
  | Element _ _ children _ =>
      modules_before_subcollections children
      && forallb (λ child,
           if String.eqb (tag_of child) "subcollection" then modules_first child else true)
           children
  end.

Definition collection_modules_first (collection : element) : bool :=
  forallb (λ child,
    if String.eqb (tag_of child) "content" then modules_first child else true)
    (children_of collection).

(** A module element with a document reference and a title. *)
Definition module_element (document title : string) : element :=
  Element "module" [("document", document)] [Element "title" [] [] title] EmptyString.

(** The collection of the example: subcollections A with m1, m2 and B with m3. *)
Definition example_collection : element :=
  Element "collection" [] [
    Element "title" [] [] "Physics";
    Element "content" [] [
      Element "subcollection" [] [
        Element "title" [] [] "A";
        module_element "m1" "One"; module_element "m2" "Two"] EmptyString;
      Element "subcollection" [] [
        Element "title" [] [] "B";
        module_element "m3" "Three"] EmptyString] EmptyString] EmptyString.

(** A collection whose content has a subcollection before a module: the
    chapter with m1 comes first in the document, the appendix m2 after it. *)
Definition interleaved_collection : element :=
  Element "collection" [] [
    Element "content" [] [
      Element "subcollection" [] [module_element "m1" "One"] EmptyString;
      module_element "m2" "Two"] EmptyString] EmptyString.

(** The array xml2js holds under a tag after more children of that tag. *)
Fixpoint attach (held : option value) (vs : list value) : option value :=
  match vs with
  | [] => held
  | v :: vs' =>
      attach (Some match held with
                   | None => VArr [v]
                   | Some (VArr items) => VArr (items ++ [v])
                   | Some x => VArr [x; v]
                   end) vs'
  end.

Definition children_with_tag (k : string) (e : element) : list element :=
  List.filter (λ child, String.eqb (tag_of child) k) (children_of e).

(** ** More of the value layer *)

(** [a === b]; two arrays or two objects are the same only by reference, and
    the worker compares strings. *)
Definition strict_eq (a b : value) : bool :=
  match a, b with
  | VUndef, VUndef | VNull, VNull => true
  | VBool x, VBool y => Bool.eqb x y
  | VNum x, VNum y => x =? y
  | VStr x, VStr y => String.eqb x y
  | _, _ => false
  end.

(** [const { k } = v]: destructuring [undefined] or [null] throws a TypeError;
    [source] is the text of the destructured expression. *)
Definition destructure (v : value) (k source : string) : result value :=
  if nullish v then
    Throw (JsError ("Cannot destructure property '" +:+ k +:+ "' of '" +:+ source
                    +:+ "' as it is " +:+ typeof_name v +:+ "."))
  else Ok (opt_get v k).

(** [const { k = d } = v]: the default stands in for [undefined] only. *)
Definition or_default (v d : value) : value :=
  match v with
  | VUndef => d
  | _ => v
  end.

(** The message V8 gives a call of something that is not a function;
    [callee] is the text of the called expression. *)
Definition not_a_function (callee : string) : exn :=
  JsError (callee +:+ " is not a function").

(** The receiver of a string method that arrays do not have
    ([object.method(...)], where [object] is the text of the receiver): a
    string, or a TypeError. *)
Definition as_string (v : value) (object method : string) : result string :=
  match v with
  | VStr s => Ok s
  | VUndef | VNull => Throw (TypeError_read v method)
  | _ => Throw (not_a_function (object +:+ "." +:+ method))
  end.

(** The receiver of an array method that strings do not have. *)
Definition as_array (v : value) (object method : string) : result (list value) :=
  match v with
  | VArr items => Ok items
  | VUndef | VNull => Throw (TypeError_read v method)
  | _ => Throw (not_a_function (object +:+ "." +:+ method))
  end.

(** [items.filter(keep)], [items.map(f)] and [items.find(found)] with
    callbacks that may throw. *)
Fixpoint array_filter (keep : value → result bool) (items : list value)
    : result (list value) :=
  match items with
  | [] => Ok []
  | x :: items' =>
      k ← keep x;
      rest ← array_filter keep items';
      Ok (if k : bool then x :: rest else rest)
  end.

Fixpoint array_map (f : value → result value) (items : list value)
    : result (list value) :=
  match items with
  | [] => Ok []
  | x :: items' =>
      y ← f x;
      rest ← array_map f items';
      Ok (y :: rest)
  end.

Fixpoint array_find (found : value → result bool) (items : list value) : result value :=
  match items with
  | [] => Ok VUndef
  | x :: items' =>
      k ← found x;
      if k : bool then Ok x else array_find found items'
  end.

(** The own enumerable properties an object spread copies. *)
Definition own_properties (v : value) : list (string * value) :=
  match v with
  | VObj fields => fields
  | VArr items => imap (λ i x, (pretty i, x)) items
  | VStr s =>
      imap (λ i c, (pretty i, VStr (String c EmptyString))) (String.list_ascii_of_string s)
  | _ => []
  end.

(** Assignment to a property: an existing property keeps its place. *)
Fixpoint set_field (k : string) (v : value) (fields : list (string * value))
    : list (string * value) :=
  match fields with
  | [] => [(k, v)]
  | (k', x) :: fields' =>
      if String.eqb k k' then (k', v) :: fields' else (k', x) :: set_field k v fields'
  end.

(** [{ ...cached, from_cache: true }] *)
Definition with_from_cache (cached : value) : value :=
  VObj (set_field "from_cache" (VBool true) (own_properties cached)).

(** [JSON.parse(JSON.stringify(v))]: properties that are [undefined] are
    left out, array elements that are [undefined] become [null]. *)
Fixpoint json_roundtrip (v : value) : value :=
  match v with
  | VArr items =>
      VArr (map (λ x, match x with VUndef => VNull | _ => json_roundtrip x end) items)
  | VObj fields =>
      VObj (flat_map (λ kv : string * value,
              let (k, x) := kv in
              match x with VUndef => [] | _ => [(k, json_roundtrip x)] end) fields)
  | _ => v
  end.

(** String methods. *)
Definition startsWith (s search : string) : bool := String.prefix search s.

Definition endsWith (s search : string) : bool :=
  String.prefix (String.rev search) (String.rev s).

Fixpoint includes (s search : string) : bool :=
  String.prefix search s
  || match s with
     | EmptyString => false
     | String _ s' => includes s' search
     end.

Fixpoint string_drop (n : nat) (s : string) : string :=
  match n, s with
  | O, _ => s
  | S n', String _ s' => string_drop n' s'
  | S _, EmptyString => EmptyString
  end.

(** [s.slice(0, n)] for [0 <= n]: the first [n] code units. *)
Fixpoint string_take (n : nat) (s : string) : string :=
  match n, s with
  | S n', String c s' => String c (string_take n' s')
  | _, _ => EmptyString
  end.

(** [s.replace(pattern, replacement)] with a string pattern: the first
    occurrence only. *)
Fixpoint replace_first (pattern replacement s : string) : string :=
  if String.prefix pattern s then
    replacement +:+ string_drop (String.length pattern) s
  else
    match s with
    | EmptyString => EmptyString
    | String c s' => String c (replace_first pattern replacement s')
    end.

(** [s.replace(/c/g, d)] for single characters. *)
Fixpoint replace_char (c d : ascii) (s : string) : string :=
  match s with
  | EmptyString => EmptyString
  | String x s' => String (if Ascii.eqb x c then d else x) (replace_char c d s')
  end.

(** [s.replace(/pattern/g, '')] for a literal pattern that is not empty:
    [skip] characters of a match are still to be dropped. *)
Fixpoint remove_all_from (pattern : string) (skip : nat) (s : string) : string :=
  match s with
  | EmptyString => EmptyString
  | String c s' =>
      match skip with
      | S skip' => remove_all_from pattern skip' s'
      | O =>
          if String.prefix pattern s then
            remove_all_from pattern (String.length pattern - 1) s'
          else String c (remove_all_from pattern O s')
      end
  end.

Definition remove_all (pattern s : string) : string := remove_all_from pattern O s.

(** The lower case of a code unit below 256: the letters A to Z, and the
    letters from U+00C0 to U+00DE, which leaves out the multiplication sign
    U+00D7. *)
Definition lower_char (c : ascii) : ascii :=
  let n := nat_of_ascii c in
  if ((65 <=? n)%nat && (n <=? 90)%nat)
     || ((192 <=? n)%nat && (n <=? 222)%nat && negb (n =? 215)%nat)
  then ascii_of_nat (n + 32) else c.

Fixpoint toLowerCase (s : string) : string :=
  match s with
  | EmptyString => EmptyString
  | String c s' => String (lower_char c) (toLowerCase s')
  end.

(** [v?.slice(0, n)] for a constant [n]; [callee] is the text of the called
    expression. *)
Definition opt_slice (v : value) (callee : string) (n : nat) : result value :=
  match v with
  | VUndef | VNull => Ok VUndef
  | VStr s => Ok (VStr (string_take n s))
  | VArr items => Ok (VArr (take n items))
  | _ => Throw (not_a_function callee)
  end.

(** ** Built-ins: serialisation and number conversion *)

Definition double_quote : string := String (ascii_of_nat 34) EmptyString.
Definition backslash : string := String (ascii_of_nat 92) EmptyString.

Definition hex_digit (n : nat) : string :=
  String.substring n 1 "0123456789abcdef".

(** The escape of one character inside a JSON string. *)
Definition json_escape (c : ascii) : string :=
  let n := nat_of_ascii c in
  if (n =? 34)%nat then backslash +:+ double_quote
  else if (n =? 92)%nat then backslash +:+ backslash
  else if (n =? 8)%nat then backslash +:+ "b"
  else if (n =? 9)%nat then backslash +:+ "t"
  else if (n =? 10)%nat then backslash +:+ "n"
  else if (n =? 12)%nat then backslash +:+ "f"
  else if (n =? 13)%nat then backslash +:+ "r"
  else if (n <? 32)%nat then
    backslash +:+ "u00" +:+ hex_digit (n / 16) +:+ hex_digit (n mod 16)
  else String c EmptyString.

Fixpoint json_escape_all (s : string) : string :=
  match s with
  | EmptyString => EmptyString
  | String c s' => json_escape c +:+ json_escape_all s'
  end.

Definition json_quote (s : string) : string :=
  double_quote +:+ json_escape_all s +:+ double_quote.

Definition json_wrap (opening closing gap indent : string) (parts : list string) : string :=
  match parts, gap with
  | [], _ => opening +:+ closing
  | _, EmptyString => opening +:+ js_join "," parts +:+ closing
  | _, _ =>
      opening +:+ nl +:+ indent +:+ gap
      +:+ js_join ("," +:+ nl +:+ indent +:+ gap) parts
      +:+ nl +:+ indent +:+ closing
  end.

(** The text of a value at nesting [indent] with indentation unit [gap];
    [undefined] has none. *)
Fixpoint json_text (gap indent : string) (v : value) : option string :=
  match v with
  | VUndef => None
  | VNull => Some "null"
  | VBool true => Some "true"
  | VBool false => Some "false"
  | VNum n => Some (number_to_string n)
  | VStr s => Some (json_quote s)
  | VArr items =>
      Some (json_wrap "[" "]" gap indent
              (map (λ x, default "null" (json_text gap (indent +:+ gap) x)) items))
  | VObj fields =>
      Some (json_wrap "{" "}" gap indent
              (flat_map (λ kv : string * value,
                 let (k, x) := kv in
                 match json_text gap (indent +:+ gap) x with
                 | None => []
                 | Some t =>
                     [json_quote k
                      +:+ match gap with EmptyString => ":" | _ => ": " end +:+ t]
                 end) fields))
  end.

Fixpoint spaces (n : nat) : string :=
  match n with
  | O => EmptyString
  | S n' => String " " (spaces n')
  end.

(** [JSON.stringify(v, null, space)]; [JSON.stringify(v)] is the case of no
    space. *)
Definition JSON_stringify (v : value) (space : nat) : value :=
  match json_text (spaces space) EmptyString v with
  | Some t => VStr t
  | None => VUndef
  end.

(** [ToIntegerOrInfinity(v)], the conversion of an argument of [slice]:
    a string is read as a number, an array or an object is first converted
    to a string, which may throw, and [NaN] gives 0. *)
Definition to_integer (v : value) : result integer_or_infinity :=
  match v with
  | VNum n => Ok (Finite n)
  | VBool true => Ok (Finite 1)
  | VBool false | VNull | VUndef => Ok (Finite 0)
  | VStr s => Ok (string_to_integer s)
  | VArr _ | VObj _ => string_to_integer <$> to_string v
  end.

(** The length of [items.slice(0, end)] for items of length [len]: all of
    them when [end] is [undefined], and otherwise up to the integer [end]
    converts to, counted from the end when it is negative. *)
Definition slice_length (len : nat) (end_ : value) : result nat :=
  match end_ with
  | VUndef => Ok len
  | _ =>
      e ← to_integer end_;
      Ok (match e with
          | MinusInfinity => O
          | PlusInfinity => len
          | Finite e =>
              if e <? 0 then Z.to_nat (Z.max (Z.of_nat len + e) 0)
              else Z.to_nat (Z.min e (Z.of_nat len))
          end)
  end.

(** [v.slice(0, end)]; [callee] is the text of the called expression. *)
Definition slice_to (v : value) (callee : string) (end_ : value) : result value :=
  match v with
  | VArr items => n ← slice_length (length items) end_; Ok (VArr (take n items))
  | VStr s => n ← slice_length (String.length s) end_; Ok (VStr (string_take n s))
  | VUndef | VNull => Throw (TypeError_read v "slice")
  | _ => Throw (not_a_function callee)
  end.

(** The items a [for ... of] loop visits; [iterable] is the text of the
    expression. *)
Definition iterate (v : value) (iterable : string) : result (list value) :=
  match v with
  | VArr items => Ok items
  | VStr s => Ok (map (λ c, VStr (String c EmptyString)) (String.list_ascii_of_string s))
  | _ => Throw (JsError (iterable +:+ " is not iterable"))
  end.

(** [error instanceof Error ? error.message : 'Unknown error'] *)
Definition error_message (error : exn) : string :=
  match error with
  | JsError message => message
  | JsThrown _ => "Unknown error"
  end.

(** ** State, collaborators and asynchronous functions *)

(** The state outside the worker.  A KV namespace is what [get(key, 'json')]
    reads from it, with the expiry each entry was put with; the model has no
    clock, so no entry expires.  The vector index holds one entry for an id. *)
Record World : Type := {
  TEXTBOOK_CACHE : gmap string (value * Z);
  PRACTICE_PROBLEMS : gmap string (value * Z);
  NOTEBOOKS : gmap string (value * Z);
  VECTORIZE : gmap string value;
  console : list (string * exn);
}.

(** What [fetch] resolves to, as far as the worker reads it. *)
Module FetchResponse.
Record t : Type := { ok : bool; statusText : string; json : result value; text : string }.
End FetchResponse.

(** The collaborators: [fetch(url, init)], [parseStringPromise] of xml2js,
    [run] of Workers AI, and the answers of the vector index to [query] (over
    the entries upserted so far) and to [upsert]. *)
Record Externals : Type := {
  fetch : value → value → result FetchResponse.t;
  parseStringPromise : string → result value;
  ai_run : string → value → result value;
  vectorize_query : gmap string value → value → value → result value;
  vectorize_upsert : gmap string value → value → result unit;
}.

(** An asynchronous function: from the state to the new state and either the
    value its promise resolves to or the reason it rejects with. *)
Definition M (A : Type) : Type := World → World * result A.

#[global] Instance M_ret : MRet M := λ A a w, (w, Ok a).
#[global] Instance M_bind : MBind M := λ A B f m w,
  match m w with
  | (w', Ok a) => f a w'
  | (w', Throw e) => (w', Throw e)
  end.

(** Synchronous code inside an asynchronous function. *)
Definition liftR {A : Type} (r : result A) : M A := λ w, (w, r).

Definition throw {A : Type} (e : exn) : M A := λ w, (w, Throw e).

(** [try { body } catch (error) { handler }] around awaited code. *)
Definition try_catch {A : Type} (body : M A) (handler : exn → M A) : M A := λ w,
  match body w with
  | (w', Ok a) => (w', Ok a)
  | (w', Throw e) => handler e w'
  end.

(** [try { ... return p; } catch (error) { handler }] where the block runs
    synchronously and returns the promise [p] without awaiting it: the catch
    clause sees what the block throws, not what [p] rejects with. *)
Definition try_return {A : Type} (block : result (M A)) (handler : exn → M A) : M A :=
  match block with
  | Ok p => p
  | Throw e => handler e
  end.

(** A [for ... of] loop with an awaited body. *)
Fixpoint for_of {A B : Type} (body : A → B → M A) (items : list B) (acc : A) : M A :=
  match items with
  | [] => mret acc
  | x :: items' => acc' ← body acc x; for_of body items' acc'
  end.

(** [await namespace.get(key, 'json')]: [null] when the key is absent. *)
Definition kv_get (namespace : gmap string (value * Z)) (key : string) : value :=
  match namespace !! key with
  | Some entry => entry.1
  | None => VNull
  end.

(** [await namespace.put(key, JSON.stringify(v), { expirationTtl })], by what
    a later [get(key, 'json')] parses. *)
Definition kv_put (namespace : gmap string (value * Z)) (key : string) (v : value)
    (expirationTtl : Z) : gmap string (value * Z) :=
  <[key := (json_roundtrip v, expirationTtl)]> namespace.

Definition TEXTBOOK_CACHE_get (key : string) : M value := λ w,
  (w, Ok (kv_get (TEXTBOOK_CACHE w) key)).

Definition TEXTBOOK_CACHE_put (key : string) (v : value) (expirationTtl : Z) : M unit := λ w,
  ({| TEXTBOOK_CACHE := kv_put (TEXTBOOK_CACHE w) key v expirationTtl;
      PRACTICE_PROBLEMS := PRACTICE_PROBLEMS w; NOTEBOOKS := NOTEBOOKS w;
      VECTORIZE := VECTORIZE w; console := console w |}, Ok ()).

Definition PRACTICE_PROBLEMS_get (key : string) : M value := λ w,
  (w, Ok (kv_get (PRACTICE_PROBLEMS w) key)).

Definition PRACTICE_PROBLEMS_put (key : string) (v : value) (expirationTtl : Z) : M unit := λ w,
  ({| TEXTBOOK_CACHE := TEXTBOOK_CACHE w;
      PRACTICE_PROBLEMS := kv_put (PRACTICE_PROBLEMS w) key v expirationTtl;
      NOTEBOOKS := NOTEBOOKS w; VECTORIZE := VECTORIZE w; console := console w |}, Ok ()).

Definition NOTEBOOKS_get (key : string) : M value := λ w,
  (w, Ok (kv_get (NOTEBOOKS w) key)).

Definition NOTEBOOKS_put (key : string) (v : value) (expirationTtl : Z) : M unit := λ w,
  ({| TEXTBOOK_CACHE := TEXTBOOK_CACHE w; PRACTICE_PROBLEMS := PRACTICE_PROBLEMS w;
      NOTEBOOKS := kv_put (NOTEBOOKS w) key v expirationTtl;
      VECTORIZE := VECTORIZE w; console := console w |}, Ok ()).

(** [await this.env.VECTORIZE.query(vector, options)] *)
Definition VECTORIZE_query (ext : Externals) (vector options : value) : M value := λ w,
  (w, vectorize_query ext (VECTORIZE w) vector options).

(** [await this.env.VECTORIZE.upsert([entry])] for an entry with the id
    [id]: when the call succeeds the entry is in the index, in the place of
    the entry that had the id before, if there was one. *)
Definition VECTORIZE_upsert (ext : Externals) (id : string) (entry : value) : M unit := λ w,
  match vectorize_upsert ext (VECTORIZE w) entry with
  | Ok _ =>
      ({| TEXTBOOK_CACHE := TEXTBOOK_CACHE w; PRACTICE_PROBLEMS := PRACTICE_PROBLEMS w;
          NOTEBOOKS := NOTEBOOKS w; VECTORIZE := <[id := entry]> (VECTORIZE w);
          console := console w |}, Ok ())
  | Throw e => (w, Throw e)
  end.

(** [console.error(message, error)] *)
Definition console_error (message : string) (error : exn) : M unit := λ w,
  ({| TEXTBOOK_CACHE := TEXTBOOK_CACHE w; PRACTICE_PROBLEMS := PRACTICE_PROBLEMS w;
      NOTEBOOKS := NOTEBOOKS w; VECTORIZE := VECTORIZE w;
      console := console w ++ [(message, error)] |}, Ok ()).

(** The request headers of the calls to the GitHub API. *)
Definition github_headers : value :=
  VObj [("headers", VObj [("User-Agent", VStr "OpenStax-MCP-Server");
                          ("Accept", VStr "application/vnd.github.v3+json")])].

(** ** Tool implementations *)

(** The callbacks of [listTextbooks], lines 350-379. *)
Definition is_textbook_repo (r : value) : result bool :=
  name ← get r "name";
  name ← as_string name "r.name" "startsWith";
  if startsWith name "osbooks-" then
    Ok (negb (existsb (λ ex, includes name ex) ["template"; "playground"]))
  else Ok false.

Definition textbook_of_repo (r : value) : result value :=
  r_name ← get r "name";
  s ← as_string r_name "r.name" "replace";
  let name := replace_first "osbooks-" EmptyString s in
  let lang :=
    if includes name "fisica" || includes name "quimica" || includes name "calculo"
    then "es"
    else if includes name "fizyka" || includes name "mikroekonomia"
            || includes name "psychologia"
    then "pl"
    else "en" in
  html_url ← get r "html_url";
  description ← get r "description";
  updated_at ← get r "updated_at";
  stargazers_count ← get r "stargazers_count";
  Ok (VObj [("id", r_name);
            ("name", VStr (trim (remove_all "bundle" (replace_char "-" " " name))));
            ("repo", html_url);
            ("description", description);
            ("language", VStr lang);
            ("updated", updated_at);
            ("stars", stargazers_count)]).

Definition matches_filters (subject language t : value) : result bool :=
  subject_matches ←
    (if negb (truthy subject) then Ok true
     else
       name ← get t "name";
       name ← as_string name "t.name" "toLowerCase";
       wanted ← as_string subject "subject" "toLowerCase";
       Ok (includes (toLowerCase name) (toLowerCase wanted)));
  if subject_matches : bool then
    if negb (truthy language) then Ok true
    else
      t_language ← get t "language";
      Ok (strict_eq t_language language)
  else Ok false.

(** [listTextbooks], lines 326-389. *)
Definition listTextbooks (ext : Externals) (params : value) : M value :=
  subject ← liftR (destructure params "subject" "params");
  language ← liftR (destructure params "language" "params");
  cacheKey ← liftR (
    subject ← to_string (js_or subject (VStr "all"));
    language ← to_string (js_or language (VStr "all"));
    Ok ("textbooks_list_" +:+ subject +:+ "_" +:+ language));
  cached ← TEXTBOOK_CACHE_get cacheKey;
  if truthy cached then mret (with_from_cache cached)
  else
    response ← liftR (fetch ext
      (VStr "https://api.github.com/orgs/openstax/repos?per_page=100&type=public")
      github_headers);
    if negb (FetchResponse.ok response) then
      throw (JsError ("GitHub API error: " +:+ FetchResponse.statusText response))
    else
      repos ← liftR (FetchResponse.json response);
      textbooks ← liftR (
        repos ← as_array repos "repos" "filter";
        books ← array_filter is_textbook_repo repos;
        textbooks ← array_map textbook_of_repo books;
        array_filter (matches_filters subject language) textbooks);
      let result :=
        VObj [("textbooks", VArr textbooks);
              ("count", VNum (Z.of_nat (length textbooks)));
              ("from_cache", VBool false)] in
      _ ← TEXTBOOK_CACHE_put cacheKey result 86400;
      mret result.

(** [getTextbookStructure], lines 391-441. *)
Definition getTextbookStructure (ext : Externals) (params : value) : M value :=
  textbook_id ← liftR (destructure params "textbook_id" "params");
  cacheKey ← liftR (id ← to_string textbook_id; Ok ("structure_" +:+ id));
  cached ← TEXTBOOK_CACHE_get cacheKey;
  if truthy cached then mret (with_from_cache cached)
  else
    apiUrl ← liftR (
      id ← to_string textbook_id;
      Ok ("https://api.github.com/repos/openstax/" +:+ id +:+ "/contents/collections"));
    response ← liftR (fetch ext (VStr apiUrl) github_headers);
    if negb (FetchResponse.ok response) then
      throw (JsError ("Failed to fetch collections: " +:+ FetchResponse.statusText response))
    else
      files ← liftR (FetchResponse.json response);
      collectionFile ← liftR (
        files ← as_array files "files" "find";
        array_find (λ f,
          name ← get f "name";
          name ← as_string name "f.name" "endsWith";
          Ok (endsWith name ".collection.xml")) files);
      if negb (truthy collectionFile) then throw (JsError "No collection.xml found")
      else
        download_url ← liftR (get collectionFile "download_url");
        xmlResponse ← liftR (fetch ext download_url VUndef);
        let xmlContent := FetchResponse.text xmlResponse in
        parsed ← liftR (parseStringPromise ext xmlContent);
        collection ← liftR (get parsed "collection");
        modules ← liftR (extractModules collection);
        let structure :=
          [("title", js_or (opt_index0 (opt_get collection "title")) (VStr "Unknown"));
           ("modules", VArr modules);
           ("metadata", js_or (opt_index0 (opt_get collection "metadata")) (VObj []))] in
        let result := VObj (structure ++ [("from_cache", VBool false)]) in
        _ ← TEXTBOOK_CACHE_put cacheKey result 604800;
        mret result.

(** [getModuleContent], lines 473-527. *)
Definition getModuleContent (ext : Externals) (params : value) : M value :=
  textbook_id ← liftR (destructure params "textbook_id" "params");
  module_id ← liftR (destructure params "module_id" "params");
  include_images ←
    liftR ((λ v, or_default v (VBool true)) <$> destructure params "include_images" "params");
  cacheKey ← liftR (
    textbook ← to_string textbook_id;
    module ← to_string module_id;
    Ok ("module_" +:+ textbook +:+ "_" +:+ module));
  cached ← TEXTBOOK_CACHE_get cacheKey;
  if truthy cached then mret (with_from_cache cached)
  else
    moduleUrl ← liftR (
      textbook ← to_string textbook_id;
      module ← to_string module_id;
      Ok ("https://raw.githubusercontent.com/openstax/" +:+ textbook
          +:+ "/main/modules/" +:+ module +:+ "/index.cnxml"));
    response ← liftR (fetch ext (VStr moduleUrl) VUndef);
    if negb (FetchResponse.ok response) then
      message ← liftR (module ← to_string module_id; Ok ("Module " +:+ module +:+ " not found"));
      throw (JsError message)
    else
      let xmlContent := FetchResponse.text response in
      parsed ← liftR (parseStringPromise ext xmlContent);
      document ← liftR (get parsed "document");
      text ← liftR (extractTextContent (opt_index0 (opt_get document "content")));
      let content :=
        [("title", js_or (opt_index0 (opt_get document "title")) (VStr "Untitled"));
         ("content", VStr text);
         ("module_id", module_id);
         ("raw_xml", VStr xmlContent);
         ("from_cache", VBool false)] in
      content ←
        (if truthy include_images then
           mediaUrl ← liftR (
             textbook ← to_string textbook_id;
             module ← to_string module_id;
             Ok ("https://api.github.com/repos/openstax/" +:+ textbook
                 +:+ "/contents/modules/" +:+ module +:+ "/media"));
           mediaResponse ← liftR (fetch ext (VStr mediaUrl) github_headers);
           if FetchResponse.ok mediaResponse then
             mediaFiles ← liftR (FetchResponse.json mediaResponse);
             images ← liftR (
               mediaFiles ← as_array mediaFiles "mediaFiles" "map";
               array_map (λ f,
                 name ← get f "name";
                 url ← get f "download_url";
                 Ok (VObj [("name", name); ("url", url)])) mediaFiles);
             mret (set_field "images" (VArr images) content)
           else mret content
         else mret content) : M (list (string * value));
      _ ← TEXTBOOK_CACHE_put cacheKey (VObj content) 604800;
      mret (VObj content).

(** [semanticSearch], lines 546-570. *)
Definition semanticSearch (ext : Externals) (params : value) : M value :=
  query ← liftR (destructure params "query" "params");
  textbook_id ← liftR (destructure params "textbook_id" "params");
  limit ← liftR ((λ v, or_default v (VNum 5)) <$> destructure params "limit" "params");
  queryEmbedding ← liftR (ai_run ext "@cf/baai/bge-base-en-v1.5"
                             (VObj [("text", VArr [query])]));
  data ← liftR (get queryEmbedding "data");
  vector ← liftR (if nullish data then Throw (TypeError_read data "0")
                  else Ok (opt_index0 data));
  results ← VECTORIZE_query ext vector
    (VObj [("topK", limit);
           ("filter", if truthy textbook_id then VObj [("textbook_id", textbook_id)]
                      else VUndef)]);
  matches ← liftR (
    matches ← get results "matches";
    matches ← as_array matches "results.matches" "map";
    array_map (λ m,
      m_id ← get m "id";
      score ← get m "score";
      metadata ← get m "metadata";
      Ok (VObj [("module_id", m_id); ("score", score); ("metadata", metadata)])) matches);
  mret (VObj [("query", query); ("results", VArr matches)]).

(** [generatePracticeProblems], lines 572-615. *)
Definition generatePracticeProblems (ext : Externals) (params : value) : M value :=
  textbook_id ← liftR (destructure params "textbook_id" "params");
  module_id ← liftR (destructure params "module_id" "params");
  difficulty ←
    liftR ((λ v, or_default v (VStr "medium")) <$> destructure params "difficulty" "params");
  count ← liftR ((λ v, or_default v (VNum 5)) <$> destructure params "count" "params");
  cacheKey ← liftR (
    textbook ← to_string textbook_id;
    module ← to_string module_id;
    level ← to_string difficulty;
    Ok ("problems_" +:+ textbook +:+ "_" +:+ module +:+ "_" +:+ level));
  cached ← PRACTICE_PROBLEMS_get cacheKey;
  if truthy cached then mret (with_from_cache cached)
  else
    moduleData ← getModuleContent ext
      (VObj [("textbook_id", textbook_id); ("module_id", module_id);
             ("include_images", VBool false)]);
    prompt ← liftR (
      count ← to_string count;
      level ← to_string difficulty;
      title ← get moduleData "title";
      title ← to_string title;
      content ← get moduleData "content";
      excerpt ← opt_slice content "moduleData.content?.slice" 3000;
      excerpt ← to_string excerpt;
      Ok ("Based on this educational content, generate " +:+ count +:+ " "
          +:+ level +:+ " practice problems with detailed solutions." +:+ nl
          +:+ nl
          +:+ "Content Title: " +:+ title +:+ nl
          +:+ "Content: " +:+ excerpt +:+ nl
          +:+ nl
          +:+ "Format each problem as:" +:+ nl
          +:+ "Problem N:" +:+ nl
          +:+ "[problem statement]" +:+ nl
          +:+ nl
          +:+ "Solution N:" +:+ nl
          +:+ "[detailed solution]"));
    response ← liftR (ai_run ext "@cf/meta/llama-3.1-8b-instruct"
      (VObj [("messages", VArr [VObj [("role", VStr "user"); ("content", VStr prompt)]])]));
    generated ← liftR (get response "response");
    let problems :=
      VObj [("module_id", module_id);
            ("difficulty", difficulty);
            ("problems", generated);
            ("from_cache", VBool false)] in
    _ ← PRACTICE_PROBLEMS_put cacheKey problems 2592000;
    mret problems.

(** [generateJupyterNotebook], lines 617-686.  [include_solutions] is read
    from the arguments and not used. *)
Definition generateJupyterNotebook (ext : Externals) (params : value) : M value :=
  textbook_id ← liftR (destructure params "textbook_id" "params");
  module_id ← liftR (destructure params "module_id" "params");
  include_solutions ←
    liftR ((λ v, or_default v (VBool true))
           <$> destructure params "include_solutions" "params");
  cacheKey ← liftR (
    textbook ← to_string textbook_id;
    module ← to_string module_id;
    Ok ("notebook_" +:+ textbook +:+ "_" +:+ module));
  cached ← NOTEBOOKS_get cacheKey;
  if truthy cached then mret (with_from_cache cached)
  else
    moduleData ← getModuleContent ext
      (VObj [("textbook_id", textbook_id); ("module_id", module_id);
             ("include_images", VBool false)]);
    title ← liftR (title ← get moduleData "title"; to_string title);
    module ← liftR (to_string module_id);
    excerpt ← liftR (
      content ← get moduleData "content";
      excerpt ← opt_slice content "moduleData.content?.slice" 500;
      to_string excerpt);
    let notebook :=
      VObj [
        ("cells", VArr [
           VObj [("cell_type", VStr "markdown");
                 ("metadata", VObj []);
                 ("source", VArr [
                    VStr ("# " +:+ title +:+ nl +:+ nl);
                    VStr ("Generated from OpenStax MCP Server" +:+ nl);
                    VStr ("Module: " +:+ module +:+ nl)])];
           VObj [("cell_type", VStr "code");
                 ("execution_count", VNull);
                 ("metadata", VObj []);
                 ("outputs", VArr []);
                 ("source", VArr [
                    VStr ("# Import libraries" +:+ nl);
                    VStr ("import numpy as np" +:+ nl);
                    VStr ("import matplotlib.pyplot as plt" +:+ nl);
                    VStr ("import pandas as pd" +:+ nl)])];
           VObj [("cell_type", VStr "markdown");
                 ("metadata", VObj []);
                 ("source", VArr [
                    VStr ("## Content Summary" +:+ nl +:+ nl);
                    VStr (excerpt +:+ "..." +:+ nl)])];
           VObj [("cell_type", VStr "code");
                 ("execution_count", VNull);
                 ("metadata", VObj []);
                 ("outputs", VArr []);
                 ("source", VArr [
                    VStr ("# Example: Basic calculations" +:+ nl);
                    VStr ("# TODO: Add relevant examples based on module content" +:+ nl)])]]);
        ("metadata", VObj [
           ("kernelspec", VObj [("display_name", VStr "Python 3");
                                ("language", VStr "python");
                                ("name", VStr "python3")]);
           ("language_info", VObj [("name", VStr "python"); ("version", VStr "3.9.0")])]);
        ("nbformat", VNum 4);
        ("nbformat_minor", VNum 5)] in
    let result :=
      VObj [("notebook", notebook);
            ("module_id", module_id);
            ("textbook_id", textbook_id);
            ("from_cache", VBool false)] in
    _ ← NOTEBOOKS_put cacheKey result 2592000;
    mret result.

(** The id of the index entry of a module, line 717. *)
Definition entry_id (textbook_id module : value) : result string :=
  textbook ← to_string textbook_id;
  module_id ← get module "id";
  module_id ← to_string module_id;
  Ok (textbook +:+ "_" +:+ module_id).

(** The body of the [try] block of the indexing loop, lines 702-727. *)
Definition index_module (ext : Externals) (textbook_id module : value) : M unit :=
  module_id ← liftR (get module "id");
  moduleContent ← getModuleContent ext
    (VObj [("textbook_id", textbook_id); ("module_id", module_id);
           ("include_images", VBool false)]);
  text ← liftR (
    title ← get module "title";
    title ← to_string title;
    content ← get moduleContent "content";
    excerpt ← opt_slice content "moduleContent.content?.slice" 1000;
    excerpt ← to_string (js_or excerpt (VStr EmptyString));
    Ok (title +:+ " " +:+ excerpt));
  embedding ← liftR (ai_run ext "@cf/baai/bge-base-en-v1.5" (VObj [("text", VArr [VStr text])]));
  id ← liftR (entry_id textbook_id module);
  entry ← liftR (
    data ← get embedding "data";
    values ← (if nullish data then Throw (TypeError_read data "0") else Ok (opt_index0 data));
    metadata_id ← get module "id";
    metadata_title ← get module "title";
    Ok (VObj [("id", VStr id);
              ("values", values);
              ("metadata", VObj [("textbook_id", textbook_id);
                                 ("module_id", metadata_id);
                                 ("title", metadata_title)])]));
  VECTORIZE_upsert ext id entry.

(** One turn of the loop, lines 700-731: a failure of the body is logged and
    the loop goes on; what the [catch] clause itself throws ends the loop. *)
Definition index_step (ext : Externals) (textbook_id : value) (indexed : Z) (module : value)
    : M Z :=
  try_catch
    (_ ← index_module ext textbook_id module; mret (indexed + 1))
    (λ error,
       message ← liftR (
         module_id ← get module "id";
         module_id ← to_string module_id;
         Ok ("Failed to index " +:+ module_id +:+ ":"));
       _ ← console_error message error;
       mret indexed).

(** [indexTextbookForSearch], lines 688-739. *)
Definition indexTextbookForSearch (ext : Externals) (params : value) : M value :=
  textbook_id ← liftR (destructure params "textbook_id" "params");
  max_modules ←
    liftR ((λ v, or_default v (VNum 20)) <$> destructure params "max_modules" "params");
  structure ← getTextbookStructure ext (VObj [("textbook_id", textbook_id)]);
  let indexed := 0 in
  modulesToIndex ← liftR (
    modules ← get structure "modules";
    slice_to modules "structure.modules.slice" max_modules);
  modules ← liftR (iterate modulesToIndex "modulesToIndex");
  indexed ← for_of (index_step ext textbook_id) modules indexed;
  total_modules ← liftR (modules ← get structure "modules"; get modules "length");
  mret (VObj [("indexed", VNum indexed);
              ("total_modules", total_modules);
              ("textbook_id", textbook_id);
              ("message", VStr ("Successfully indexed " +:+ number_to_string indexed
                                +:+ " modules for semantic search"))]).

(** ** The protocol handler *)

(** [errorResponse], lines 741-747. *)
Definition errorResponse (id : value) (code : Z) (message : string) : value :=
  VObj [("jsonrpc", VStr "2.0");
        ("id", id);
        ("error", VObj [("code", VNum code); ("message", VStr message)])].

(** [handleInitialize], lines 93-108. *)
Definition handleInitialize (request : value) : result value :=
  id ← get request "id";
  Ok (VObj [("jsonrpc", VStr "2.0");
            ("id", id);
            ("result", VObj [
               ("protocolVersion", VStr "2024-11-05");
               ("capabilities", VObj [("tools", VObj [])]);
               ("serverInfo", VObj [("name", VStr "openstax-mcp-server");
                                    ("version", VStr "2.0.0")])])]).

(** The tool catalog of [handleToolsList], lines 111-261. *)
Definition tools : list value := [
  VObj [("name", VStr "list_textbooks");
        ("description", VStr "Get comprehensive list of all OpenStax textbooks with metadata. Supports filtering by subject and language.");
        ("inputSchema", VObj [
           ("type", VStr "object");
           ("properties", VObj [
              ("subject", VObj [
                 ("type", VStr "string");
                 ("description", VStr "Optional: Filter by subject area (e.g., physics, chemistry, biology, math)")]);
              ("language", VObj [
                 ("type", VStr "string");
                 ("enum", VArr [VStr "en"; VStr "es"; VStr "pl"]);
                 ("description", VStr "Optional: Filter by language (en=English, es=Spanish, pl=Polish)")])])])];
  VObj [("name", VStr "get_textbook_structure");
        ("description", VStr "Get complete table of contents and structure from collection.xml. Returns chapter/module organization with caching.");
        ("inputSchema", VObj [
           ("type", VStr "object");
           ("properties", VObj [
              ("textbook_id", VObj [
                 ("type", VStr "string");
                 ("description", VStr ("Textbook repo name (e.g., " +:+ double_quote +:+ "osbooks-college-physics-bundle" +:+ double_quote +:+ ")"))])]);
           ("required", VArr [VStr "textbook_id"])])];
  VObj [("name", VStr "get_module_content");
        ("description", VStr "Retrieve full content of a specific chapter/module including text, equations, and images. Cached for performance.");
        ("inputSchema", VObj [
           ("type", VStr "object");
           ("properties", VObj [
              ("textbook_id", VObj [
                 ("type", VStr "string");
                 ("description", VStr "Textbook repo name")]);
              ("module_id", VObj [
                 ("type", VStr "string");
                 ("description", VStr ("Module ID (e.g., " +:+ double_quote +:+ "m12345" +:+ double_quote +:+ ")"))]);
              ("include_images", VObj [
                 ("type", VStr "boolean");
                 ("description", VStr "Include image URLs from media folder");
                 ("default", VBool true)])]);
           ("required", VArr [VStr "textbook_id"; VStr "module_id"])])];
  VObj [("name", VStr "semantic_search");
        ("description", VStr "Search textbook content using AI semantic understanding. Returns most relevant modules based on natural language query.");
        ("inputSchema", VObj [
           ("type", VStr "object");
           ("properties", VObj [
              ("query", VObj [
                 ("type", VStr "string");
                 ("description", VStr "Natural language search query")]);
              ("textbook_id", VObj [
                 ("type", VStr "string");
                 ("description", VStr "Optional: Limit to specific textbook")]);
              ("limit", VObj [
                 ("type", VStr "number");
                 ("description", VStr "Number of results (default: 5)");
                 ("default", VNum 5)])]);
           ("required", VArr [VStr "query"])])];
  VObj [("name", VStr "generate_practice_problems");
        ("description", VStr "Generate AI-powered practice problems for a module with solutions. Supports multiple difficulty levels.");
        ("inputSchema", VObj [
           ("type", VStr "object");
           ("properties", VObj [
              ("textbook_id", VObj [
                 ("type", VStr "string");
                 ("description", VStr "Textbook repo name")]);
              ("module_id", VObj [
                 ("type", VStr "string");
                 ("description", VStr "Module ID")]);
              ("difficulty", VObj [
                 ("type", VStr "string");
                 ("enum", VArr [VStr "easy"; VStr "medium"; VStr "hard"]);
                 ("description", VStr "Problem difficulty");
                 ("default", VStr "medium")]);
              ("count", VObj [
                 ("type", VStr "number");
                 ("description", VStr "Number of problems to generate");
                 ("default", VNum 5)])]);
           ("required", VArr [VStr "textbook_id"; VStr "module_id"])])];
  VObj [("name", VStr "generate_jupyter_notebook");
        ("description", VStr "Generate .ipynb Jupyter notebook with examples, exercises, and code cells for a module. Perfect for interactive learning.");
        ("inputSchema", VObj [
           ("type", VStr "object");
           ("properties", VObj [
              ("textbook_id", VObj [
                 ("type", VStr "string");
                 ("description", VStr "Textbook repo name")]);
              ("module_id", VObj [
                 ("type", VStr "string");
                 ("description", VStr "Module ID")]);
              ("include_solutions", VObj [
                 ("type", VStr "boolean");
                 ("description", VStr "Include solution cells");
                 ("default", VBool true)])]);
           ("required", VArr [VStr "textbook_id"; VStr "module_id"])])];
  VObj [("name", VStr "index_textbook_for_search");
        ("description", VStr "Index a textbook's content into vector database for semantic search. Run this before using semantic_search on a new textbook.");
        ("inputSchema", VObj [
           ("type", VStr "object");
           ("properties", VObj [
              ("textbook_id", VObj [
                 ("type", VStr "string");
                 ("description", VStr "Textbook repo name to index")]);
              ("max_modules", VObj [
                 ("type", VStr "number");
                 ("description", VStr "Max modules to index (for testing, default: 20)");
                 ("default", VNum 20)])]);
           ("required", VArr [VStr "textbook_id"])])]].

(** [handleToolsList], lines 110-268. *)
Definition handleToolsList (request : value) : result value :=
  id ← get request "id";
  Ok (VObj [("jsonrpc", VStr "2.0");
            ("id", id);
            ("result", VObj [("tools", VArr tools)])]).

(** The [switch] of [handleToolCall], lines 275-299: the operation a tool
    name selects; [None] is the [default] case. *)
Definition tool_named (ext : Externals) (name : value) : option (value → M value) :=
  if strict_eq name (VStr "list_textbooks") then Some (listTextbooks ext)
  else if strict_eq name (VStr "get_textbook_structure") then Some (getTextbookStructure ext)
  else if strict_eq name (VStr "get_module_content") then Some (getModuleContent ext)
  else if strict_eq name (VStr "semantic_search") then Some (semanticSearch ext)
  else if strict_eq name (VStr "generate_practice_problems")
    then Some (generatePracticeProblems ext)
  else if strict_eq name (VStr "generate_jupyter_notebook")
    then Some (generateJupyterNotebook ext)
  else if strict_eq name (VStr "index_textbook_for_search")
    then Some (indexTextbookForSearch ext)
  else None.

(** [handleToolCall], lines 270-320.  The arguments are destructured before
    the [try] block. *)
Definition handleToolCall (ext : Externals) (request : value) : M value :=
  params ← liftR (get request "params");
  name ← liftR (destructure params "name" "request.params");
  args ← liftR (destructure params "arguments" "request.params");
  try_catch
    (match tool_named ext name with
     | Some tool =>
         result ← tool args;
         id ← liftR (get request "id");
         mret (VObj [("jsonrpc", VStr "2.0");
                     ("id", id);
                     ("result", VObj [
                        ("content", VArr [
                           VObj [("type", VStr "text");
                                 ("text", JSON_stringify result 2)]])])])
     | None =>
         id ← liftR (get request "id");
         name ← liftR (to_string name);
         mret (errorResponse id (-32602) ("Unknown tool: " +:+ name))
     end)
    (λ error,
       id ← liftR (get request "id");
       mret (errorResponse id (-32603) ("Tool execution error: " +:+ error_message error))).

(** [handleRequest], lines 72-91.  The [switch] runs inside the [try] block;
    [handleToolCall] is asynchronous and its promise is returned, not
    awaited. *)
Definition handleRequest (ext : Externals) (request : value) : M value :=
  try_return
    (method ← get request "method";
     if strict_eq method (VStr "initialize") then
       response ← handleInitialize request; Ok (mret response)
     else if strict_eq method (VStr "tools/list") then
       response ← handleToolsList request; Ok (mret response)
     else if strict_eq method (VStr "tools/call") then
       Ok (handleToolCall ext request)
     else
       id ← get request "id";
       method ← to_string method;
       Ok (mret (errorResponse id (-32601) ("Method not found: " +:+ method))))
    (λ error,
       id ← liftR (get request "id");
       mret (errorResponse id (-32603) ("Internal error: " +:+ error_message error))).

(** ** The worker entry point *)

(** The request the worker receives, as far as it reads it: the method, the
    URL, and what [request.json()] gives. *)
Module Request.
Record t : Type := { method : string; url : string; json : result value }.
End Request.

(** The response the worker builds: [new Response(body, { status, headers })];
    the status is 200 when none is given. *)
Module Response.
Record t : Type := { body : value; status : Z; headers : list (string * string) }.
End Response.

(** [fetch] of the default export, lines 755-816. *)
Definition worker_fetch (ext : Externals) (request : Request.t) : M Response.t :=
  if String.eqb (Request.method request) "OPTIONS" then
    mret {| Response.body := VNull;
            Response.status := 200;
            Response.headers := [("Access-Control-Allow-Origin", "*");
                                 ("Access-Control-Allow-Methods", "POST, GET, OPTIONS");
                                 ("Access-Control-Allow-Headers", "Content-Type")] |}
  else if endsWith (Request.url request) "/health" then
    mret {| Response.body :=
              JSON_stringify (VObj [("status", VStr "healthy");
                                    ("service", VStr "openstax-mcp-server")]) 0;
            Response.status := 200;
            Response.headers := [("Content-Type", "application/json")] |}
  else if String.eqb (Request.method request) "POST" then
    try_catch
      (mcpRequest ← liftR (Request.json request);
       mcpResponse ← handleRequest ext mcpRequest;
       mret {| Response.body := JSON_stringify mcpResponse 0;
               Response.status := 200;
               Response.headers := [("Content-Type", "application/json");
                                    ("Access-Control-Allow-Origin", "*")] |})
      (λ error,
         mret {| Response.body :=
                   JSON_stringify
                     (VObj [("jsonrpc", VStr "2.0");
                            ("id", VNull);
                            ("error", VObj [("code", VNum (-32700));
                                            ("message", VStr "Parse error")])]) 0;
                 Response.status := 400;
                 Response.headers := [("Content-Type", "application/json")] |})
  else
    mret {| Response.body :=
              JSON_stringify
                (VObj [("service", VStr "OpenStax MCP Server");
                       ("version", VStr "2.0.0");
                       ("docs", VStr "https://github.com/pythpythpython/openstax-mcp-server")]) 0;
            Response.status := 200;
            Response.headers := [("Content-Type", "application/json")] |}.

(** The answer of the worker to a body it cannot handle. *)
Definition parse_error_response : Response.t :=
  {| Response.body :=
       JSON_stringify
         (VObj [("jsonrpc", VStr "2.0");
                ("id", VNull);
                ("error", VObj [("code", VNum (-32700)); ("message", VStr "Parse error")])]) 0;
     Response.status := 400;
     Response.headers := [("Content-Type", "application/json")] |}.

(** ** A fixed upstream for examples *)

Definition empty_world : World :=
  {| TEXTBOOK_CACHE := ∅; PRACTICE_PROBLEMS := ∅; NOTEBOOKS := ∅;
     VECTORIZE := ∅; console := [] |}.

Definition mock_repo (name : string) : value :=
  VObj [("name", VStr name);
        ("html_url", VStr ("https://github.com/openstax/" +:+ name));
        ("description", VNull);
        ("updated_at", VStr "2024-01-01T00:00:00Z");
        ("stargazers_count", VNum 7)].

Definition mock_repos : value :=
  VArr [mock_repo "osbooks-college-physics-bundle";
        mock_repo "osbooks-fisica-universitaria-bundle";
        mock_repo "osbooks-calculus-all-volumes";
        mock_repo "osbooks-playground";
        mock_repo "cnx-recipes"].

Definition found (json : value) (text : string) : FetchResponse.t :=
  {| FetchResponse.ok := true; FetchResponse.statusText := "OK";
     FetchResponse.json := Ok json; FetchResponse.text := text |}.

Definition not_found : FetchResponse.t :=
  {| FetchResponse.ok := false; FetchResponse.statusText := "Not Found";
     FetchResponse.json := Throw (JsError "Unexpected token N in JSON at position 0");
     FetchResponse.text := "Not Found" |}.

(** One textbook, [osbooks-physics], with the collection of the example; the
    content of module m2 is missing upstream. *)
Definition mock_fetch (url init : value) : result FetchResponse.t :=
  match url with
  | VStr url =>
      if String.eqb url "https://api.github.com/orgs/openstax/repos?per_page=100&type=public"
      then Ok (found mock_repos EmptyString)
      else if String.eqb url
                "https://api.github.com/repos/openstax/osbooks-physics/contents/collections"
      then Ok (found (VArr [VObj [("name", VStr "physics.collection.xml");
                                  ("download_url", VStr "https://raw.example/physics.collection.xml")]])
                     EmptyString)
      else if String.eqb url "https://raw.example/physics.collection.xml"
      then Ok (found VNull "collection")
      else if String.eqb url
                "https://raw.githubusercontent.com/openstax/osbooks-physics/main/modules/m1/index.cnxml"
      then Ok (found VNull "document")
      else if String.eqb url
                "https://raw.githubusercontent.com/openstax/osbooks-physics/main/modules/m3/index.cnxml"
      then Ok (found VNull "document")
      else Ok not_found
  | _ => Throw (JsError "Invalid URL")
  end.

Definition mock_parse (xml : string) : result value :=
  if String.eqb xml "collection" then Ok (VObj [("collection", xml2js example_collection)])
  else if String.eqb xml "document" then
    Ok (VObj [("document",
               VObj [("title", VArr [VStr "Kinematics"]);
                     ("content", VArr [VObj [("para", VArr [VStr "Motion in one dimension."])]])])])
  else Throw (JsError "Non-whitespace before first tag.").

Definition mock : Externals :=
  {| fetch := mock_fetch;
     parseStringPromise := mock_parse;
     ai_run := λ model inputs,
       Ok (VObj [("data", VArr [VArr [VNum 1; VNum 2; VNum 3]]);
                 ("response", VStr "Problem 1: ...")]);
     vectorize_query := λ index vector options, Ok (VObj [("matches", VArr [])]);
     vectorize_upsert := λ index entry, Ok () |}.

(** The response carries the permissive cross-origin header. *)
Definition allows_any_origin (response : Response.t) : bool :=
  existsb (λ h : string * string,
             String.eqb h.1 "Access-Control-Allow-Origin" && String.eqb h.2 "*")
          (Response.headers response).

(** A call of [get_module_content] for the module that is missing upstream. *)
Definition tools_call_example : value :=
  VObj [("jsonrpc", VStr "2.0"); ("id", VStr "X"); ("method", VStr "tools/call");
        ("params", VObj [("name", VStr "get_module_content");
                         ("arguments", VObj [("textbook_id", VStr "osbooks-physics");
                                             ("module_id", VStr "m2")])])].

(** A [tools/call] request without [params]. *)
Definition tools_call_without_params : value :=
  VObj [("jsonrpc", VStr "2.0"); ("id", VNum 1); ("method", VStr "tools/call")].

(** Requests to the worker: the liveness check, a body that is not JSON, and
    a path the worker does not route. *)
Definition health_request : Request.t :=
  {| Request.method := "GET"; Request.url := "https://worker.example/health";
     Request.json := Throw (JsError "Unexpected end of JSON input") |}.

Definition malformed_request : Request.t :=
  {| Request.method := "POST"; Request.url := "https://worker.example/mcp";
     Request.json := Throw (JsError "Unexpected token h in JSON at position 0") |}.

Definition other_request : Request.t :=
  {| Request.method := "GET"; Request.url := "https://worker.example/";
     Request.json := Throw (JsError "Unexpected end of JSON input") |}.

(** ** The cache-backed operations *)

Inductive cached_operation : Type :=
| list_textbooks
| get_textbook_structure
| get_module_content
| generate_practice_problems
| generate_jupyter_notebook.

Definition run_operation (ext : Externals) (op : cached_operation) : value → M value :=
  match op with
  | list_textbooks => listTextbooks ext
  | get_textbook_structure => getTextbookStructure ext
  | get_module_content => getModuleContent ext
  | generate_practice_problems => generatePracticeProblems ext
  | generate_jupyter_notebook => generateJupyterNotebook ext
  end.

(** The KV namespace an operation caches in. *)
Definition operation_cache (op : cached_operation) (w : World) : gmap string (value * Z) :=
  match op with
  | generate_practice_problems => PRACTICE_PROBLEMS w
  | generate_jupyter_notebook => NOTEBOOKS w
  | _ => TEXTBOOK_CACHE w
  end.

(** The cache key an operation computes from its arguments; the conversion
    of an argument to a string may throw. *)
Definition operation_key (op : cached_operation) (params : value) : result string :=
  match op with
  | list_textbooks =>
      subject ← to_string (js_or (opt_get params "subject") (VStr "all"));
      language ← to_string (js_or (opt_get params "language") (VStr "all"));
      Ok ("textbooks_list_" +:+ subject +:+ "_" +:+ language)
  | get_textbook_structure =>
      textbook ← to_string (opt_get params "textbook_id");
      Ok ("structure_" +:+ textbook)
  | get_module_content =>
      textbook ← to_string (opt_get params "textbook_id");
      module ← to_string (opt_get params "module_id");
      Ok ("module_" +:+ textbook +:+ "_" +:+ module)
  | generate_practice_problems =>
      textbook ← to_string (opt_get params "textbook_id");
      module ← to_string (opt_get params "module_id");
      level ← to_string (or_default (opt_get params "difficulty") (VStr "medium"));
      Ok ("problems_" +:+ textbook +:+ "_" +:+ module +:+ "_" +:+ level)
  | generate_jupyter_notebook =>
      textbook ← to_string (opt_get params "textbook_id");
      module ← to_string (opt_get params "module_id");
      Ok ("notebook_" +:+ textbook +:+ "_" +:+ module)
  end.

(** What the first lookup of the operation reads: the entry under the key,
    [null] when there is none; nothing is read when no key is computed. *)
Definition cached_entry (op : cached_operation) (params : value) (w : World) : value :=
  match operation_key op params with
  | Ok key => kv_get (operation_cache op w) key
  | Throw _ => VUndef
  end.

(** The first lookup of the operation is made and misses. *)
Definition cache_miss (op : cached_operation) (params : value) (w : World) : Prop :=
  ∃ key, operation_key op params = Ok key ∧
         truthy (kv_get (operation_cache op w) key) = false.

(** The properties JSON keeps of an object. *)
Definition json_fields (fields : list (string * value)) : list (string * value) :=
  own_properties (json_roundtrip (VObj fields)).

(** No name occurs twice. *)
Fixpoint distinct (names : list string) : bool :=
  match names with
  | [] => true
  | name :: names' => negb (existsb (String.eqb name) names') && distinct names'
  end.

(** A freshly computed payload: an object, with one property for a name,
    whose [from_cache] is [false]. *)
Definition fresh_payload (r : value) : Prop :=
  ∃ fields, r = VObj fields ∧ find_field "from_cache" fields = Some (VBool false) ∧
            distinct (map fst fields) = true.

(** The names of the properties of a payload that have a value, in their
    order: the properties a client sees. *)
Definition defined_keys (v : value) : list string :=
  map fst (List.filter (λ kv : string * value,
                          match kv.2 with VUndef => false | _ => true end)
                       (own_properties v)).

(** The arguments of the examples: module m1 of the one textbook. *)
Definition module_m1 : value :=
  VObj [("textbook_id", VStr "osbooks-physics"); ("module_id", VStr "m1")].

(** ** Indexing: the outcome of each turn *)

Definition succeeded {A : Type} (outcome : World * result A) : bool :=
  match outcome.2 with
  | Ok _ => true
  | Throw _ => false
  end.

(** For the modules the loop visits, in turn: whether the resolve, embed and
    upsert sequence of the module succeeded, run from the state the turns
    before it left. *)
Fixpoint index_outcomes (ext : Externals) (textbook_id : value) (modules : list value)
    (w : World) : list bool :=
  match modules with
  | [] => []
  | module :: modules' =>
      succeeded (index_module ext textbook_id module w)
      :: index_outcomes ext textbook_id modules' (index_step ext textbook_id 0 module w).1
  end.

(** A module the loop can name when it logs a failure: it is not [null] or
    [undefined], and its id converts to a string. *)
Definition identified (module : value) : Prop :=
  nullish module = false ∧ ∃ id, to_string (opt_get module "id") = Ok id.

(** How many turns succeeded, and how many failed. *)
Definition successes (outcomes : list bool) : nat :=
  length (List.filter (λ b : bool, b) outcomes).

Definition failures (outcomes : list bool) : nat :=
  length (List.filter negb outcomes).

(** The bound of the loop: [max_modules], 20 when it is not given. *)
Definition module_bound (params : value) : value :=
  or_default (opt_get params "max_modules") (VNum 20).

(** The modules the loop visits: the prefix [slice(0, max_modules)] takes. *)
Definition modules_to_index (modules : list value) (params : value)
    : result (list value) :=
  n ← slice_length (length modules) (module_bound params);
  Ok (take n modules).

Definition index_physics (max_modules : value) : value :=
  VObj [("textbook_id", VStr "osbooks-physics"); ("max_modules", max_modules)].

(** The three Module references of the example collection. *)
Definition physics_modules : list value :=
  [VObj [("id", VStr "m1"); ("title", VStr "One")];
   VObj [("id", VStr "m2"); ("title", VStr "Two")];
   VObj [("id", VStr "m3"); ("title", VStr "Three")]].

Definition physics_structure : value :=
  VObj [("title", VStr "Physics"); ("modules", VArr physics_modules);
        ("metadata", VObj []); ("from_cache", VBool false)].

(** A state in which the structure of the one textbook is cached with a
    module list that holds [null]. *)
Definition null_module_world : World :=
  {| TEXTBOOK_CACHE :=
       {["structure_osbooks-physics" :=
           (VObj [("title", VStr "Physics"); ("modules", VArr [VNull])], 604800)]};
     PRACTICE_PROBLEMS := ∅; NOTEBOOKS := ∅; VECTORIZE := ∅; console := [] |}.

(** The arguments of the two listing calls that share a cache key. *)
Definition list_all : value := VObj [].

Definition list_subject_all : value := VObj [("subject", VStr "all")].

Definition mock_textbook (id name language : string) : value :=
  VObj [("id", VStr id); ("name", VStr name);
        ("repo", VStr ("https://github.com/openstax/" +:+ id));
        ("description", VNull); ("language", VStr language);
        ("updated", VStr "2024-01-01T00:00:00Z"); ("stars", VNum 7)].

(** ** Proof automation *)

Ltac unfold_run :=
  unfold mbind, M_bind, mret, M_ret, liftR, throw, fmap, result_fmap,
    TEXTBOOK_CACHE_get, TEXTBOOK_CACHE_put, PRACTICE_PROBLEMS_get, PRACTICE_PROBLEMS_put,
    NOTEBOOKS_get, NOTEBOOKS_put in *.

(** One step back through a run that resolved: the outcome of the next
    synchronous step, condition or awaited call is case-split, and the cases
    that throw are closed. *)
Ltac run_step H :=
  cbv beta iota zeta in H;
  match type of H with
  | (match ?r with Ok _ => _ | Throw _ => _ end) = _ =>
      let a := fresh "a" in
      let Ha := fresh "Hstep" in
      destruct r as [a|?] eqn:Ha; [|discriminate H]
  | (match ?r with Ok _ => _ | Throw _ => _ end) _ = _ =>
      let a := fresh "a" in
      let Ha := fresh "Hstep" in
      destruct r as [a|?] eqn:Ha; [|discriminate H]
  | (if ?b then _ else _) = _ =>
      let Hb := fresh "Hcond" in destruct b eqn:Hb; try discriminate H
  | (if ?b then _ else _) _ = _ =>
      let Hb := fresh "Hcond" in destruct b eqn:Hb; try discriminate H
  | (let (_, _) := ?p in _) = _ =>
      let w := fresh "w" in
      let o := fresh "o" in
      let Hp := fresh "Hcall" in
      destruct p as [w [o|?]] eqn:Hp; [|discriminate H]
  end.

(** ** The stdio bridge *)

(** [s.split('\n')]: the pieces between line feeds; never empty. *)
Fixpoint split_newline (s : string) : list string :=
  match s with
  | EmptyString => [EmptyString]
  | String c s' =>
      if Ascii.eqb c "010" then EmptyString :: split_newline s'
      else
        match split_newline s' with
        | piece :: pieces => String c piece :: pieces
        | [] => [String c EmptyString]
        end
  end.

(** The handler of [data] events of the bridge, [packages/cli/index.js] lines
    39-51, with the buffer it keeps between events passed in and returned:
    the chunk is appended, the last piece stays in the buffer, every other
    piece that is not blank is parsed and posted; a piece [JSON.parse]
    rejects is skipped.  The result lists the payloads in the order [post] is
    called with them. *)
Definition on_data (JSON_parse : string → result value) (buffer chunk : string)
    : string * list value :=
  let buffer := buffer +:+ chunk in
  let lines := split_newline buffer in
  let buffer := List.last lines EmptyString in
  let lines := List.removelast lines in
  (buffer,
   flat_map (λ line,
     if truthy (VStr (trim line)) then
       match JSON_parse line with
       | Ok request => [request]
       | Throw _ => []
       end
     else []) lines).

(** [post], [packages/cli/index.js] lines 10-33: what it writes to standard
    output, if anything.  Whatever is thrown inside is caught and dropped. *)
Definition post (ext : Externals) (url : string) (payload : value) : option value :=
  match
    (if negb (truthy payload) || (length (own_properties payload) =? 0)%nat then Ok None
     else
       response ← fetch ext (VStr url)
         (VObj [("method", VStr "POST");
                ("headers", VObj [("Content-Type", VStr "application/json")]);
                ("body", JSON_stringify payload 0)]);
       if negb (FetchResponse.ok response) then Ok None
       else
         data ← FetchResponse.json response;
         id ← get data "id";
         if strict_eq id VNull || strict_eq id VUndef then Ok None
         else Ok (Some (JSON_stringify data 0)))
  with
  | Ok written => written
  | Throw _ => None
  end.

(** An upstream for the bridge that answers every request with the same
    JSON-RPC reply. *)
Definition bridge_reply : value :=
  VObj [("jsonrpc", VStr "2.0"); ("id", VNum 1); ("result", VObj [])].

Definition bridge_upstream : Externals :=
  {| fetch := λ url init, Ok (found bridge_reply EmptyString);
     parseStringPromise := λ xml, Throw (JsError "not used");
     ai_run := λ model inputs, Throw (JsError "not used");
     vectorize_query := λ index vector options, Throw (JsError "not used");
     vectorize_upsert := λ index entry, Throw (JsError "not used") |}.

(** The names the catalog of [tools/list] gives. *)
Definition tool_names : list value := map (λ tool, opt_get tool "name") tools.

(** A request with a method the handler does not know, and a call of a tool
    it does not know. *)
Definition ping_request : value :=
  VObj [("jsonrpc", VStr "2.0"); ("id", VNum 7); ("method", VStr "ping")].

Definition unknown_tool_request : value :=
  VObj [("jsonrpc", VStr "2.0"); ("id", VNum 8); ("method", VStr "tools/call");
        ("params", VObj [("name", VStr "delete_textbook"); ("arguments", VObj [])])].

(** An upstream in which every module exists. *)
Definition every_module_upstream : Externals :=
  {| fetch := λ url init, Ok (found (VArr []) "document");
     parseStringPromise := mock_parse;
     ai_run := ai_run mock;
     vectorize_query := vectorize_query mock;
     vectorize_upsert := vectorize_upsert mock |}.

(** The arguments of [get_module_content] and of [generate_practice_problems]. *)
Definition module_args (textbook_id module_id : string) : value :=
  VObj [("textbook_id", VStr textbook_id); ("module_id", VStr module_id)].

Definition problems_args (count : Z) : value :=
  VObj [("textbook_id", VStr "osbooks-physics"); ("module_id", VStr "m1");
        ("count", VNum count)].

Definition module_m1_images (include_images : bool) : value :=
  VObj [("textbook_id", VStr "osbooks-physics"); ("module_id", VStr "m1");
        ("include_images", VBool include_images)].

(** Whatever a traversal pushes, when it returns, is Module references after
    what was there. *)
Definition traverse_sound (node : value) : Prop :=
  ∀ modules result,
    traverse node modules = Ok result →
    ∃ ms, result = modules ++ ms ∧ Forall emitted_ref ms.

(** An upstream whose collection file has a namespace prefix on its root
    element, as xml2js keeps it. *)
Definition prefixed_upstream : Externals :=
  {| fetch := mock_fetch;
     parseStringPromise := λ xml,
       Ok (VObj [("col:collection", xml2js example_collection)]);
     ai_run := ai_run mock;
     vectorize_query := vectorize_query mock;
     vectorize_upsert := vectorize_upsert mock |}.

Definition physics : value := VObj [("textbook_id", VStr "osbooks-physics")].

(** A textbook passes the two filters of a listing. *)
Definition passes_filters (subject language t : value) : bool :=
  match matches_filters subject language t with
  | Ok passes => passes
  | Throw _ => false
  end.

Definition list_es : value := VObj [("language", VStr "es")].

(** An index that answers every query with the same two matches. *)
Definition two_matches : value :=
  VObj [("matches", VArr [
    VObj [("id", VStr "osbooks-physics_m3"); ("score", VNum 9);
          ("metadata", VObj [("title", VStr "Three")])];
    VObj [("id", VStr "osbooks-physics_m1"); ("score", VNum 7);
          ("metadata", VObj [("title", VStr "One")])]])].

Definition search_upstream : Externals :=
  {| fetch := mock_fetch;
     parseStringPromise := mock_parse;
     ai_run := ai_run mock;
     vectorize_query := λ index vector options, Ok two_matches;
     vectorize_upsert := vectorize_upsert mock |}.

Definition search_motion : value := VObj [("query", VStr "motion")].

(** The envelope of a JSON-RPC 2.0 response to the request with id [id]:
    either a result or an error object with one of the codes the handler
    uses, never both. *)
Definition is_jsonrpc_response (id response : value) : Prop :=
  opt_get response "jsonrpc" = VStr "2.0" ∧
  opt_get response "id" = id ∧
  ((opt_get response "result" ≠ VUndef ∧ opt_get response "error" = VUndef) ∨
   (opt_get response "result" = VUndef ∧
    ∃ code message,
      opt_get response "error" = VObj [("code", VNum code); ("message", VStr message)] ∧
      code ∈ [-32601; -32602; -32603])).

(** ** More proof automation *)

(** One step back through a run, whatever its outcome. *)
Ltac run_split H :=
  cbv beta iota zeta in H;
  match type of H with
  | (match ?r with Ok _ => _ | Throw _ => _ end) = _ => destruct r eqn:?
  | (match ?r with Ok _ => _ | Throw _ => _ end) _ = _ => destruct r eqn:?
  | (if ?b then _ else _) = _ => destruct b eqn:?
  | (if ?b then _ else _) _ = _ => destruct b eqn:?
  | (let (_, _) := ?p in _) = _ =>
      let w := fresh "w" in
      let o := fresh "o" in
      let Hp := fresh "Hcall" in
      destruct p as [w [o|?]] eqn:Hp
  end.

(** ** Facts about the value layer *)

Lemma append_cons (x : ascii) (a b : string) : String x a +:+ b = String x (a +:+ b).
Proof. reflexivity. Qed.

Lemma append_empty_l (a : string) : EmptyString +:+ a = a.
Proof. reflexivity. Qed.

Lemma append_assoc (a b c : string) : (a +:+ b) +:+ c = a +:+ (b +:+ c).
Proof. induction a as [|x a IH]; [done | by rewrite !append_cons, IH]. Qed.


Lemma with_prop_lookup {A : Type} (k : string) fields (absent : A) present :
  present VUndef = absent →
  with_prop k fields absent present = present (lookup_field k fields).
Proof.
  intros Habs. unfold with_prop.
  induction fields as [|[k' v] fields IH]; simpl; [done |].
  by destruct (String.eqb k k').
Qed.


(** ** Conversions on examples *)

Example number_to_string_examples :
  number_to_string 42 = "42" ∧ number_to_string (-7) = "-7" ∧
  number_to_string (2 ^ 53) = "9007199254740992" ∧
  number_to_string (2 ^ 64) = "18446744073709552000" ∧
  number_to_string (10 ^ 21) = "1e+21" ∧
  number_to_string (2 ^ 70) = "1.1805916207174113e+21".
Proof. repeat split; vm_compute; reflexivity. Qed.

Example to_string_examples :
  to_string (VArr [VNum 1; VNull; VArr [VStr "a"; VUndef]; VBool true]) = Ok "1,,a,,true" ∧
  to_string (VObj [("id", VNum 1)]) = Ok "[object Object]" ∧
  to_string (VObj [("toString", VNull)]) = Throw cannot_convert ∧
  to_string (VArr [VNum 1; VObj [("toString", VStr "x")]]) = Throw cannot_convert.
Proof. repeat split; reflexivity. Qed.

Example string_to_integer_examples :
  string_to_integer "2.5" = Finite 2 ∧ string_to_integer "1e1" = Finite 10 ∧
  string_to_integer "0x2" = Finite 2 ∧ string_to_integer "Infinity" = PlusInfinity ∧
  string_to_integer " 12 " = Finite 12 ∧ string_to_integer "-2.9" = Finite (-2) ∧
  string_to_integer "12px" = Finite 0 ∧ string_to_integer EmptyString = Finite 0 ∧
  string_to_integer "0.9999999999999999" = Finite 0 ∧
  string_to_integer "0.99999999999999999" = Finite 1 ∧
  string_to_integer "1e400" = PlusInfinity.
Proof. repeat split; vm_compute; reflexivity. Qed.

Example toLowerCase_examples :
  toLowerCase "OpenStax PHYSICS" = "openstax physics" ∧
  toLowerCase (String (ascii_of_nat 201) (String (ascii_of_nat 215) EmptyString))
  = String (ascii_of_nat 233) (String (ascii_of_nat 215) EmptyString).
Proof. split; reflexivity. Qed.

(** ** Trimming *)

Lemma all_space_app (a b : string) :
  all_space (a +:+ b) = all_space a && all_space b.
Proof.
  unfold all_space. induction a as [|c a IH]; [done|].
  rewrite append_cons. simpl. by rewrite IH, andb_assoc.
Qed.

Lemma trimStart_spec (s : string) :
  ∃ before, s = before +:+ trimStart s ∧ all_space before = true ∧
            leading_space (trimStart s) = false.
Proof.
  induction s as [|c s (before & Hs & Hbefore & Hlead)]; simpl.
  - by exists EmptyString.
  - destruct (is_js_space c) eqn:Hc.
    + exists (String c before). rewrite append_cons, <- Hs. split; [done|].
      split; [|done]. unfold all_space in *. simpl. by rewrite Hc.
    + exists EmptyString. by rewrite append_empty_l.
Qed.



Lemma trimStart_all_space (before rest : string) :
  all_space before = true → trimStart (before +:+ rest) = trimStart rest.
Proof.
  unfold all_space. induction before as [|c before IH]; [done|].
  rewrite append_cons. simpl. intros [-> Hrest]%andb_prop. by apply IH.
Qed.

Lemma trimEnd_all_space (after : string) : all_space after = true → trimEnd after = EmptyString.
Proof.
  unfold all_space. induction after as [|c after IH]; [done|]. simpl.
  intros [-> Hrest]%andb_prop. by rewrite IH.
Qed.

Lemma trimEnd_kept (s after : string) :
  s ≠ EmptyString → trailing_space s = false → all_space after = true →
  trimEnd (s +:+ after) = s.
Proof.
  intros Hs Htrail Hafter. induction s as [|c s IH]; [done|].
  rewrite append_cons. cbn [trimEnd]. destruct s as [|c' s].
  - rewrite append_empty_l, trimEnd_all_space by done. simpl in Htrail. by rewrite Htrail.
  - rewrite IH by done. done.
Qed.

(** What [trimmed_of] says of a text holds of one string only. *)
Lemma trimmed_of_trim (text s : string) : trimmed_of text s → s = trim text.
Proof.
  intros (before & after & -> & Hbefore & Hafter & Hlead & Htrail). unfold trim.
  rewrite trimStart_all_space by done. destruct s as [|c s].
  - rewrite append_empty_l.
    destruct (trimStart_spec after) as (skipped & Hsplit & _ & _).
    assert (all_space (trimStart after) = true) as Hrest.
    { rewrite Hsplit, all_space_app in Hafter. by apply andb_prop in Hafter as [_ ?]. }
    by rewrite trimEnd_all_space.
  - rewrite append_cons. simpl in Hlead. cbn [trimStart]. rewrite Hlead.
    rewrite <- append_cons. by rewrite trimEnd_kept.
Qed.

(** ** Text content extraction in direct style *)





Lemma mapR_returns {A B : Type} (f : A → result B) (items : list A) :
  Forall (λ x, ∃ y, f x = Ok y) items ↔ ∃ ys, mapR f items = Ok ys.
Proof.
  induction items as [|x items IH]; simpl.
  - split; [by eexists | constructor].
  - split.
    + inversion 1 as [|? ? [y Hy] Hrest]; subst. apply IH in Hrest as [ys Hys].
      rewrite Hy, Hys. by eexists.
    + intros [ys Hys]. destruct (f x) as [y|e] eqn:Hx; [|done].
      destruct (mapR f items) as [ys'|e] eqn:Hrest; [|done].
      constructor; [by eexists|]. apply IH. by eexists.
Qed.


Lemma lookup_field_Forall (P : value → Prop) (k : string) fields :
  Forall (λ kv, P kv.2) fields →
  lookup_field k fields = VUndef ∨ P (lookup_field k fields).
Proof.
  induction 1 as [|[k' v] fields Hv _ IH]; simpl; [by left|].
  destruct (String.eqb k k'); [by right | done].
Qed.

(** The paragraphs of a node are among its parts: what holds for every part
    of a node, and for the elements of the parts that are arrays, holds for
    its paragraphs. *)
Lemma paragraphs_Forall (P : value → Prop) (fields : list (string * value)) :
  Forall (λ kv, P kv.2 ∧ match kv.2 with VArr items => Forall P items | _ => True end)
         fields →
  Forall P (paragraphs (VObj fields)).
Proof.
  intros Hfields. unfold paragraphs. simpl.
  destruct (lookup_field_Forall
              (λ v, P v ∧ match v with VArr items => Forall P items | _ => True end)
              "para" fields Hfields) as [->|[Hpara Hitems]]; [done|].
  destruct (truthy (lookup_field "para" fields)); [|done].
  destruct (lookup_field "para" fields); simpl; by repeat constructor.
Qed.

(** The conversion of an array in direct style. *)
Lemma to_string_array (items : list value) :
  to_string (VArr items) =
    match mapR (λ x, if nullish x then Ok EmptyString else to_string x) items with
    | Ok parts => Ok (js_join "," parts)
    | Throw e => Throw e
    end.
Proof.
  cbn [to_string].
  match goal with
  | |- match ?join items with Ok _ => _ | Throw _ => _ end = _ =>
      assert (∀ l, join l = mapR (λ x, if nullish x then Ok EmptyString else to_string x) l)
        as Hjoin; [|by rewrite Hjoin]
  end.
  induction l as [|x l IH]; [done|]. cbn [mapR]. by rewrite IH.
Qed.


Lemma extractTextContent_leaf (node : value) :
  (∀ fields, node ≠ VObj fields) →
  texts_convert node ∧ (∃ s, extractTextContent node = Ok s) ∧
  (∀ e, extractTextContent node ≠ Throw e).
Proof.
  intros Hleaf. split.
  - apply (texts_convert_node _ EmptyString).
    + destruct node; try by constructor. by destruct (Hleaf fields).
    + destruct node; try done. by destruct (Hleaf fields).
  - destruct node as [| |b|n|s|items|fields]; simpl;
      try (split; [by eexists|done]).
    + destruct b; (split; [by eexists|done]).
    + destruct (n =? 0); (split; [by eexists|done]).
    + destruct s; (split; [by eexists|done]).
    + by destruct (Hleaf fields).
Qed.


Lemma find_field_without (name : string) (fields : list (string * value)) :
  forallb (λ kv, negb (String.eqb name kv.1) && without_property name kv.2) fields = true →
  find_field name fields = None.
Proof.
  induction fields as [|[k v] fields IH]; simpl; [done|].
  destruct (String.eqb name k); simpl; [done|].
  intros [_ Hrest]%andb_prop. by apply IH.
Qed.

Lemma without_property_fields (name : string) (fields : list (string * value)) :
  forallb (λ kv, negb (String.eqb name kv.1) && without_property name kv.2) fields = true →
  Forall (λ kv, without_property name kv.2 = true) fields.
Proof.
  induction fields as [|[k v] fields IH]; simpl; [constructor|].
  intros [[_ Hv]%andb_prop Hrest]%andb_prop. constructor; [done|by apply IH].
Qed.

(** A value converts to a string when no object in it has a property
    [toString]. *)
Lemma to_string_without_toString (v : value) :
  without_property "toString" v = true → ∃ s, to_string v = Ok s.
Proof.
  induction v as [| | b | n | s | items IH | fields _] using value_nested_ind;
    try (by eexists); [destruct b; by eexists| |].
  - intros Hitems. rewrite to_string_array.
    assert (∃ parts, mapR (λ x, if nullish x then Ok EmptyString else to_string x) items
                     = Ok parts) as [parts ->]; [|by eexists].
    apply mapR_returns. cbn [without_property] in Hitems.
    rewrite forallb_forall in Hitems. rewrite Forall_forall in IH.
    apply Forall_forall. intros x Hin. destruct (nullish x); [by eexists|].
    apply (IH x Hin), Hitems. by apply list_elem_of_In.
  - intros Hfields. cbn [without_property] in Hfields. cbn [to_string].
    rewrite (find_field_without _ _ Hfields). by eexists.
Qed.

(** So does every direct text of a tree in which no object has a property
    [toString]: the extraction returns on it. *)
Lemma texts_convert_without_toString (node : value) :
  without_property "toString" node = true → texts_convert node.
Proof.
  set (P := λ node, without_property "toString" node = true → texts_convert node).
  enough (P node ∧ match node with VArr items => Forall P items | _ => True end)
    as [H _] by exact H.
  induction node as [| | b | n | s | items IH | fields IH] using value_nested_ind;
    try (split; [intros _; by apply extractTextContent_leaf|done]).
  - split; [intros _; by apply extractTextContent_leaf|].
    eapply Forall_impl; [exact IH|]. by intros v [Hv _].
  - split; [|done]. intros Hfields. cbn [without_property] in Hfields.
    assert (Forall (λ v, without_property "toString" v = true → texts_convert v)
                   (paragraphs (VObj fields))) as Hparas by by apply paragraphs_Forall.
    assert (Forall (λ v, without_property "toString" v = true) (paragraphs (VObj fields)))
      as Hwithout.
    { apply paragraphs_Forall. apply without_property_fields in Hfields.
      eapply Forall_impl; [exact Hfields|]. intros [k v] Hv. split; [done|].
      simpl in *. destruct v; try done. cbn [without_property] in Hv.
      apply Forall_forall. intros x Hin. rewrite forallb_forall in Hv.
      apply Hv. by apply list_elem_of_In. }
    assert (∃ direct, direct_text (VObj fields) = Ok direct) as [direct Hdirect].
    { unfold direct_text. destruct (truthy _); [|by eexists].
      apply to_string_without_toString. simpl.
      destruct (lookup_field_Forall (λ v, without_property "toString" v = true)
                  "_" fields (without_property_fields _ _ Hfields)) as [->|H]; done. }
    apply (texts_convert_node _ direct); [|done].
    rewrite Forall_forall in Hparas, Hwithout. apply Forall_forall.
    intros para Hin. by apply (Hparas para Hin), Hwithout.
Qed.




Example extractTextContent_absent :
  extractTextContent VUndef = Ok EmptyString ∧ extractTextContent VNull = Ok EmptyString.
Proof. done. Qed.

Example trim_no_break_space :
  trim (String (ascii_of_nat 160) (" a b" +:+ String (ascii_of_nat 160) nl)) = "a b".
Proof. reflexivity. Qed.

(** ** The listing in direct style *)

Lemma get_defined (v : value) (k : string) :
  nullish v = false → get v k = Ok (opt_get v k).
Proof. unfold get. by intros ->. Qed.

Lemma truthy_not_nullish (v : value) : truthy v = true → nullish v = false.
Proof. by destruct v. Qed.

Lemma opt_get_nullish (v : value) (k : string) : nullish v = true → opt_get v k = VUndef.
Proof. by destruct v. Qed.

Lemma parsed_tree_not_nullish (v : value) : parsed_tree v = true → nullish v = false.
Proof. by destruct v. Qed.

Lemma push_module_spec (modules : list value) (mod' : value) :
  nullish mod' = false →
  push_module modules mod' =
    Ok (modules ++ (if has_document mod' then [module_ref mod'] else [])).
Proof.
  intros Hmod. unfold push_module, has_document, module_ref.
  rewrite !(get_defined mod') by done. simpl.
  destruct (truthy (opt_get (opt_get mod' "$") "document")) eqn:Hdoc.
  - assert (nullish (opt_get mod' "$") = false) as Hattrs.
    { destruct (nullish (opt_get mod' "$")) eqn:Hn; [|done].
      by rewrite (opt_get_nullish _ _ Hn) in Hdoc. }
    by rewrite get_defined.
  - by rewrite app_nil_r.
Qed.

Lemma foldR_push_module (mods modules : list value) :
  Forall (λ m, nullish m = false) mods →
  foldR push_module mods modules =
    Ok (modules ++ map module_ref (List.filter has_document mods)).
Proof.
  intros Hmods. revert modules.
  induction Hmods as [|m mods Hm _ IH]; intros modules; simpl.
  - by rewrite app_nil_r.
  - rewrite push_module_spec by done. rewrite IH.
    destruct (has_document m); simpl; by rewrite <- ?app_assoc, ?app_nil_r.
Qed.

(** [traverse] as the source reads: the loop over the module elements, then
    the loop over the subcollections. *)
Lemma traverse_unfold (node : value) (modules : list value) :
  traverse node modules =
    if nullish node then Throw (TypeError_read node "module")
    else
      modules ← foldR push_module (module_elements node) modules;
      foldR (λ modules sub, traverse sub modules) (subcollection_elements node) modules.
Proof.
  destruct node as [| |b|n|s|items|fields]; try done.
  simpl. unfold module_elements, subcollection_elements. simpl.
  rewrite (with_prop_lookup "module") by done.
  assert (∀ modules',
    with_prop "subcollection" fields (Ok modules') (λ subcollection,
      if truthy subcollection then
        match subcollection with
        | VArr subs => foldR (λ modules sub, traverse sub modules) subs modules'
        | _ => traverse subcollection modules'
        end
      else Ok modules')
    = foldR (λ modules sub, traverse sub modules)
        (if truthy (lookup_field "subcollection" fields)
         then array_or_single (lookup_field "subcollection" fields) else []) modules')
    as Hsub.
  { intros modules'. rewrite (with_prop_lookup "subcollection") by done.
    destruct (lookup_field "subcollection" fields) as [| |b|n|s|subs|fs];
      try done.
    - by destruct b.
    - simpl. by destruct (n =? 0).
    - by destruct s.
    - cbn [truthy array_or_single foldR]. by destruct (traverse _ _). }
  destruct (truthy (lookup_field "module" fields)); simpl.
  - destruct (foldR push_module _ modules) as [modules'|e]; simpl; [|done].
    apply Hsub.
  - apply Hsub.
Qed.

Lemma forallb_Forall {A : Type} (p : A → bool) (l : list A) :
  forallb p l = true → Forall (λ x, p x = true) l.
Proof.
  induction l as [|x l IH]; simpl; [constructor|].
  intros [Hx Hl]%andb_true_iff. constructor; auto.
Qed.

Lemma parsed_tree_lookup (k : string) fields :
  forallb (λ kv, parsed_tree kv.2) fields = true →
  lookup_field k fields = VUndef ∨ parsed_tree (lookup_field k fields) = true.
Proof.
  intros H. apply (lookup_field_Forall (λ v, parsed_tree v = true)).
  by apply (forallb_Forall (λ kv, parsed_tree kv.2)).
Qed.

(** The children of a parsed tree read through a property are parsed trees. *)
Lemma parsed_tree_children (node : value) (k : string) :
  parsed_tree node = true → String.eqb k "length" = false →
  Forall (λ v, parsed_tree v = true)
    (if truthy (opt_get node k) then array_or_single (opt_get node k) else []).
Proof.
  intros Hnode Hk. destruct node as [| |b|n|s|items|fields]; try done; simpl.
  - by rewrite Hk.
  - by rewrite Hk.
  - simpl in Hnode. destruct (parsed_tree_lookup k fields Hnode) as [->|Hp]; [done|].
    destruct (truthy (lookup_field k fields)); [|done].
    destruct (lookup_field k fields) as [| |b|n|s|items|fs]; try done.
    + by repeat constructor.
    + simpl in Hp. by apply forallb_Forall.
    + by repeat constructor.
Qed.

Lemma module_ref_is_module_ref (mod' : value) :
  has_document mod' = true → is_module_ref (module_ref mod').
Proof.
  unfold has_document, module_ref, is_module_ref. intros Hdoc.
  eexists _, _. split; [done|]. repeat split.
  - done.
  - intros Heq. by rewrite Heq in Hdoc.
  - by apply truthy_not_nullish.
  - unfold js_or. by destruct (truthy (opt_index0 _)) eqn:Ht.
Qed.

Lemma foldR_traverse (subs : list value) :
  Forall traverse_ok subs → Forall (λ v, parsed_tree v = true) subs →
  ∀ modules, ∃ mss,
    foldR (λ modules sub, traverse sub modules) subs modules = Ok (modules ++ concat mss) ∧
    Forall2 listing subs mss ∧ Forall emitted_ref (concat mss).
Proof.
  induction 1 as [|sub subs Hsub _ IH]; intros Hparsed modules.
  - exists []. simpl. by rewrite app_nil_r.
  - apply Forall_cons_1 in Hparsed as [Hp Hps].
    destruct (Hsub Hp modules) as (ms & Hms & Hlist & Hrefs).
    destruct (IH Hps (modules ++ ms)) as (mss & Hmss & Hlists & Hrefss).
    exists (ms :: mss). simpl. rewrite Hms, Hmss, app_assoc.
    split; [done|]. split; [by constructor|]. by apply Forall_app.
Qed.

Lemma traverse_parsed_tree (node : value) : traverse_ok node.
Proof.
  cut (traverse_ok node ∧
       match node with VArr items => Forall traverse_ok items | _ => True end);
    [by intros [? _]|].
  induction node as [| |b|n|s|items IH|fields IH] using value_nested_ind;
    try (split; [by intros ?|done]).
  - split; [|done]. intros _ modules. exists []. rewrite app_nil_r.
    split; [done|]. split; [|done].
    apply (listing_node (VStr s) []). constructor.
  - split; [|by eapply Forall_impl; [apply IH|]; intros ? [? _]].
    intros _ modules. exists []. rewrite app_nil_r.
    split; [done|]. split; [|done].
    apply (listing_node (VArr items) []). constructor.
  - split; [|done]. intros Hparsed modules.
    rewrite traverse_unfold. simpl.
    pose proof (parsed_tree_children (VObj fields) "module" Hparsed eq_refl) as Hmods.
    pose proof (parsed_tree_children (VObj fields) "subcollection" Hparsed eq_refl) as Hsubs.
    fold (module_elements (VObj fields)) in Hmods.
    fold (subcollection_elements (VObj fields)) in Hsubs.
    rewrite foldR_push_module
      by (eapply Forall_impl; [apply Hmods|]; apply parsed_tree_not_nullish).
    simpl.
    assert (Forall traverse_ok (subcollection_elements (VObj fields))) as Hoks.
    { unfold subcollection_elements. simpl.
      destruct (lookup_field_Forall
                  (λ v, traverse_ok v ∧
                        match v with VArr items => Forall traverse_ok items | _ => True end)
                  "subcollection" fields IH) as [->|[Hs Hitems]];
        [done|].
      destruct (truthy (lookup_field "subcollection" fields)); [|done].
      destruct (lookup_field "subcollection" fields); simpl; by repeat constructor. }
    destruct (foldR_traverse _ Hoks Hsubs
                (modules ++ map module_ref (List.filter has_document
                                              (module_elements (VObj fields)))))
      as (mss & Hmss & Hlists & Hrefs).
    exists (map module_ref (List.filter has_document (module_elements (VObj fields)))
            ++ concat mss).
    rewrite Hmss, app_assoc. split; [done|]. split; [by constructor|].
    apply Forall_app. split; [|done].
    apply Forall_map, Forall_forall. intros m Hm.
    exists m. split; [|done].
    apply list_elem_of_In, filter_In in Hm. tauto.
Qed.

Example example_collection_listing :
  extractModules (xml2js example_collection) =
    Ok [VObj [("id", VStr "m1"); ("title", VStr "One")];
        VObj [("id", VStr "m2"); ("title", VStr "Two")];
        VObj [("id", VStr "m3"); ("title", VStr "Three")]].
Proof. vm_compute. reflexivity. Qed.

(** ** The parsed form of a document *)

Lemma lookup_find_field (k : string) fields :
  lookup_field k fields = default VUndef (find_field k fields).
Proof.
  induction fields as [|[k' v] fields IH]; simpl; [done|].
  by destruct (String.eqb k k').
Qed.

Lemma find_field_add_child (k k' : string) (v : value) fields :
  find_field k (add_child k' v fields) =
    if String.eqb k k' then attach (find_field k fields) [v] else find_field k fields.
Proof.
  induction fields as [|[k0 x] fields IH]; simpl.
  - by destruct (String.eqb k k').
  - destruct (String.eqb k' k0) eqn:Hk0; simpl.
    + apply String.eqb_eq in Hk0 as ->.
      by destruct (String.eqb k k0).
    + destruct (String.eqb k k0) eqn:Hkk0; [|done].
      apply String.eqb_eq in Hkk0 as ->.
      rewrite String.eqb_sym in Hk0. by rewrite Hk0.
Qed.

Lemma attach_app (held : option value) (vs ws : list value) :
  attach held (vs ++ ws) = attach (attach held vs) ws.
Proof. revert held. induction vs as [|v vs IH]; intros held; simpl; [done|]. apply IH. Qed.

Lemma find_field_children (k : string) (children : list element) fields :
  find_field k
    (foldl (λ fields child, add_child (tag_of child) (xml2js child) fields) fields children)
  = attach (find_field k fields)
      (map xml2js (List.filter (λ child, String.eqb (tag_of child) k) children)).
Proof.
  revert fields. induction children as [|c children IH]; intros fields; simpl; [done|].
  rewrite IH, find_field_add_child. rewrite (String.eqb_sym (tag_of c) k).
  by destruct (String.eqb k (tag_of c)).
Qed.

Lemma attach_array (items vs : list value) :
  attach (Some (VArr items)) vs = Some (VArr (items ++ vs)).
Proof.
  revert items. induction vs as [|v vs IH]; intros items; simpl.
  - by rewrite app_nil_r.
  - by rewrite IH, <- app_assoc.
Qed.

Lemma attach_none (vs : list value) :
  attach None vs = match vs with [] => None | _ => Some (VArr vs) end.
Proof. destruct vs as [|v vs]; simpl; [done|]. by rewrite attach_array. Qed.

(** The children of one tag, read from the parsed form of their parent. *)
Lemma xml2js_children (k : string) (e : element) :
  String.eqb k "$" = false → String.eqb k "_" = false → String.eqb k "length" = false →
  (if truthy (opt_get (xml2js e) k) then array_or_single (opt_get (xml2js e) k) else [])
  = map xml2js (children_with_tag k e).
Proof.
  intros Hattr Htext Hlength. destruct e as [tag attrs children text].
  unfold children_with_tag. simpl.
  set (attributes := match attrs with [] => [] | _ => _ end).
  assert (find_field k attributes = None) as Hnone.
  { subst attributes. destruct attrs; simpl; [done|]. by rewrite Hattr. }
  pose proof (find_field_children k children attributes) as Hfind.
  rewrite Hnone, attach_none in Hfind.
  destruct (foldl _ attributes children) as [|kv fields] eqn:Hfields.
  - simpl. rewrite Hlength. simpl in Hfind. by destruct (map xml2js _).
  - assert (lookup_field k (kv :: fields)
            = default VUndef (find_field k (kv :: fields))) as Hlook
      by apply lookup_find_field.
    rewrite Hfind in Hlook.
    destruct (all_space text); unfold opt_get.
    + rewrite Hlook. by destruct (map xml2js _).
    + change (lookup_field k (("_", VStr text) :: kv :: fields))
        with (if String.eqb k "_" then VStr text else lookup_field k (kv :: fields)).
      rewrite Htext, Hlook. by destruct (map xml2js _).
Qed.

Lemma add_child_not_nil (k : string) (v : value) fields : add_child k v fields ≠ [].
Proof. destruct fields as [|[k' x] fields]; simpl; [done|]. by destruct (String.eqb k k'). Qed.

Lemma parsed_tree_add_child (k : string) (v : value) fields :
  parsed_tree v = true →
  forallb (λ kv, parsed_tree kv.2) fields = true →
  forallb (λ kv, parsed_tree kv.2) (add_child k v fields) = true.
Proof.
  intros Hv. induction fields as [|[k' x] fields IH]; simpl.
  - by rewrite Hv.
  - intros [Hx Hfields]%andb_true_iff.
    destruct (String.eqb k k'); simpl.
    + rewrite Hfields, andb_true_r.
      destruct x; simpl in *; rewrite ?forallb_app; simpl; by rewrite ?Hx, ?Hv.
    + by rewrite Hx, IH.
Qed.

Lemma xml2js_parsed_tree (e : element) : parsed_tree (xml2js e) = true.
Proof.
  induction e as [tag attrs children text IH] using element_nested_ind. simpl.
  set (attributes := match attrs with [] => [] | _ => _ end).
  assert (forallb (λ kv, parsed_tree kv.2) attributes = true) as Hattrs.
  { subst attributes. destruct attrs as [|a attrs]; [done|].
    cbn [forallb snd parsed_tree]. rewrite andb_true_r.
    generalize (a :: attrs). intros l. induction l as [|b l IHl]; [done|]. by simpl. }
  assert (forallb (λ kv, parsed_tree kv.2)
            (foldl (λ fields child, add_child (tag_of child) (xml2js child) fields)
                   attributes children) = true) as Hfields.
  { clearbody attributes. revert attributes Hattrs.
    induction IH as [|c children Hc _ IHc]; intros attributes Hattrs; simpl; [done|].
    apply IHc. by apply parsed_tree_add_child. }
  destruct (foldl _ attributes children) as [|kv fields]; [done|].
  destruct (all_space text); simpl in *; done.
Qed.

(** ** Extraction on parsed trees *)

Lemma extractModules_parsed_tree (collection : value) :
  parsed_tree collection = true →
  ∃ mss,
    extractModules collection = Ok (concat mss) ∧
    Forall2 listing (content_elements collection) mss ∧
    Forall emitted_ref (concat mss).
Proof.
  intros Hparsed. unfold extractModules.
  rewrite get_defined by by apply parsed_tree_not_nullish. simpl.
  pose proof (parsed_tree_children collection "content" Hparsed eq_refl) as Hcontent.
  fold (content_elements collection) in Hcontent.
  assert (Forall traverse_ok (content_elements collection)) as Hoks.
  { apply Forall_forall. intros ? _. apply traverse_parsed_tree. }
  destruct (foldR_traverse _ Hoks Hcontent []) as (mss & Hmss & Hlists & Hrefs).
  exists mss. split; [|done].
  unfold content_elements in Hmss.
  destruct (truthy (opt_get collection "content")); [done|].
  simpl in Hmss. by injection Hmss as <-.
Qed.

Lemma filter_no_modules (siblings : list element) :
  forallb (λ e, negb (String.eqb (tag_of e) "module")) siblings = true →
  List.filter (λ child, String.eqb (tag_of child) "module") siblings = [].
Proof.
  induction siblings as [|e siblings IH]; simpl; [done|].
  intros [He Hrest]%andb_true_iff.
  destruct (String.eqb (tag_of e) "module"); [done | auto].
Qed.

(** When no module follows a subcollection among the children of a node, the
    children in document order are the modules, then the subcollections. *)
Lemma document_order_modules_first (children : list element) :
  modules_before_subcollections children = true →
  flat_map (λ child,
    if String.eqb (tag_of child) "module" then
      if has_document (xml2js child) then [module_ref (xml2js child)] else []
    else if String.eqb (tag_of child) "subcollection" then document_order child
    else []) children
  = map module_ref
      (List.filter has_document
         (map xml2js (List.filter (λ child, String.eqb (tag_of child) "module") children)))
    ++ concat (map document_order
         (List.filter (λ child, String.eqb (tag_of child) "subcollection") children)).
Proof.
  induction children as [|c children IH]; [done|].
  cbn [modules_before_subcollections flat_map].
  intros [Hc Hrest]%andb_true_iff. rewrite (IH Hrest). clear IH.
  cbn [List.filter].
  destruct (String.eqb (tag_of c) "module") eqn:Hmodule.
  - apply String.eqb_eq in Hmodule as Htag. rewrite Htag. simpl.
    by destruct (has_document (xml2js c)).
  - destruct (String.eqb (tag_of c) "subcollection") eqn:Hsub; [|done].
    by rewrite (filter_no_modules _ Hc).
Qed.

Lemma listing_document_order (e : element) (ms : list value) :
  modules_first e = true → listing (xml2js e) ms → ms = document_order e.
Proof.
  revert ms.
  induction e as [tag attrs children text IH] using element_nested_ind.
  intros ms Hfirst Hlisting.
  inversion Hlisting as [node subs Hsubs Hnode Hms]. subst node. clear Hlisting.
  unfold module_elements. unfold subcollection_elements in Hsubs.
  rewrite (xml2js_children "module") by done.
  rewrite (xml2js_children "subcollection") in Hsubs by done.
  unfold children_with_tag in *. cbn [children_of] in *.
  cbn [modules_first] in Hfirst. apply andb_true_iff in Hfirst as [Hbefore Hchildren].
  cbn [document_order]. rewrite (document_order_modules_first _ Hbefore).
  f_equal. f_equal.
  clear Hbefore Hms. revert subs Hsubs.
  induction IH as [|c children Hc _ IHc]; intros subs Hsubs.
  - by inversion Hsubs.
  - simpl in Hchildren. apply andb_true_iff in Hchildren as [Hcfirst Hchildren].
    cbn [List.filter] in *.
    destruct (String.eqb (tag_of c) "subcollection"); [|by apply IHc].
    cbn [map] in *. inversion Hsubs as [|? ms' ? mss Hms' Hmss]; subst.
    cbn [concat]. f_equal; [by apply Hc | by apply IHc].
Qed.

Lemma extractModules_document_order (collection : element) :
  collection_modules_first collection = true →
  extractModules (xml2js collection) = Ok (collection_document_order collection).
Proof.
  intros Hfirst.
  destruct (extractModules_parsed_tree _ (xml2js_parsed_tree collection))
    as (mss & -> & Hlists & _).
  f_equal. unfold content_elements in Hlists.
  rewrite (xml2js_children "content") in Hlists by done.
  unfold collection_document_order, collection_modules_first, children_with_tag in *.
  revert mss Hlists Hfirst.
  induction (children_of collection) as [|c children IH]; intros mss Hlists Hfirst.
  - by inversion Hlists.
  - simpl in Hfirst. apply andb_true_iff in Hfirst as [Hc Hchildren].
    cbn [List.filter flat_map] in *.
    destruct (String.eqb (tag_of c) "content"); [|by apply IH].
    cbn [map] in *. inversion Hlists as [|? ms ? mss' Hms Hmss]; subst.
    cbn [concat]. f_equal; [by apply listing_document_order | by apply IH].
Qed.

(** C2 (as amended). On every parsed collection tree the extraction succeeds
    and lists, for each content node in order, the module elements attached to
    a node that carry a document reference, in encounter order, and after them
    the listings of its subcollections, depth first and in order.  For the
    parsed form of a document in which no module element follows a
    subcollection under the same parent, this is document order. *)
Theorem extractModules_order (tree : value) :
  parsed_tree tree = true →
  (∃ mss, extractModules tree = Ok (concat mss) ∧
          Forall2 listing (content_elements tree) mss) ∧
  (∀ collection, tree = xml2js collection →
     collection_modules_first collection = true →
     extractModules tree = Ok (collection_document_order collection)).
Proof.
  intros Hparsed. split.
  - destruct (extractModules_parsed_tree tree Hparsed) as (mss & Hmss & Hlists & _).
    by exists mss.
  - intros collection -> Hfirst. by apply extractModules_document_order.
Qed.

Lemma extractModules_order_witness :
  parsed_tree (xml2js example_collection) = true ∧
  extractModules (xml2js example_collection) =
    Ok [VObj [("id", VStr "m1"); ("title", VStr "One")];
        VObj [("id", VStr "m2"); ("title", VStr "Two")];
        VObj [("id", VStr "m3"); ("title", VStr "Three")]].
Proof.
  split; [reflexivity|].
  apply (proj2 (extractModules_order (xml2js example_collection) eq_refl)
           example_collection eq_refl eq_refl).
Defined.

(** C2 (as stated) fails when a subcollection precedes a module under one
    parent: the module attached to the content node is listed before the
    module of the subcollection that precedes it in the document. *)
Lemma extractModules_interleaved :
  extractModules (xml2js interleaved_collection) =
    Ok [VObj [("id", VStr "m2"); ("title", VStr "Two")];
        VObj [("id", VStr "m1"); ("title", VStr "One")]] ∧
  collection_document_order interleaved_collection =
    [VObj [("id", VStr "m1"); ("title", VStr "One")];
     VObj [("id", VStr "m2"); ("title", VStr "Two")]] ∧
  extractModules (xml2js interleaved_collection) ≠
    Ok (collection_document_order interleaved_collection).
Proof. split; [reflexivity|]. split; [reflexivity|]. discriminate. Qed.

(** The entries of a listing are the references of the module elements the
    traversal visits that carry a document reference. *)
Lemma listing_visited (node : value) :
  ∀ ms, listing node ms →
  ∃ elements, visited node elements ∧
              ms = map module_ref (List.filter has_document elements).
Proof.
  set (P := λ node, ∀ ms, listing node ms →
    ∃ elements, visited node elements ∧
                ms = map module_ref (List.filter has_document elements)).
  enough (P node ∧ match node with VArr items => Forall P items | _ => True end)
    as [H _] by exact H.
  assert (∀ subs, Forall P subs → ∀ mss, Forall2 listing subs mss →
            ∃ below, Forall2 visited subs below ∧
                     concat mss = map module_ref (List.filter has_document (concat below)))
    as Hbelow.
  { induction 1 as [|sub subs Hsub _ IH]; intros mss; inversion 1 as [|? ms ? mss' Hms Hmss];
      subst.
    - by exists [].
    - destruct (Hsub ms Hms) as (elements & Hvisited & ->).
      destruct (IH mss' Hmss) as (below & Hbelow & Heq).
      exists (elements :: below). split; [by constructor|].
      cbn [concat]. by rewrite List.filter_app, map_app, Heq. }
  assert (∀ node, Forall P (subcollection_elements node) → P node) as Hnode.
  { intros n Hsubs ms. inversion 1 as [? mss Hmss]; subst.
    destruct (Hbelow _ Hsubs mss Hmss) as (below & Hvisited & Heq).
    exists (module_elements n ++ concat below). split; [by constructor|].
    by rewrite List.filter_app, map_app, Heq. }
  induction node as [| |b|n|s|items IH|fields IH] using value_nested_ind;
    try (split; [by apply Hnode; constructor|done]).
  - split; [by apply Hnode; constructor|].
    eapply Forall_impl; [exact IH|]. by intros v [Hv _].
  - split; [|done]. apply Hnode. unfold subcollection_elements. simpl.
    destruct (lookup_field_Forall
                (λ v, P v ∧ match v with VArr items => Forall P items | _ => True end)
                "subcollection" fields IH) as [->|[Hs Hitems]]; [done|].
    destruct (truthy (lookup_field "subcollection" fields)); [|done].
    destruct (lookup_field "subcollection" fields); simpl; by repeat constructor.
Qed.

Lemma module_ref_module_reference (mod' : value) :
  has_document mod' = true → module_reference mod' (module_ref mod').
Proof.
  intros Hdoc. split; [by apply module_ref_is_module_ref|]. split; [done|].
  unfold module_ref, js_or. cbn [opt_get lookup_field String.eqb Ascii.eqb Bool.eqb].
  split; [by intros ->|]. split; by intros ->.
Qed.

(** C8. On every parsed collection tree the structure extraction returns a
    list (module elements without a document reference do not abort it).  Its
    entries are, one for one and in their order, the Module references of the
    module elements the traversal visits that carry a document reference: the
    elements without one are dropped; the id of an entry is the document
    reference of its element, present and not empty, and its title is the
    first title of the element, or [Untitled] when the element has no title.
    The list is empty when the collection has no content node. *)
Theorem extractModules_invariants (collection : value) :
  parsed_tree collection = true →
  ∃ elements modules,
    Forall2 visited (content_elements collection) elements ∧
    extractModules collection = Ok modules ∧
    Forall2 module_reference (List.filter has_document (concat elements)) modules ∧
    (content_elements collection = [] → modules = []).
Proof.
  intros Hparsed.
  destruct (extractModules_parsed_tree collection Hparsed) as (mss & Hmss & Hlists & _).
  assert (∃ elements, Forall2 visited (content_elements collection) elements ∧
            concat mss = map module_ref (List.filter has_document (concat elements)))
    as (elements & Hvisited & Heq).
  { clear Hmss. induction Hlists as [|content ms contents mss Hms _ IH].
    - by exists [].
    - destruct (listing_visited content ms Hms) as (els & Hels & ->).
      destruct IH as (elements & Hvisited & Heq).
      exists (els :: elements). split; [by constructor|].
      cbn [concat]. by rewrite List.filter_app, map_app, Heq. }
  exists elements, (concat mss). split; [done|]. split; [done|]. split.
  - rewrite Heq. apply Forall2_fmap_r, Forall_Forall2_diag, Forall_forall.
    intros mod' Hin. apply module_ref_module_reference.
    apply list_elem_of_In, filter_In in Hin. tauto.
  - intros Hnone. rewrite Hnone in Hlists. by inversion Hlists.
Qed.

Lemma extractModules_invariants_witness :
  parsed_tree sparse_collection = true ∧
  extractModules sparse_collection = Ok [VObj [("id", VStr "m1"); ("title", VStr "Untitled")]].
Proof.
  split; [reflexivity|].
  destruct (extractModules_invariants sparse_collection eq_refl)
    as (elements & modules & _ & Hmodules & _).
  rewrite Hmodules. vm_compute in Hmodules. by injection Hmodules as <-.
Defined.

(** ** The dispatcher *)

Lemma get_Ok_not_nullish (v : value) (k : string) (x : value) :
  get v k = Ok x → nullish v = false ∧ x = opt_get v k.
Proof. unfold get. destruct (nullish v); [done|]. by intros [= <-]. Qed.

Lemma destructure_defined (v : value) (k source : string) :
  nullish v = false → destructure v k source = Ok (opt_get v k).
Proof. unfold destructure. by intros ->. Qed.

(** Running [tools/call] once the arguments are destructured: the response of
    each outcome of the selected operation. *)
Lemma handleToolCall_outcome (ext : Externals) (request : value) (w : World) :
  nullish request = false → nullish (opt_get request "params") = false →
  handleToolCall ext request w =
    let id := opt_get request "id" in
    let name := opt_get (opt_get request "params") "name" in
    let args := opt_get (opt_get request "params") "arguments" in
    match tool_named ext name with
    | None =>
        match to_string name with
        | Ok name => (w, Ok (errorResponse id (-32602) ("Unknown tool: " +:+ name)))
        | Throw error =>
            (w, Ok (errorResponse id (-32603)
                      ("Tool execution error: " +:+ error_message error)))
        end
    | Some tool =>
        match tool args w with
        | (w', Ok result) =>
            (w', Ok (VObj [("jsonrpc", VStr "2.0");
                           ("id", id);
                           ("result", VObj [
                              ("content", VArr [
                                 VObj [("type", VStr "text");
                                       ("text", JSON_stringify result 2)]])])]))
        | (w', Throw error) =>
            (w', Ok (errorResponse id (-32603)
                       ("Tool execution error: " +:+ error_message error)))
        end
    end.
Proof.
  intros Hrequest Hparams.
  unfold handleToolCall, mbind, M_bind, liftR, try_catch, mret, M_ret.
  rewrite (get_defined request) by done. cbv beta iota.
  rewrite !(destructure_defined (opt_get request "params")) by done. cbv beta iota zeta.
  destruct (tool_named ext _) as [tool|].
  - destruct (tool _ w) as [w' [result|error]]; by rewrite ?get_defined.
  - rewrite get_defined by done. cbv beta iota.
    destruct (to_string _) as [name|error]; by rewrite ?get_defined.
Qed.

(** A [tools/call] request without parameters: the destructuring before the
    [try] block throws, and the promise of [handleToolCall] is rejected. *)
Lemma handleToolCall_without_params (ext : Externals) (request : value) (w : World) :
  nullish request = false → nullish (opt_get request "params") = true →
  ∃ error, handleToolCall ext request w = (w, Throw error).
Proof.
  intros Hrequest Hparams.
  unfold handleToolCall, mbind, M_bind, liftR.
  rewrite (get_defined request) by done. cbv beta iota.
  unfold destructure. rewrite Hparams. by eexists.
Qed.

(** A response of the dispatcher to a [tools/call] request carries the id of
    the request, and the dispatcher does respond whenever the request carries
    its parameters: when the tool is unknown, when the operation returns, and
    when it throws. *)
Lemma tools_call_response_id (ext : Externals) (request : value) (w : World) :
  get request "method" = Ok (VStr "tools/call") →
  (∀ w' response,
     handleRequest ext request w = (w', Ok response) →
     opt_get response "id" = opt_get request "id") ∧
  (nullish (opt_get request "params") = false →
   ∃ w' response,
     handleRequest ext request w = (w', Ok response) ∧
     opt_get response "id" = opt_get request "id").
Proof.
  intros Hmethod.
  destruct (get_Ok_not_nullish _ _ _ Hmethod) as [Hrequest _].
  assert (handleRequest ext request w = handleToolCall ext request w) as Hcall.
  { unfold handleRequest. by rewrite Hmethod. }
  assert (nullish (opt_get request "params") = false →
          ∃ w' response,
            handleRequest ext request w = (w', Ok response) ∧
            opt_get response "id" = opt_get request "id") as Hresponds.
  { intros Hparams. rewrite Hcall, handleToolCall_outcome by done. cbv zeta.
    destruct (tool_named ext _) as [tool|].
    - destruct (tool _ w) as [w' [result|error]]; by eexists _, _.
    - destruct (to_string _); by eexists _, _. }
  split; [|done].
  intros w' response Hrun.
  destruct (nullish (opt_get request "params")) eqn:Hparams.
  - destruct (handleToolCall_without_params ext request w Hrequest Hparams) as [e He].
    rewrite Hcall, He in Hrun. discriminate Hrun.
  - destruct (Hresponds eq_refl) as (w'' & response' & Hrun' & Hid).
    rewrite Hrun in Hrun'. by injection Hrun' as _ <-.
Qed.

(** C1 (the code at the failing input). A [tools/call] request without
    parameters, whatever its id, gets no response from the dispatcher: the
    promise of [handleRequest] is rejected, and the worker answers the request
    with the parse error, whose id is [null]. *)
Theorem tools_call_without_params_loses_id (ext : Externals) (request : value)
    (url : string) (w : World) :
  get request "method" = Ok (VStr "tools/call") →
  nullish (opt_get request "params") = true →
  endsWith url "/health" = false →
  (∃ error, handleRequest ext request w = (w, Throw error)) ∧
  worker_fetch ext
    {| Request.method := "POST"; Request.url := url; Request.json := Ok request |} w
  = (w, Ok parse_error_response).
Proof.
  intros Hmethod Hparams Hurl.
  destruct (get_Ok_not_nullish _ _ _ Hmethod) as [Hrequest _].
  assert (handleRequest ext request w = handleToolCall ext request w) as Hcall.
  { unfold handleRequest. by rewrite Hmethod. }
  destruct (handleToolCall_without_params ext request w Hrequest Hparams) as [error Herror].
  rewrite <- Hcall in Herror. split; [by exists error|].
  unfold worker_fetch. cbn [Request.method Request.url Request.json]. rewrite Hurl.
  cbn [String.eqb Ascii.eqb Bool.eqb]. unfold try_catch, mbind, M_bind, liftR.
  by rewrite Herror.
Qed.

Lemma tools_call_without_params_loses_id_witness :
  opt_get tools_call_without_params "id" = VNum 1 ∧
  worker_fetch mock
    {| Request.method := "POST"; Request.url := "https://worker.example/mcp";
       Request.json := Ok tools_call_without_params |} empty_world
  = (empty_world, Ok parse_error_response).
Proof.
  split; [reflexivity|].
  exact (proj2 (tools_call_without_params_loses_id mock tools_call_without_params
                  "https://worker.example/mcp" empty_world eq_refl eq_refl eq_refl)).
Defined.

(** What the dispatcher does with an exception of the operation it delegates
    to: the response carries code -32603 and the message of the exception. *)
Lemma handleRequest_catches_tool_exception (ext : Externals) (request : value)
    (w w' : World) (tool : value → M value) (error : exn) :
  get request "method" = Ok (VStr "tools/call") →
  nullish (opt_get request "params") = false →
  tool_named ext (opt_get (opt_get request "params") "name") = Some tool →
  tool (opt_get (opt_get request "params") "arguments") w = (w', Throw error) →
  handleRequest ext request w =
    (w', Ok (errorResponse (opt_get request "id") (-32603)
               ("Tool execution error: " +:+ error_message error))).
Proof.
  intros Hmethod Hparams Htool Hthrow.
  destruct (get_Ok_not_nullish _ _ _ Hmethod) as [Hrequest _].
  unfold handleRequest. rewrite Hmethod. simpl.
  rewrite handleToolCall_outcome by done. simpl. by rewrite Htool, Hthrow.
Qed.

(** C5 (the code at the failing input). A [tools/call] request without
    [params] makes [handleToolCall] throw before its [try] block; the promise
    it returns is rejected, [handleRequest] returns that promise without
    awaiting it, so its own [catch] does not run and the rejection reaches the
    caller, which reports a parse error with a null id. *)
Theorem handleRequest_rejects_without_params (ext : Externals) (w : World) :
  handleRequest ext tools_call_without_params w
  = (w, Throw (JsError
        "Cannot destructure property 'name' of 'request.params' as it is undefined.")) ∧
  worker_fetch ext
    {| Request.method := "POST"; Request.url := "https://worker.example/mcp";
       Request.json := Ok tools_call_without_params |}
    w
  = (w, Ok {| Response.body :=
                JSON_stringify
                  (VObj [("jsonrpc", VStr "2.0");
                         ("id", VNull);
                         ("error", VObj [("code", VNum (-32700));
                                         ("message", VStr "Parse error")])]) 0;
              Response.status := 400;
              Response.headers := [("Content-Type", "application/json")] |}).
Proof. split; reflexivity. Qed.

(** ** The worker entry point *)

(** The preflight response and every response built from what the
    dispatcher returned carry the cross-origin header. *)
Lemma preflight_and_dispatched_allow_any_origin (ext : Externals)
    (request : Request.t) (w w' : World) (response : Response.t) :
  worker_fetch ext request w = (w', Ok response) →
  Request.method request = "OPTIONS" ∨ Response.status response = 200 ∧
    Request.method request = "POST" ∧ endsWith (Request.url request) "/health" = false →
  allows_any_origin response = true.
Proof.
  unfold worker_fetch. intros Hrun [Hoptions|(Hstatus & Hpost & Hhealth)].
  - rewrite Hoptions in Hrun. simpl in Hrun. by injection Hrun as _ <-.
  - rewrite Hpost, Hhealth in Hrun. simpl in Hrun.
    unfold try_catch, mbind, M_bind, liftR, mret, M_ret in Hrun.
    destruct (Request.json request) as [mcpRequest|e].
    + destruct (handleRequest ext mcpRequest w) as [w1 [mcpResponse|e]];
        injection Hrun as _ <-; [done|].
      by simpl in Hstatus.
    + injection Hrun as _ <-. by simpl in Hstatus.
Qed.

(** C7 (the code at the failing inputs). The health response, the parse-error
    response and the default response are built with a Content-Type header
    only: they carry no cross-origin header. *)
Theorem responses_without_cross_origin_header (ext : Externals) (w : World) :
  (∃ response, worker_fetch ext health_request w = (w, Ok response) ∧
               Response.headers response = [("Content-Type", "application/json")] ∧
               allows_any_origin response = false) ∧
  (∃ response, worker_fetch ext malformed_request w = (w, Ok response) ∧
               Response.status response = 400 ∧
               Response.headers response = [("Content-Type", "application/json")] ∧
               allows_any_origin response = false) ∧
  (∃ response, worker_fetch ext other_request w = (w, Ok response) ∧
               Response.headers response = [("Content-Type", "application/json")] ∧
               allows_any_origin response = false).
Proof. repeat split; by eexists. Qed.

(** ** Notebook generation *)

(** C10. Two calls of [generate_jupyter_notebook] whose arguments agree on
    every property but [include_solutions] give the same result from the same
    state: the same notebook or the same failure, the same cache entry. *)
Theorem notebook_independent_of_include_solutions (ext : Externals)
    (args1 args2 : list (string * value)) (w : World) :
  (∀ k, k ≠ "include_solutions" → lookup_field k args1 = lookup_field k args2) →
  generateJupyterNotebook ext (VObj args1) w = generateJupyterNotebook ext (VObj args2) w.
Proof.
  intros Hsame. unfold generateJupyterNotebook, destructure. simpl.
  rewrite (Hsame "textbook_id") by done. rewrite (Hsame "module_id") by done.
  unfold mbind, M_bind, liftR, fmap, result_fmap. by simpl.
Qed.

Lemma notebook_independent_of_include_solutions_witness :
  (∀ k, k ≠ "include_solutions" →
     lookup_field k [("textbook_id", VStr "osbooks-physics"); ("module_id", VStr "m1");
                     ("include_solutions", VBool true)]
     = lookup_field k [("textbook_id", VStr "osbooks-physics"); ("module_id", VStr "m1");
                       ("include_solutions", VBool false)]) ∧
  generateJupyterNotebook mock
    (VObj [("textbook_id", VStr "osbooks-physics"); ("module_id", VStr "m1");
           ("include_solutions", VBool true)]) empty_world
  = generateJupyterNotebook mock
      (VObj [("textbook_id", VStr "osbooks-physics"); ("module_id", VStr "m1");
             ("include_solutions", VBool false)]) empty_world.
Proof.
  assert (∀ k, k ≠ "include_solutions" →
     lookup_field k [("textbook_id", VStr "osbooks-physics"); ("module_id", VStr "m1");
                     ("include_solutions", VBool true)]
     = lookup_field k [("textbook_id", VStr "osbooks-physics"); ("module_id", VStr "m1");
                       ("include_solutions", VBool false)]) as Hsame.
  { intros k Hk. cbn [lookup_field].
    destruct (String.eqb k "textbook_id"); [done|].
    destruct (String.eqb k "module_id"); [done|].
    destruct (String.eqb_spec k "include_solutions"); [done|done]. }
  split; [exact Hsame|].
  exact (notebook_independent_of_include_solutions mock _ _ empty_world Hsame).
Defined.

(** ** Cache-backed operations *)

Lemma destructure_Ok (v : value) (k source : string) (x : value) :
  destructure v k source = Ok x → nullish v = false ∧ x = opt_get v k.
Proof. unfold destructure. destruct (nullish v); [done|]. by intros [= <-]. Qed.

Lemma kv_get_put (namespace : gmap string (value * Z)) (key : string) (v : value) (ttl : Z) :
  kv_get (kv_put namespace key v ttl) key = json_roundtrip v.
Proof. unfold kv_get, kv_put. by rewrite lookup_insert_eq. Qed.

Lemma listTextbooks_hit (ext : Externals) (params : value) (w : World) :
  nullish params = false →
  truthy (cached_entry list_textbooks params w) = true →
  listTextbooks ext params w = (w, Ok (with_from_cache (cached_entry list_textbooks params w))).
Proof.
  intros Hparams Hhit. unfold cached_entry, operation_cache in *.
  destruct (operation_key list_textbooks params) as [key|] eqn:Hkey; [|done].
  unfold operation_key in Hkey. unfold listTextbooks. unfold_run.
  rewrite !destructure_defined by done. cbv beta iota zeta in Hkey |- *.
  rewrite Hkey. cbv beta iota. by rewrite Hhit.
Qed.

Lemma listTextbooks_miss (ext : Externals) (params : value) (w w1 : World) (r1 : value) :
  cache_miss list_textbooks params w →
  listTextbooks ext params w = (w1, Ok r1) →
  nullish params = false ∧ fresh_payload r1 ∧
  cached_entry list_textbooks params w1 = json_roundtrip r1.
Proof.
  unfold cache_miss, cached_entry, operation_cache.
  intros (key & Hkey & Hmiss) Hrun. rewrite Hkey.
  unfold operation_key in Hkey. unfold listTextbooks in Hrun. unfold_run.
  run_step Hrun. apply destructure_Ok in Hstep as [Hparams ->].
  rewrite ?destructure_defined in Hrun by done.
  cbv beta iota zeta in Hkey, Hrun. rewrite Hkey in Hrun.
  cbv beta iota in Hrun. rewrite Hmiss in Hrun.
  repeat run_step Hrun; try discriminate Hrun.
  injection Hrun as <- <-. split; [done|]. split.
  - by eexists.
  - cbn [TEXTBOOK_CACHE]. apply kv_get_put.
Qed.

Lemma getTextbookStructure_hit (ext : Externals) (params : value) (w : World) :
  nullish params = false →
  truthy (cached_entry get_textbook_structure params w) = true →
  getTextbookStructure ext params w = (w, Ok (with_from_cache (cached_entry get_textbook_structure params w))).
Proof.
  intros Hparams Hhit. unfold cached_entry, operation_cache in *.
  destruct (operation_key get_textbook_structure params) as [key|] eqn:Hkey; [|done].
  unfold operation_key in Hkey. unfold getTextbookStructure. unfold_run.
  rewrite !destructure_defined by done. cbv beta iota zeta in Hkey |- *.
  rewrite Hkey. cbv beta iota. by rewrite Hhit.
Qed.

Lemma getTextbookStructure_miss (ext : Externals) (params : value) (w w1 : World) (r1 : value) :
  cache_miss get_textbook_structure params w →
  getTextbookStructure ext params w = (w1, Ok r1) →
  nullish params = false ∧ fresh_payload r1 ∧
  cached_entry get_textbook_structure params w1 = json_roundtrip r1.
Proof.
  unfold cache_miss, cached_entry, operation_cache.
  intros (key & Hkey & Hmiss) Hrun. rewrite Hkey.
  unfold operation_key in Hkey. unfold getTextbookStructure in Hrun. unfold_run.
  run_step Hrun. apply destructure_Ok in Hstep as [Hparams ->].
  rewrite ?destructure_defined in Hrun by done.
  cbv beta iota zeta in Hkey, Hrun. rewrite Hkey in Hrun.
  cbv beta iota in Hrun. rewrite Hmiss in Hrun.
  repeat run_step Hrun; try discriminate Hrun.
  injection Hrun as <- <-. split; [done|]. split.
  - by eexists.
  - cbn [TEXTBOOK_CACHE]. apply kv_get_put.
Qed.

(** A structure that was fetched and parsed has a list of modules. *)
Lemma fresh_structure_modules_list (ext : Externals) (params : value) (w w1 : World)
    (r1 : value) :
  cache_miss get_textbook_structure params w →
  getTextbookStructure ext params w = (w1, Ok r1) →
  ∃ collection modules,
    extractModules collection = Ok modules ∧ opt_get r1 "modules" = VArr modules.
Proof.
  unfold cache_miss, operation_cache.
  intros (key & Hkey & Hmiss) Hrun.
  unfold operation_key in Hkey. unfold getTextbookStructure in Hrun. unfold_run.
  run_step Hrun. apply destructure_Ok in Hstep as [Hparams ->].
  cbv beta iota zeta in Hkey, Hrun. rewrite Hkey in Hrun.
  cbv beta iota in Hrun. rewrite Hmiss in Hrun.
  repeat run_step Hrun; try discriminate Hrun.
  injection Hrun as <- <-. by eexists _, _.
Qed.

Lemma getModuleContent_hit (ext : Externals) (params : value) (w : World) :
  nullish params = false →
  truthy (cached_entry get_module_content params w) = true →
  getModuleContent ext params w = (w, Ok (with_from_cache (cached_entry get_module_content params w))).
Proof.
  intros Hparams Hhit. unfold cached_entry, operation_cache in *.
  destruct (operation_key get_module_content params) as [key|] eqn:Hkey; [|done].
  unfold operation_key in Hkey. unfold getModuleContent. unfold_run.
  rewrite !destructure_defined by done. cbv beta iota zeta in Hkey |- *.
  rewrite Hkey. cbv beta iota. by rewrite Hhit.
Qed.

Lemma find_field_set_other (k k' : string) (v : value) fields :
  String.eqb k k' = false →
  find_field k (set_field k' v fields) = find_field k fields.
Proof.
  intros Hk. induction fields as [|[k0 x] fields IH]; simpl.
  - by rewrite Hk.
  - destruct (String.eqb k' k0) eqn:Hk0; simpl; [|by rewrite IH].
    apply String.eqb_eq in Hk0 as <-. by rewrite Hk.
Qed.

Lemma getModuleContent_miss (ext : Externals) (params : value) (w w1 : World) (r1 : value) :
  cache_miss get_module_content params w →
  getModuleContent ext params w = (w1, Ok r1) →
  nullish params = false ∧ fresh_payload r1 ∧
  cached_entry get_module_content params w1 = json_roundtrip r1.
Proof.
  unfold cache_miss, cached_entry, operation_cache.
  intros (key & Hkey & Hmiss) Hrun. rewrite Hkey.
  unfold operation_key in Hkey. unfold getModuleContent in Hrun. unfold_run.
  run_step Hrun. apply destructure_Ok in Hstep as [Hparams ->].
  rewrite ?destructure_defined in Hrun by done.
  cbv beta iota zeta in Hkey, Hrun. rewrite Hkey in Hrun.
  cbv beta iota in Hrun. rewrite Hmiss in Hrun.
  repeat run_step Hrun; try discriminate Hrun.
  injection Hrun as <- <-. split; [done|]. split.
  - repeat run_step Hcall; injection Hcall as _ <-;
      (eexists; split; [done|]); by rewrite ?find_field_set_other.
  - cbn [TEXTBOOK_CACHE]. apply kv_get_put.
Qed.

Lemma generatePracticeProblems_hit (ext : Externals) (params : value) (w : World) :
  nullish params = false →
  truthy (cached_entry generate_practice_problems params w) = true →
  generatePracticeProblems ext params w = (w, Ok (with_from_cache (cached_entry generate_practice_problems params w))).
Proof.
  intros Hparams Hhit. unfold cached_entry, operation_cache in *.
  destruct (operation_key generate_practice_problems params) as [key|] eqn:Hkey; [|done].
  unfold operation_key in Hkey. unfold generatePracticeProblems. unfold_run.
  rewrite !destructure_defined by done. cbv beta iota zeta in Hkey |- *.
  rewrite Hkey. cbv beta iota. by rewrite Hhit.
Qed.

Lemma generatePracticeProblems_miss (ext : Externals) (params : value) (w w1 : World) (r1 : value) :
  cache_miss generate_practice_problems params w →
  generatePracticeProblems ext params w = (w1, Ok r1) →
  nullish params = false ∧ fresh_payload r1 ∧
  cached_entry generate_practice_problems params w1 = json_roundtrip r1.
Proof.
  unfold cache_miss, cached_entry, operation_cache.
  intros (key & Hkey & Hmiss) Hrun. rewrite Hkey.
  unfold operation_key in Hkey. unfold generatePracticeProblems in Hrun. unfold_run.
  run_step Hrun. apply destructure_Ok in Hstep as [Hparams ->].
  rewrite ?destructure_defined in Hrun by done.
  cbv beta iota zeta in Hkey, Hrun. rewrite Hkey in Hrun.
  cbv beta iota in Hrun. rewrite Hmiss in Hrun.
  repeat run_step Hrun; try discriminate Hrun.
  injection Hrun as <- <-. split; [done|]. split.
  - by eexists.
  - cbn [PRACTICE_PROBLEMS]. apply kv_get_put.
Qed.

Lemma generateJupyterNotebook_hit (ext : Externals) (params : value) (w : World) :
  nullish params = false →
  truthy (cached_entry generate_jupyter_notebook params w) = true →
  generateJupyterNotebook ext params w = (w, Ok (with_from_cache (cached_entry generate_jupyter_notebook params w))).
Proof.
  intros Hparams Hhit. unfold cached_entry, operation_cache in *.
  destruct (operation_key generate_jupyter_notebook params) as [key|] eqn:Hkey; [|done].
  unfold operation_key in Hkey. unfold generateJupyterNotebook. unfold_run.
  rewrite !destructure_defined by done. cbv beta iota zeta in Hkey |- *.
  rewrite Hkey. cbv beta iota. by rewrite Hhit.
Qed.

Lemma generateJupyterNotebook_miss (ext : Externals) (params : value) (w w1 : World) (r1 : value) :
  cache_miss generate_jupyter_notebook params w →
  generateJupyterNotebook ext params w = (w1, Ok r1) →
  nullish params = false ∧ fresh_payload r1 ∧
  cached_entry generate_jupyter_notebook params w1 = json_roundtrip r1.
Proof.
  unfold cache_miss, cached_entry, operation_cache.
  intros (key & Hkey & Hmiss) Hrun. rewrite Hkey.
  unfold operation_key in Hkey. unfold generateJupyterNotebook in Hrun. unfold_run.
  run_step Hrun. apply destructure_Ok in Hstep as [Hparams ->].
  rewrite ?destructure_defined in Hrun by done.
  cbv beta iota zeta in Hkey, Hrun. rewrite Hkey in Hrun.
  cbv beta iota in Hrun. rewrite Hmiss in Hrun.
  repeat run_step Hrun; try discriminate Hrun.
  injection Hrun as <- <-. split; [done|]. split.
  - by eexists.
  - cbn [NOTEBOOKS]. apply kv_get_put.
Qed.

(** ** Payloads through the cache *)

Lemma json_roundtrip_undef (v : value) : json_roundtrip v = VUndef → v = VUndef.
Proof. by destruct v. Qed.

Lemma json_roundtrip_idem (v : value) : json_roundtrip (json_roundtrip v) = json_roundtrip v.
Proof.
  induction v as [| |b|n|s|items IH|fields IH] using value_nested_ind; try done.
  - cbn [json_roundtrip]. f_equal. rewrite map_map.
    induction IH as [|x items Hx _ IHitems]; [done|].
    cbn [map]. f_equal; [|done].
    destruct x; try done; exact Hx.
  - cbn [json_roundtrip]. f_equal.
    induction IH as [|[k x] fields Hx _ IHfields]; [done|].
    cbn [flat_map]. cbn [snd] in Hx.
    destruct x; cbn [app flat_map]; rewrite ?IHfields; try done;
      rewrite Hx; reflexivity.
Qed.

Lemma json_roundtrip_fields_idem (fields : list (string * value)) :
  json_roundtrip (VObj match json_roundtrip (VObj fields) with
                       | VObj fields' => fields'
                       | _ => []
                       end)
  = json_roundtrip (VObj fields).
Proof. by rewrite <- (json_roundtrip_idem (VObj fields)) at 2. Qed.

Lemma json_roundtrip_set_field (k : string) (v v0 : value) fields :
  find_field k fields = Some v0 → v0 ≠ VUndef →
  json_roundtrip (VObj (set_field k v (own_properties (json_roundtrip (VObj fields)))))
  = json_roundtrip (VObj (set_field k v fields)).
Proof.
  intros Hfind Hdefined.
  induction fields as [|[k0 x] fields IH]; [done|].
  simpl in Hfind. destruct (String.eqb k k0) eqn:Hk.
  - injection Hfind as ->.
    pose proof (json_roundtrip_fields_idem fields) as Hidem.
    simpl in *. rewrite Hk.
    destruct v0; try done; simpl; rewrite Hk; simpl;
      injection Hidem as Hidem; by rewrite Hidem.
  - specialize (IH Hfind). simpl in *. rewrite Hk.
    injection IH as IH.
    destruct x; simpl; rewrite ?Hk; simpl; rewrite ?IH; try done.
    + pose proof (json_roundtrip_idem (VArr items)) as Hx. simpl in Hx. by rewrite Hx.
    + pose proof (json_roundtrip_idem (VObj fields0)) as Hx. simpl in Hx. by rewrite Hx.
Qed.

Lemma lookup_set_field (k : string) (v : value) fields :
  lookup_field k (set_field k v fields) = v.
Proof.
  induction fields as [|[k0 x] fields IH]; simpl.
  - by rewrite String.eqb_refl.
  - destruct (String.eqb k k0) eqn:Hk; simpl; by rewrite Hk.
Qed.

Lemma lookup_set_field_other (k k' : string) (v : value) fields :
  String.eqb k k' = false →
  lookup_field k (set_field k' v fields) = lookup_field k fields.
Proof.
  intros Hk. rewrite !lookup_find_field. by rewrite find_field_set_other.
Qed.

Lemma fresh_payload_roundtrip (r : value) :
  fresh_payload r →
  opt_get r "from_cache" = VBool false ∧
  truthy (json_roundtrip r) = true ∧
  json_roundtrip (with_from_cache (json_roundtrip r)) = json_roundtrip (with_from_cache r).
Proof.
  intros (fields & -> & Hfind & _). split; [|split; [done|]].
  - simpl. by rewrite lookup_find_field, Hfind.
  - unfold with_from_cache. by apply (json_roundtrip_set_field _ _ (VBool false)).
Qed.

Lemma json_fields_cons (k : string) (x : value) fields :
  json_fields ((k, x) :: fields) =
    match x with
    | VUndef => json_fields fields
    | _ => (k, json_roundtrip x) :: json_fields fields
    end.
Proof. by destruct x. Qed.

Lemma lookup_json_fields_absent (k : string) fields :
  existsb (String.eqb k) (map fst fields) = false →
  lookup_field k (json_fields fields) = VUndef.
Proof.
  induction fields as [|[k0 x] fields IH]; [done|].
  rewrite json_fields_cons. cbn [map fst existsb].
  intros [Hk Hrest]%orb_false_iff.
  destruct x; cbn [lookup_field]; rewrite ?Hk; by apply IH.
Qed.

(** Through the cache a property keeps its value, in the form JSON gives it. *)
Lemma lookup_json_fields (k : string) fields :
  distinct (map fst fields) = true →
  lookup_field k (json_fields fields) = json_roundtrip (lookup_field k fields).
Proof.
  induction fields as [|[k0 x] fields IH]; [done|].
  rewrite json_fields_cons. cbn [map fst distinct lookup_field].
  intros [Hfirst Hrest]%andb_true_iff. apply negb_true_iff in Hfirst.
  destruct (String.eqb k k0) eqn:Hk.
  - apply String.eqb_eq in Hk as ->.
    destruct x; cbn [lookup_field]; rewrite ?String.eqb_refl; try done.
    by apply lookup_json_fields_absent.
  - destruct x; cbn [lookup_field]; rewrite ?Hk; by apply IH.
Qed.

Lemma defined_keys_json_fields fields :
  map fst (json_fields fields) = defined_keys (VObj fields).
Proof.
  unfold defined_keys. cbn [own_properties].
  induction fields as [|[k x] fields IH]; [done|].
  rewrite json_fields_cons. destruct x; cbn [List.filter map fst snd]; by rewrite ?IH.
Qed.

Lemma json_fields_defined fields :
  Forall (λ kv : string * value, kv.2 ≠ VUndef) (json_fields fields).
Proof.
  induction fields as [|[k x] fields IH]; [constructor|].
  rewrite json_fields_cons. destruct x; try done; constructor; try done.
Qed.

Lemma map_fst_set_field (k : string) (v v0 : value) fields :
  find_field k fields = Some v0 → map fst (set_field k v fields) = map fst fields.
Proof.
  induction fields as [|[k0 x] fields IH]; [done|]. cbn [find_field set_field].
  destruct (String.eqb k k0); [done|]. intros Hfind. cbn [map fst]. by rewrite IH.
Qed.

Lemma set_field_defined (k : string) (v : value) fields :
  v ≠ VUndef → Forall (λ kv : string * value, kv.2 ≠ VUndef) fields →
  Forall (λ kv : string * value, kv.2 ≠ VUndef) (set_field k v fields).
Proof.
  intros Hv. induction 1 as [|[k0 x] fields Hx Hrest IH]; cbn [set_field].
  - by repeat constructor.
  - destruct (String.eqb k k0); by constructor.
Qed.

Lemma defined_keys_all fields :
  Forall (λ kv : string * value, kv.2 ≠ VUndef) fields →
  defined_keys (VObj fields) = map fst fields.
Proof.
  unfold defined_keys. cbn [own_properties].
  induction 1 as [|[k x] fields Hx _ IH]; [done|].
  cbn [List.filter map fst snd] in *. destruct x; try done; cbn [map fst]; by rewrite IH.
Qed.

Lemma find_field_json_fields (k : string) (v : value) fields :
  find_field k fields = Some v → v ≠ VUndef → distinct (map fst fields) = true →
  find_field k (json_fields fields) = Some (json_roundtrip v).
Proof.
  induction fields as [|[k0 x] fields IH]; [done|].
  rewrite json_fields_cons. cbn [find_field map fst distinct].
  intros Hfind Hv [_ Hrest]%andb_true_iff.
  destruct (String.eqb k k0) eqn:Hk.
  - injection Hfind as ->. destruct v; try done; cbn [find_field]; by rewrite Hk.
  - destruct x; cbn [find_field]; rewrite ?Hk; by apply IH.
Qed.

(** The text of a value is the text of its JSON form. *)
Lemma json_text_roundtrip (v : value) (gap indent : string) :
  json_text gap indent (json_roundtrip v) = json_text gap indent v.
Proof.
  revert indent.
  induction v as [| |b|n|s|items IH|fields IH] using value_nested_ind; intros indent;
    try done.
  - cbn [json_roundtrip json_text]. do 2 f_equal. rewrite map_map.
    induction IH as [|x items Hx _ IHitems]; [done|].
    cbn [map]. rewrite IHitems. f_equal. destruct x; try done; by rewrite Hx.
  - cbn [json_roundtrip json_text]. do 2 f_equal.
    induction IH as [|[k x] fields Hx _ IHfields]; [done|].
    cbn [flat_map snd] in *. rewrite <- IHfields.
    destruct x; try done; cbn [app flat_map]; by rewrite ?Hx.
Qed.

Lemma JSON_stringify_roundtrip (v : value) (space : nat) :
  JSON_stringify (json_roundtrip v) space = JSON_stringify v space.
Proof. unfold JSON_stringify. by rewrite json_text_roundtrip. Qed.

Lemma run_operation_miss (ext : Externals) (op : cached_operation) (params : value)
    (w w1 : World) (r1 : value) :
  cache_miss op params w →
  run_operation ext op params w = (w1, Ok r1) →
  nullish params = false ∧ fresh_payload r1 ∧
  cached_entry op params w1 = json_roundtrip r1.
Proof.
  destruct op; simpl.
  - apply listTextbooks_miss.
  - apply getTextbookStructure_miss.
  - apply getModuleContent_miss.
  - apply generatePracticeProblems_miss.
  - apply generateJupyterNotebook_miss.
Qed.

Lemma run_operation_hit (ext : Externals) (op : cached_operation) (params : value)
    (w : World) :
  nullish params = false →
  truthy (cached_entry op params w) = true →
  run_operation ext op params w =
    (w, Ok (with_from_cache (cached_entry op params w))).
Proof.
  destruct op; simpl.
  - apply listTextbooks_hit.
  - apply getTextbookStructure_hit.
  - apply getModuleContent_hit.
  - apply generatePracticeProblems_hit.
  - apply generateJupyterNotebook_hit.
Qed.

(** C3. For each of the five cache-backed operations and every arguments
    value: when the first call misses the cache and returns, its payload has
    [from_cache] false; the same call from the state it leaves returns, from
    the cache, a payload with [from_cache] true that has the same properties
    in the same order, every property other than the flag with the value it
    has in the first payload, in the form JSON gives it, so that each
    serialises to the same text in the two payloads. *)
Theorem cached_operation_twice (ext : Externals) (op : cached_operation) (params : value)
    (w w1 : World) (r1 : value) :
  cache_miss op params w →
  run_operation ext op params w = (w1, Ok r1) →
  opt_get r1 "from_cache" = VBool false ∧
  ∃ r2,
    run_operation ext op params w1 = (w1, Ok r2) ∧
    opt_get r2 "from_cache" = VBool true ∧
    defined_keys r2 = defined_keys r1 ∧
    (∀ k, k ≠ "from_cache" → opt_get r2 k = json_roundtrip (opt_get r1 k)) ∧
    (∀ k space, k ≠ "from_cache" →
       JSON_stringify (opt_get r2 k) space = JSON_stringify (opt_get r1 k) space).
Proof.
  intros Hmiss Hrun.
  destruct (run_operation_miss ext op params w w1 r1 Hmiss Hrun)
    as (Hparams & Hfresh & Hcached).
  destruct (fresh_payload_roundtrip r1 Hfresh) as (Hflag & Htruthy & _).
  destruct Hfresh as (fields & -> & Hfind & Hdistinct).
  split; [done|]. exists (with_from_cache (json_roundtrip (VObj fields))).
  assert (∀ k, k ≠ "from_cache" →
            opt_get (with_from_cache (json_roundtrip (VObj fields))) k
            = json_roundtrip (opt_get (VObj fields) k)) as Hsame.
  { intros k Hk. unfold with_from_cache. cbn [opt_get].
    rewrite lookup_set_field_other by by apply String.eqb_neq.
    by apply lookup_json_fields. }
  split; [|split; [|split; [|split; [done|]]]].
  - rewrite <- Hcached. apply run_operation_hit; [done|]. by rewrite Hcached.
  - unfold with_from_cache. simpl. apply lookup_set_field.
  - unfold with_from_cache. fold (json_fields fields).
    rewrite defined_keys_all.
    + rewrite (map_fst_set_field _ _ (json_roundtrip (VBool false))).
      * apply defined_keys_json_fields.
      * by apply find_field_json_fields.
    + apply set_field_defined; [done|]. apply json_fields_defined.
  - intros k space Hk. rewrite Hsame by done. apply JSON_stringify_roundtrip.
Qed.

Lemma cached_operation_twice_witness :
  cache_miss get_module_content module_m1 empty_world ∧
  ∃ w1 r1,
    run_operation mock get_module_content module_m1 empty_world = (w1, Ok r1) ∧
    opt_get r1 "from_cache" = VBool false ∧
    ∃ r2,
      run_operation mock get_module_content module_m1 w1 = (w1, Ok r2) ∧
      opt_get r2 "from_cache" = VBool true ∧
      defined_keys r2 = ["title"; "content"; "module_id"; "raw_xml"; "from_cache"] ∧
      opt_get r2 "content" = VStr "Motion in one dimension.".
Proof.
  assert (cache_miss get_module_content module_m1 empty_world) as Hmiss
    by (eexists; split; reflexivity).
  split; [exact Hmiss|].
  exists (run_operation mock get_module_content module_m1 empty_world).1.
  exists (VObj [("title", VStr "Kinematics");
                ("content", VStr "Motion in one dimension.");
                ("module_id", VStr "m1"); ("raw_xml", VStr "document");
                ("from_cache", VBool false)]).
  assert (run_operation mock get_module_content module_m1 empty_world
          = ((run_operation mock get_module_content module_m1 empty_world).1,
             Ok (VObj [("title", VStr "Kinematics");
                       ("content", VStr "Motion in one dimension.");
                       ("module_id", VStr "m1"); ("raw_xml", VStr "document");
                       ("from_cache", VBool false)]))) as Hrun
    by (vm_compute; reflexivity).
  split; [exact Hrun|].
  destruct (cached_operation_twice mock get_module_content module_m1 empty_world _ _
              Hmiss Hrun) as (Hflag & r2 & Hagain & Hcached & Hkeys & Hsame & _).
  split; [exact Hflag|]. exists r2. split; [exact Hagain|]. split; [exact Hcached|].
  split; [exact Hkeys|]. by rewrite (Hsame "content").
Defined.

(** ** Indexing *)

(** [getModuleContent] writes to the structural cache only, and only when it
    returns. *)
Lemma getModuleContent_frame (ext : Externals) (params : value) (w w' : World)
    (o : result value) :
  getModuleContent ext params w = (w', o) →
  PRACTICE_PROBLEMS w' = PRACTICE_PROBLEMS w ∧ NOTEBOOKS w' = NOTEBOOKS w ∧
  VECTORIZE w' = VECTORIZE w ∧ console w' = console w ∧
  (∀ e, o = Throw e → w' = w).
Proof.
  unfold getModuleContent. intros Hrun. unfold_run.
  repeat run_split Hrun; try (injection Hrun as <- <-; by repeat split).
  all: repeat run_split Hcall; injection Hcall as <- _; injection Hrun as <- <-;
    by repeat split.
Qed.

Lemma getTextbookStructure_frame (ext : Externals) (params : value) (w w' : World)
    (o : result value) :
  getTextbookStructure ext params w = (w', o) →
  PRACTICE_PROBLEMS w' = PRACTICE_PROBLEMS w ∧ NOTEBOOKS w' = NOTEBOOKS w ∧
  VECTORIZE w' = VECTORIZE w ∧ console w' = console w.
Proof.
  unfold getTextbookStructure. intros Hrun. unfold_run.
  repeat run_split Hrun; injection Hrun as <- <-; by repeat split.
Qed.

(** The body of the loop logs nothing and leaves the caches of problems and
    notebooks alone.  No entry leaves the index, and the index grows by at
    most one entry, and only when the body succeeds: the entry of the module,
    which takes the place of an older entry with its id. *)
Lemma index_module_effect (ext : Externals) (textbook_id module : value) (w w' : World)
    (o : result unit) :
  index_module ext textbook_id module w = (w', o) →
  PRACTICE_PROBLEMS w' = PRACTICE_PROBLEMS w ∧ NOTEBOOKS w' = NOTEBOOKS w ∧
  console w' = console w ∧
  dom (VECTORIZE w) ⊆ dom (VECTORIZE w') ∧
  (∀ id, id ∈ dom (VECTORIZE w') →
         id ∈ dom (VECTORIZE w) ∨ entry_id textbook_id module = Ok id) ∧
  (size (VECTORIZE w') ≤ size (VECTORIZE w) + if succeeded (w', o) then 1 else 0)%nat.
Proof.
  unfold index_module, VECTORIZE_upsert, succeeded. intros Hrun. unfold_run.
  repeat run_split Hrun;
    try (apply getModuleContent_frame in Hcall as (Hp & Hn & Hv & Hc & _));
    injection Hrun as <- <-; cbn [snd PRACTICE_PROBLEMS NOTEBOOKS console VECTORIZE];
    rewrite ?Hv; repeat split; try done; try lia; try (intros id Hid; by left).
  - apply dom_insert_subseteq.
  - intros id Hid. rewrite dom_insert_L in Hid.
    apply elem_of_union in Hid as [->%elem_of_singleton|Hid]; [by right | by left].
  - rewrite map_size_insert. case_match; cbn [id]; lia.
Qed.

Lemma index_step_effect (ext : Externals) (textbook_id module : value) (w : World) :
  identified module →
  let w' := (index_step ext textbook_id 0 module w).1 in
  let ok := succeeded (index_module ext textbook_id module w) in
  PRACTICE_PROBLEMS w' = PRACTICE_PROBLEMS w ∧ NOTEBOOKS w' = NOTEBOOKS w ∧
  dom (VECTORIZE w) ⊆ dom (VECTORIZE w') ∧
  (∀ id, id ∈ dom (VECTORIZE w') →
         id ∈ dom (VECTORIZE w) ∨ entry_id textbook_id module = Ok id) ∧
  (size (VECTORIZE w') ≤ size (VECTORIZE w) + if ok then 1 else 0)%nat ∧
  length (console w') = (length (console w) + if ok then 0 else 1)%nat.
Proof.
  intros [Hmodule [id Hid]].
  unfold index_step, try_catch, mbind, M_bind, mret, M_ret, liftR, console_error.
  rewrite (get_defined module) by done. unfold result_bind. rewrite Hid.
  destruct (index_module ext textbook_id module w) as [w1 o] eqn:Hrun.
  destruct (index_module_effect _ _ _ _ _ _ Hrun) as (Hp & Hn & Hc & Hd & Hids & Hs).
  unfold succeeded in *. cbn [snd] in *.
  destruct o as [u|e]; cbn [fst PRACTICE_PROBLEMS NOTEBOOKS console VECTORIZE];
    rewrite ?length_app, ?Hc; cbn [length]; repeat split; try done; lia.
Qed.

Lemma index_step_outcome (ext : Externals) (textbook_id : value) (indexed : Z)
    (module : value) (w : World) :
  identified module →
  index_step ext textbook_id indexed module w =
    ((index_step ext textbook_id 0 module w).1,
     Ok (indexed + if succeeded (index_module ext textbook_id module w) then 1 else 0)).
Proof.
  intros [Hmodule [id Hid]].
  unfold index_step, try_catch, succeeded, mbind, M_bind, mret, M_ret, liftR, console_error.
  rewrite (get_defined module) by done. unfold result_bind. rewrite Hid.
  destruct (index_module ext textbook_id module w) as [w' [u|e]]; simpl; [done|].
  by rewrite Z.add_0_r.
Qed.


(** The loop over modules that can be named: it ends without a throw, counts
    the turns that succeeded, logs one error for each turn that failed, and
    adds to the index at most one entry for each turn that succeeded, the
    entry of the module of the turn. *)
Lemma for_of_index_step (ext : Externals) (textbook_id : value) (modules : list value) :
  Forall identified modules →
  ∀ indexed w, ∃ w',
    for_of (index_step ext textbook_id) modules indexed w =
      (w', Ok (indexed
               + Z.of_nat (successes (index_outcomes ext textbook_id modules w)))) ∧
    PRACTICE_PROBLEMS w' = PRACTICE_PROBLEMS w ∧ NOTEBOOKS w' = NOTEBOOKS w ∧
    dom (VECTORIZE w) ⊆ dom (VECTORIZE w') ∧
    (∀ id, id ∈ dom (VECTORIZE w') →
           id ∈ dom (VECTORIZE w) ∨
           ∃ module, module ∈ modules ∧ entry_id textbook_id module = Ok id) ∧
    (size (VECTORIZE w')
     ≤ size (VECTORIZE w) + successes (index_outcomes ext textbook_id modules w))%nat ∧
    length (console w')
    = (length (console w) + failures (index_outcomes ext textbook_id modules w))%nat.
Proof.
  unfold successes, failures.
  induction 1 as [|module modules Hmodule _ IH]; intros indexed w.
  - exists w. simpl. unfold mret, M_ret. rewrite Z.add_0_r.
    repeat split; try done; try lia. intros id Hid. by left.
  - cbn [for_of index_outcomes]. unfold mbind, M_bind.
    rewrite (index_step_outcome ext textbook_id indexed module w Hmodule).
    destruct (index_step_effect ext textbook_id module w Hmodule)
      as (Hp & Hn & Hd & Hids & Hs & Hc).
    destruct (IH (indexed + if succeeded (index_module ext textbook_id module w)
                            then 1 else 0)
                 (index_step ext textbook_id 0 module w).1)
      as (w' & Hrest & Hp' & Hn' & Hd' & Hids' & Hs' & Hc').
    exists w'. rewrite Hrest, Hp', Hn', Hc', Hp, Hn, Hc.
    assert (∀ id, id ∈ dom (VECTORIZE w') →
              id ∈ dom (VECTORIZE w) ∨
              ∃ module', module' ∈ module :: modules ∧
                         entry_id textbook_id module' = Ok id) as Hbound.
    { intros id [Hid|(module' & Hin & Hid)]%Hids'.
      - apply Hids in Hid as [Hid|Hid]; [by left|].
        right. exists module. split; [by left|done].
      - right. exists module'. split; [by right|done]. }
    destruct (succeeded (index_module ext textbook_id module w));
      cbn [List.filter length negb]; repeat split; try done;
      try (do 2 f_equal; lia); try lia; by etrans.
Qed.

Lemma slice_length_le (len : nat) (end_ : value) (n : nat) :
  slice_length len end_ = Ok n → (n ≤ len)%nat.
Proof.
  unfold slice_length. intros Hn.
  destruct end_; [by injection Hn as <-|..];
    unfold mbind, result_bind in Hn;
    (destruct (to_integer _) as [[e| |]|err]; [| | |discriminate Hn]);
    injection Hn as <-; try lia;
    (destruct (e <? 0) eqn:He; [apply Z.ltb_lt in He | apply Z.ltb_ge in He]; lia).
Qed.

Lemma modules_to_index_prefix (modules : list value) (params : value)
    (attempted : list value) :
  modules_to_index modules params = Ok attempted →
  ∃ n, slice_length (length modules) (module_bound params) = Ok n ∧
       attempted = take n modules ∧ length attempted = n.
Proof.
  unfold modules_to_index, mbind, result_bind. intros Hattempted.
  destruct (slice_length _ _) as [n|e] eqn:Hn; [|done]. injection Hattempted as <-.
  exists n. split; [done|]. split; [done|].
  rewrite length_take. apply Nat.min_l. by apply slice_length_le in Hn.
Qed.




(** A bound that does not convert makes the call raise, before any module is
    attempted: [slice] throws on an object with a property [toString]. *)
Lemma index_unconvertible_bound_raises :
  indexTextbookForSearch mock (index_physics (VObj [("toString", VNum 1)])) empty_world
  = ((getTextbookStructure mock (VObj [("textbook_id", VStr "osbooks-physics")])
        empty_world).1,
     Throw cannot_convert).
Proof. vm_compute. reflexivity. Qed.

(** A module that cannot be named ends the loop: the [catch] clause reads
    the id of the module for its message and throws in its turn. *)
Example index_null_module_raises :
  indexTextbookForSearch mock (index_physics VUndef) null_module_world
  = (null_module_world,
     Throw (JsError "Cannot read properties of null (reading 'id')")).
Proof. vm_compute. reflexivity. Qed.

Example index_three_modules_one_failing :
  (indexTextbookForSearch mock (index_physics VUndef) empty_world).2
  = Ok (VObj [("indexed", VNum 2); ("total_modules", VNum 3);
              ("textbook_id", VStr "osbooks-physics");
              ("message", VStr "Successfully indexed 2 modules for semantic search")]).
Proof. vm_compute. reflexivity. Qed.

Example index_bound_as_text :
  modules_to_index physics_modules (index_physics (VStr "2.5")) = Ok (take 2 physics_modules) ∧
  modules_to_index physics_modules (index_physics (VStr "1e1")) = Ok physics_modules ∧
  modules_to_index physics_modules (index_physics (VStr "0x2")) = Ok (take 2 physics_modules) ∧
  modules_to_index physics_modules (index_physics (VStr "Infinity")) = Ok physics_modules ∧
  modules_to_index physics_modules (index_physics (VNum (-1))) = Ok (take 2 physics_modules) ∧
  modules_to_index physics_modules (index_physics VNull) = Ok [].
Proof. repeat split; vm_compute; reflexivity. Qed.

(** ** Listing *)

(** The two filters on a textbook the listing built: a case-insensitive
    substring test on the name and an equality test on the language tag. *)
Lemma matches_filters_strings (subject language id name lang : string) :
  matches_filters (VStr subject) (VStr language) (mock_textbook id name lang) =
    Ok ((match subject with
         | EmptyString => true
         | _ => includes (toLowerCase name) (toLowerCase subject)
         end)
        && (match language with
            | EmptyString => true
            | _ => String.eqb lang language
            end)).
Proof.
  unfold matches_filters, mock_textbook.
  destruct subject as [|c subject]; destruct language as [|d language]; simpl;
    try done; by destruct (includes _ _).
Qed.

(** C6 (the code at the failing input). The cache key of a listing without a
    subject and the key of a listing with the subject [all] are the same
    string.  On a fresh cache the listing for subject [all] is the one
    textbook whose name contains it; after a listing without filters has been
    cached, the same call returns the three textbooks of that listing. *)
Theorem listing_subject_all_shares_key :
  operation_key list_textbooks list_all = operation_key list_textbooks list_subject_all ∧
  (listTextbooks mock list_subject_all empty_world).2 =
    Ok (VObj [("textbooks",
               VArr [mock_textbook "osbooks-calculus-all-volumes" "calculus all volumes" "en"]);
              ("count", VNum 1); ("from_cache", VBool false)]) ∧
  (listTextbooks mock list_subject_all (listTextbooks mock list_all empty_world).1).2 =
    Ok (VObj [("textbooks",
               VArr [mock_textbook "osbooks-college-physics-bundle" "college physics" "en";
                     mock_textbook "osbooks-fisica-universitaria-bundle"
                       "fisica universitaria" "es";
                     mock_textbook "osbooks-calculus-all-volumes" "calculus all volumes" "en"]);
              ("count", VNum 3); ("from_cache", VBool true)]).
Proof. split; [reflexivity|]. split; vm_compute; reflexivity. Qed.

Example listing_physics_es :
  (listTextbooks mock (VObj [("subject", VStr "FISICA"); ("language", VStr "es")])
     empty_world).2 =
    Ok (VObj [("textbooks",
               VArr [mock_textbook "osbooks-fisica-universitaria-bundle"
                       "fisica universitaria" "es"]);
              ("count", VNum 1); ("from_cache", VBool false)]).
Proof. vm_compute. reflexivity. Qed.

(** ** The stdio bridge: line splitting *)

Lemma split_newline_not_nil (s : string) : split_newline s ≠ [].
Proof.
  induction s as [|c s IH]; simpl; [done|].
  destruct (Ascii.eqb c "010"); [done|]. by destruct (split_newline s).
Qed.

Lemma removelast_cons_not_nil {A : Type} (x : A) (l : list A) :
  l ≠ [] → List.removelast (x :: l) = x :: List.removelast l.
Proof. by destruct l. Qed.

Lemma last_cons_not_nil {A : Type} (x d : A) (l : list A) :
  l ≠ [] → List.last (x :: l) d = List.last l d.
Proof. by destruct l. Qed.

(** Splitting a text that arrives in two parts: the complete pieces of the
    first part, then the pieces of what was left of it followed by the
    second part. *)
Lemma split_newline_app (a b : string) :
  split_newline (a +:+ b) =
    List.removelast (split_newline a)
    ++ split_newline (List.last (split_newline a) EmptyString +:+ b).
Proof.
  induction a as [|c a IH]; [done|].
  rewrite append_cons. cbn [split_newline].
  destruct (Ascii.eqb c "010") eqn:Hc.
  - rewrite removelast_cons_not_nil, last_cons_not_nil by apply split_newline_not_nil.
    by rewrite IH.
  - rewrite IH. destruct (split_newline a) as [|piece pieces] eqn:Ha.
    { by destruct (split_newline_not_nil a). }
    destruct pieces as [|piece' pieces].
    + cbn [List.removelast List.last app]. rewrite append_cons. cbn [split_newline].
      by rewrite Hc.
    + rewrite removelast_cons_not_nil, last_cons_not_nil by done.
      rewrite (removelast_cons_not_nil (String c piece)) by done.
      by rewrite (last_cons_not_nil (String c piece)) by done.
Qed.

Lemma last_app_not_nil {A : Type} (l rest : list A) (d : A) :
  rest ≠ [] → List.last (l ++ rest) d = List.last rest d.
Proof.
  intros Hrest. induction l as [|x l IH]; [done|].
  cbn [app]. rewrite last_cons_not_nil; [done|]. by destruct l, rest.
Qed.

Lemma removelast_last_app {A : Type} (l : list A) (d : A) :
  l ≠ [] → List.removelast l ++ [List.last l d] = l.
Proof. intros Hl. symmetry. by apply app_removelast_last. Qed.

Lemma split_newline_pieces (s : string) :
  Forall (λ piece, "010"%char ∉ String.list_ascii_of_string piece) (split_newline s).
Proof.
  induction s as [|c s IH]; cbn [split_newline].
  - repeat constructor. cbn. apply not_elem_of_nil.
  - destruct (Ascii.eqb_spec c "010") as [->|Hc].
    + constructor; [|done]. cbn. apply not_elem_of_nil.
    + destruct (split_newline s) as [|piece pieces].
      * repeat constructor. cbn. rewrite list_elem_of_singleton. congruence.
      * apply Forall_cons_1 in IH as [Hpiece Hpieces]. constructor; [|done].
        cbn. rewrite elem_of_cons. intros [?|?]; [congruence|done].
Qed.

(** X1. The bridge handles its input the same way however the input is cut
    into chunks: one event with two chunks joined posts the payloads of the
    first chunk, then those of the second, and leaves the same buffer. *)
Theorem on_data_chunks (JSON_parse : string → result value) (buffer chunk1 chunk2 : string) :
  on_data JSON_parse buffer (chunk1 +:+ chunk2) =
    let (buffer1, posted1) := on_data JSON_parse buffer chunk1 in
    let (buffer2, posted2) := on_data JSON_parse buffer1 chunk2 in
    (buffer2, posted1 ++ posted2).
Proof.
  unfold on_data. cbv zeta.
  rewrite <- append_assoc, split_newline_app.
  set (pieces := split_newline (buffer +:+ chunk1)).
  set (rest := split_newline (List.last pieces EmptyString +:+ chunk2)).
  assert (rest ≠ []) as Hrest by apply split_newline_not_nil.
  f_equal.
  - by apply last_app_not_nil.
  - rewrite <- flat_map_app. f_equal. by apply removelast_app.
Qed.

(** X2. After every event the buffer of the bridge holds no line feed: a line
    that is complete is never held back. *)
Theorem on_data_buffer_has_no_newline (JSON_parse : string → result value)
    (buffer chunk : string) :
  "010"%char ∉ String.list_ascii_of_string (on_data JSON_parse buffer chunk).1.
Proof.
  unfold on_data. cbn [fst].
  pose proof (split_newline_pieces (buffer +:+ chunk)) as Hpieces.
  pose proof (split_newline_not_nil (buffer +:+ chunk)) as Hnot_nil.
  rewrite <- (removelast_last_app _ EmptyString Hnot_nil) in Hpieces.
  apply Forall_app in Hpieces as [_ Hlast].
  apply Forall_cons_1 in Hlast as [Hlast _]. exact Hlast.
Qed.

(** ** The stdio bridge: forwarding *)

(** X3. What the bridge writes for a payload is the reply of the endpoint, and
    it writes one only when the payload is not empty, the reply has a
    success status, and the id of the reply is neither [null] nor missing:
    replies without an id, such as the parse error of the worker, are dropped. *)
Theorem post_writes_identified_replies (ext : Externals) (url : string)
    (payload written : value) :
  post ext url payload = Some written →
  truthy payload = true ∧ own_properties payload ≠ [] ∧
  ∃ response data,
    fetch ext (VStr url)
      (VObj [("method", VStr "POST");
             ("headers", VObj [("Content-Type", VStr "application/json")]);
             ("body", JSON_stringify payload 0)]) = Ok response ∧
    FetchResponse.ok response = true ∧
    FetchResponse.json response = Ok data ∧
    opt_get data "id" ≠ VNull ∧ opt_get data "id" ≠ VUndef ∧
    written = JSON_stringify data 0.
Proof.
  unfold post, mbind, result_bind. intros Hpost.
  destruct (truthy payload) eqn:Hpayload; [|done]. split; [done|].
  destruct (own_properties payload) as [|p ps] eqn:Hkeys; [done|]. split; [done|].
  cbn [negb orb length Nat.eqb] in Hpost.
  destruct (fetch ext _ _) as [response|e] eqn:Hfetch; [|done].
  destruct (FetchResponse.ok response) eqn:Hok; [|done]. cbn [negb] in Hpost.
  destruct (FetchResponse.json response) as [data|e] eqn:Hjson; [|done].
  unfold get in Hpost. destruct (nullish data); [done|].
  destruct (strict_eq (opt_get data "id") VNull) eqn:Hnull; [done|].
  destruct (strict_eq (opt_get data "id") VUndef) eqn:Hundef; [done|].
  injection Hpost as <-. exists response, data.
  split; [done|]. split; [done|]. split; [done|].
  split; [intros Hid; by rewrite Hid in Hnull|].
  split; [intros Hid; by rewrite Hid in Hundef|done].
Qed.

Lemma post_writes_identified_replies_witness :
  post bridge_upstream "https://worker.example" tools_call_example
    = Some (JSON_stringify bridge_reply 0) ∧
  opt_get bridge_reply "id" ≠ VNull.
Proof.
  split; [reflexivity|].
  destruct (post_writes_identified_replies bridge_upstream "https://worker.example"
              tools_call_example (JSON_stringify bridge_reply 0) eq_refl)
    as (_ & _ & response & data & Hfetch & _ & Hjson & Hid & _).
  injection Hfetch as <-. injection Hjson as <-. exact Hid.
Defined.

(** ** More on the dispatcher *)

Lemma strict_eq_string (v : value) (s : string) : strict_eq v (VStr s) = true → v = VStr s.
Proof. destruct v; try done. simpl. by intros ->%String.eqb_eq. Qed.

Lemma strict_eq_string_false (v : value) (s : string) :
  strict_eq v (VStr s) = false → v ≠ VStr s.
Proof. intros Hne ->. simpl in Hne. by rewrite String.eqb_refl in Hne. Qed.

Lemma tool_names_listed :
  tool_names =
    [VStr "list_textbooks"; VStr "get_textbook_structure"; VStr "get_module_content";
     VStr "semantic_search"; VStr "generate_practice_problems";
     VStr "generate_jupyter_notebook"; VStr "index_textbook_for_search"].
Proof. vm_compute. reflexivity. Qed.

(** The names the [switch] of [handleToolCall] routes are the names of the
    catalog. *)
Lemma tool_named_catalog (ext : Externals) (name : value) :
  tool_named ext name = None ↔ name ∉ tool_names.
Proof.
  rewrite tool_names_listed. unfold tool_named. split.
  - intros Hnone.
    repeat match type of Hnone with
           | (if ?b then _ else _) = None =>
               let Heq := fresh "Heq" in
               destruct b eqn:Heq; [discriminate Hnone|];
               apply strict_eq_string_false in Heq
           end.
    rewrite !elem_of_cons, elem_of_nil. tauto.
  - intros Hnot.
    repeat match goal with
           | |- (if strict_eq name (VStr ?s) then _ else _) = None =>
               let Heq := fresh "Heq" in
               destruct (strict_eq name (VStr s)) eqn:Heq;
               [exfalso; apply strict_eq_string in Heq; apply Hnot;
                rewrite !elem_of_cons; tauto|]; clear Heq
           end.
    reflexivity.
Qed.

(** X4. The catalog of [tools/list] and the routing of [tools/call] agree: a
    call that names a tool of the catalog is routed to an operation; a call
    with any other name changes nothing and is answered with the id of the
    request and code -32602 and the name, when the name converts to a string,
    and with code -32603 and the error of the conversion when it does not. *)
Theorem catalog_and_routing_agree (ext : Externals) (request : value) (w : World) :
  get request "method" = Ok (VStr "tools/call") →
  nullish (opt_get request "params") = false →
  let name := opt_get (opt_get request "params") "name" in
  (name ∈ tool_names → ∃ tool, tool_named ext name = Some tool) ∧
  (name ∉ tool_names →
   handleRequest ext request w =
     (w, Ok match to_string name with
            | Ok text =>
                errorResponse (opt_get request "id") (-32602) ("Unknown tool: " +:+ text)
            | Throw error =>
                errorResponse (opt_get request "id") (-32603)
                  ("Tool execution error: " +:+ error_message error)
            end)).
Proof.
  intros Hmethod Hparams name.
  destruct (get_Ok_not_nullish _ _ _ Hmethod) as [Hrequest _]. split.
  - intros Hlisted. destruct (tool_named ext name) as [tool|] eqn:Htool; [by eexists|].
    by apply tool_named_catalog in Htool.
  - intros Hunlisted. apply (tool_named_catalog ext) in Hunlisted.
    unfold handleRequest. rewrite Hmethod. cbn [mbind result_bind strict_eq].
    cbn [String.eqb Ascii.eqb Bool.eqb]. cbn [try_return].
    rewrite handleToolCall_outcome by done. cbv zeta. fold name. rewrite Hunlisted.
    by destruct (to_string name).
Qed.

Lemma catalog_and_routing_agree_witness :
  get unknown_tool_request "method" = Ok (VStr "tools/call") ∧
  nullish (opt_get unknown_tool_request "params") = false ∧
  handleRequest mock unknown_tool_request empty_world =
    (empty_world, Ok (errorResponse (VNum 8) (-32602) "Unknown tool: delete_textbook")).
Proof.
  split; [reflexivity|]. split; [reflexivity|].
  apply (proj2 (catalog_and_routing_agree mock unknown_tool_request empty_world
                  eq_refl eq_refl)).
  rewrite tool_names_listed, !elem_of_cons, elem_of_nil.
  intros Hin. repeat (destruct Hin as [Hin|Hin]; [discriminate Hin|]). exact Hin.
Defined.

(** A tool name that does not convert to a string is answered with the
    error of the conversion. *)
Example unconvertible_tool_name (id : value) :
  handleRequest mock
    (VObj [("id", id); ("method", VStr "tools/call");
           ("params", VObj [("name", VObj [("toString", VNum 1)])])]) empty_world
  = (empty_world,
     Ok (errorResponse id (-32603)
           "Tool execution error: Cannot convert object to primitive value")).
Proof. reflexivity. Qed.

(** X5. A request that is not [null] and whose method is not [tools/call] is
    answered at once: the state is unchanged and the response has the id of
    the request; a method other than [initialize] and [tools/list] gives the
    error -32601 that names it, when it converts to a string, and the error
    -32603 with the error of the conversion when it does not. *)
Theorem static_methods_answer (ext : Externals) (request : value) (w : World) :
  nullish request = false →
  strict_eq (opt_get request "method") (VStr "tools/call") = false →
  ∃ response,
    handleRequest ext request w = (w, Ok response) ∧
    opt_get response "id" = opt_get request "id" ∧
    (strict_eq (opt_get request "method") (VStr "initialize") = false →
     strict_eq (opt_get request "method") (VStr "tools/list") = false →
     response = match to_string (opt_get request "method") with
                | Ok text =>
                    errorResponse (opt_get request "id") (-32601)
                      ("Method not found: " +:+ text)
                | Throw error =>
                    errorResponse (opt_get request "id") (-32603)
                      ("Internal error: " +:+ error_message error)
                end).
Proof.
  intros Hrequest Hcall. unfold handleRequest, handleInitialize, handleToolsList.
  rewrite !(get_defined request) by done. unfold mbind, result_bind, M_bind, liftR.
  destruct (strict_eq (opt_get request "method") (VStr "initialize")) eqn:Hinit.
  { eexists. split; [reflexivity|]. by split. }
  destruct (strict_eq (opt_get request "method") (VStr "tools/list")) eqn:Hlist.
  { eexists. split; [reflexivity|]. by split. }
  rewrite Hcall. destruct (to_string (opt_get request "method")) as [text|error].
  - eexists. split; [reflexivity|]. by split.
  - eexists. split; [reflexivity|]. by split.
Qed.

Lemma static_methods_answer_witness :
  nullish ping_request = false ∧
  handleRequest mock ping_request empty_world =
    (empty_world, Ok (errorResponse (VNum 7) (-32601) "Method not found: ping")).
Proof.
  split; [reflexivity|].
  destruct (static_methods_answer mock ping_request empty_world eq_refl eq_refl)
    as (response & Hrun & _ & Hunknown).
  rewrite Hrun, (Hunknown eq_refl eq_refl). reflexivity.
Defined.

(** A method that is a number beyond 21 digits is named the way JavaScript
    prints it, and a method that does not convert is answered with the error
    of the conversion. *)
Example unusual_methods (id : value) :
  handleRequest mock (VObj [("id", id); ("method", VNum (10 ^ 21))]) empty_world
  = (empty_world, Ok (errorResponse id (-32601) "Method not found: 1e+21")) ∧
  handleRequest mock (VObj [("id", id); ("method", VObj [("toString", VNum 1)])])
    empty_world
  = (empty_world,
     Ok (errorResponse id (-32603)
           "Internal error: Cannot convert object to primitive value")).
Proof. split; reflexivity. Qed.

(** X6. The entry point never rejects: every request gets a response.  The
    status is 400 only for a POST whose body is not JSON or whose handling
    was rejected by the dispatcher; every other response has status 200. *)
Theorem worker_fetch_always_responds (ext : Externals) (request : Request.t) (w : World) :
  ∃ w' response,
    worker_fetch ext request w = (w', Ok response) ∧
    (Response.status response = 200 ∨
     Response.status response = 400 ∧
     Request.method request = "POST" ∧
     ((∃ e, Request.json request = Throw e) ∨
      (∃ mcpRequest e, Request.json request = Ok mcpRequest ∧
                       handleRequest ext mcpRequest w = (w', Throw e)))).
Proof.
  unfold worker_fetch.
  destruct (String.eqb (Request.method request) "OPTIONS"); [by eexists _, _; split; [|left]|].
  destruct (endsWith (Request.url request) "/health"); [by eexists _, _; split; [|left]|].
  destruct (String.eqb_spec (Request.method request) "POST") as [Hpost|_];
    [|by eexists _, _; split; [|left]].
  unfold try_catch, mbind, M_bind, liftR, mret, M_ret.
  destruct (Request.json request) as [mcpRequest|e] eqn:Hjson.
  - destruct (handleRequest ext mcpRequest w) as [w' [mcpResponse|e]] eqn:Hrun.
    + by eexists _, _; split; [|left].
    + eexists _, _. split; [reflexivity|]. right.
      split; [done|]. split; [done|]. right. by eexists _, _.
  - eexists _, _. split; [reflexivity|]. right.
    split; [done|]. split; [done|]. left. by eexists.
Qed.

(** ** What the cache-backed operations leave alone *)

Lemma listTextbooks_failure (ext : Externals) (params : value) (w w' : World) (e : exn) :
  listTextbooks ext params w = (w', Throw e) → w' = w.
Proof.
  unfold listTextbooks. intros Hrun. unfold_run.
  repeat run_split Hrun; by injection Hrun as <-.
Qed.

Lemma getTextbookStructure_failure (ext : Externals) (params : value) (w w' : World)
    (e : exn) :
  getTextbookStructure ext params w = (w', Throw e) → w' = w.
Proof.
  unfold getTextbookStructure. intros Hrun. unfold_run.
  repeat run_split Hrun; by injection Hrun as <-.
Qed.

Lemma generatePracticeProblems_failure (ext : Externals) (params : value) (w w' : World)
    (e : exn) :
  generatePracticeProblems ext params w = (w', Throw e) →
  PRACTICE_PROBLEMS w' = PRACTICE_PROBLEMS w.
Proof.
  unfold generatePracticeProblems. intros Hrun. unfold_run.
  repeat run_split Hrun; try by injection Hrun as <-.
  all: apply getModuleContent_frame in Hcall as (Hkept & _); by injection Hrun as <-.
Qed.

Lemma generateJupyterNotebook_failure (ext : Externals) (params : value) (w w' : World)
    (e : exn) :
  generateJupyterNotebook ext params w = (w', Throw e) → NOTEBOOKS w' = NOTEBOOKS w.
Proof.
  unfold generateJupyterNotebook. intros Hrun. unfold_run.
  repeat run_split Hrun; try by injection Hrun as <-.
  all: apply getModuleContent_frame in Hcall as (_ & Hkept & _); by injection Hrun as <-.
Qed.

(** X7. An operation that fails stores nothing: when one of the five
    cache-backed operations throws, its cache region is as it was, and for
    the three content operations so is the whole state. *)
Theorem failed_operation_caches_nothing (ext : Externals) (op : cached_operation)
    (params : value) (w w' : World) (e : exn) :
  run_operation ext op params w = (w', Throw e) →
  operation_cache op w' = operation_cache op w ∧
  (match op with
   | list_textbooks | get_textbook_structure | get_module_content => w' = w
   | _ => True
   end).
Proof.
  destruct op; cbn [run_operation operation_cache]; intros Hrun.
  - apply listTextbooks_failure in Hrun as ->. done.
  - apply getTextbookStructure_failure in Hrun as ->. done.
  - apply getModuleContent_frame in Hrun as (_ & _ & _ & _ & Hsame).
    by rewrite (Hsame e eq_refl).
  - by apply generatePracticeProblems_failure in Hrun.
  - by apply generateJupyterNotebook_failure in Hrun.
Qed.

Lemma failed_operation_caches_nothing_witness :
  run_operation mock get_module_content
    (VObj [("textbook_id", VStr "osbooks-physics"); ("module_id", VStr "m2")]) empty_world
    = (empty_world, Throw (JsError "Module m2 not found")).
Proof.
  assert (run_operation mock get_module_content
            (VObj [("textbook_id", VStr "osbooks-physics"); ("module_id", VStr "m2")])
            empty_world
          = ((run_operation mock get_module_content
                (VObj [("textbook_id", VStr "osbooks-physics"); ("module_id", VStr "m2")])
                empty_world).1,
             Throw (JsError "Module m2 not found"))) as Hrun
    by (vm_compute; reflexivity).
  destruct (failed_operation_caches_nothing mock get_module_content _ _ _ _ Hrun)
    as [_ Hsame].
  rewrite Hrun. by rewrite Hsame.
Defined.

(** X8. A cache hit does not go upstream: when the operation computes its
    key and the entry under the key is truthy, the call returns that entry
    with [from_cache] set, whatever the collaborators would answer, and leaves
    the state as it is. *)
Theorem cache_hit_skips_upstream (ext ext' : Externals) (op : cached_operation)
    (params : value) (w : World) :
  nullish params = false →
  truthy (cached_entry op params w) = true →
  (∃ key, operation_key op params = Ok key ∧
          cached_entry op params w = kv_get (operation_cache op w) key) ∧
  run_operation ext op params w = run_operation ext' op params w ∧
  run_operation ext op params w = (w, Ok (with_from_cache (cached_entry op params w))).
Proof.
  intros Hparams Hhit. split.
  - unfold cached_entry in *. destruct (operation_key op params) as [key|]; [|done].
    by exists key.
  - by rewrite !run_operation_hit by done.
Qed.

(** A second call whose arguments give the same cache key gets the payload
    of the first. *)
Lemma run_operation_same_key (ext : Externals) (op : cached_operation)
    (params1 params2 : value) (w w1 : World) (r1 : value) :
  cache_miss op params1 w →
  run_operation ext op params1 w = (w1, Ok r1) →
  nullish params2 = false →
  operation_key op params2 = operation_key op params1 →
  fresh_payload r1 ∧
  run_operation ext op params2 w1 = (w1, Ok (with_from_cache (json_roundtrip r1))).
Proof.
  intros Hmiss Hrun Hparams2 Hkey.
  destruct (run_operation_miss ext op params1 w w1 r1 Hmiss Hrun)
    as (_ & Hfresh & Hcached).
  split; [done|].
  destruct (fresh_payload_roundtrip r1 Hfresh) as (_ & Htruthy & _).
  assert (cached_entry op params2 w1 = cached_entry op params1 w1) as Hsame
    by (unfold cached_entry; by rewrite Hkey).
  rewrite <- Hcached, <- Hsame.
  apply run_operation_hit; [done|]. by rewrite Hsame, Hcached.
Qed.

Lemma cache_hit_skips_upstream_witness :
  truthy (cached_entry get_module_content module_m1
            (run_operation mock get_module_content module_m1 empty_world).1) = true ∧
  run_operation mock get_module_content module_m1
    (run_operation mock get_module_content module_m1 empty_world).1
  = run_operation bridge_upstream get_module_content module_m1
      (run_operation mock get_module_content module_m1 empty_world).1.
Proof.
  assert (truthy (cached_entry get_module_content module_m1
                    (run_operation mock get_module_content module_m1 empty_world).1)
          = true) as Hhit
    by (vm_compute; reflexivity).
  split; [exact Hhit|].
  exact (proj1 (proj2 (cache_hit_skips_upstream mock bridge_upstream get_module_content
                         module_m1 _ eq_refl Hhit))).
Defined.

(** ** What the cache keys leave out *)

(** X9. The key of the practice problems has the textbook, the module and the
    difficulty, not the count: once problems are cached, a call for the same
    module and difficulty returns them whatever count it asks for. *)
Theorem cached_problems_ignore_count (ext : Externals) (params1 params2 : value)
    (w w1 : World) (r1 : value) :
  cache_miss generate_practice_problems params1 w →
  generatePracticeProblems ext params1 w = (w1, Ok r1) →
  nullish params2 = false →
  opt_get params2 "textbook_id" = opt_get params1 "textbook_id" →
  opt_get params2 "module_id" = opt_get params1 "module_id" →
  opt_get params2 "difficulty" = opt_get params1 "difficulty" →
  generatePracticeProblems ext params2 w1 = (w1, Ok (with_from_cache (json_roundtrip r1))).
Proof.
  intros Hmiss Hrun Hparams2 Htextbook Hmodule Hdifficulty.
  apply (run_operation_same_key ext generate_practice_problems params1 params2 w w1 r1);
    try done.
  unfold operation_key. by rewrite Htextbook, Hmodule, Hdifficulty.
Qed.

Lemma cached_problems_ignore_count_witness :
  cache_miss generate_practice_problems (problems_args 5) empty_world ∧
  ∃ w1 r1,
    generatePracticeProblems mock (problems_args 5) empty_world = (w1, Ok r1) ∧
    generatePracticeProblems mock (problems_args 10) w1
      = (w1, Ok (with_from_cache (json_roundtrip r1))).
Proof.
  assert (cache_miss generate_practice_problems (problems_args 5) empty_world) as Hmiss
    by (eexists; split; reflexivity).
  split; [exact Hmiss|].
  exists (generatePracticeProblems mock (problems_args 5) empty_world).1.
  exists (VObj [("module_id", VStr "m1"); ("difficulty", VStr "medium");
                ("problems", VStr "Problem 1: ..."); ("from_cache", VBool false)]).
  assert (generatePracticeProblems mock (problems_args 5) empty_world
          = ((generatePracticeProblems mock (problems_args 5) empty_world).1,
             Ok (VObj [("module_id", VStr "m1"); ("difficulty", VStr "medium");
                       ("problems", VStr "Problem 1: ..."); ("from_cache", VBool false)])))
    as Hrun by (vm_compute; reflexivity).
  split; [exact Hrun|].
  exact (cached_problems_ignore_count mock (problems_args 5) (problems_args 10)
           empty_world _ _ Hmiss Hrun eq_refl eq_refl eq_refl eq_refl).
Defined.

Lemma lookup_json_roundtrip_absent (k : string) fields :
  find_field k fields = None →
  lookup_field k (own_properties (json_roundtrip (VObj fields))) = VUndef.
Proof.
  cbn [json_roundtrip own_properties].
  induction fields as [|[k0 x] fields IH]; [done|].
  cbn [find_field flat_map]. destruct (String.eqb k k0) eqn:Hk; [done|].
  intros Hrest. destruct x; cbn [app lookup_field]; rewrite ?Hk; by apply IH.
Qed.

(** X10. The key of a module has no [include_images]: after the content was
    fetched without images, a call for the same module answers from the cache
    and has no images, also when it asks for them. *)
Theorem cached_module_ignores_include_images (ext : Externals) (params1 params2 : value)
    (w w1 : World) (r1 : value) :
  cache_miss get_module_content params1 w →
  getModuleContent ext params1 w = (w1, Ok r1) →
  truthy (or_default (opt_get params1 "include_images") (VBool true)) = false →
  nullish params2 = false →
  opt_get params2 "textbook_id" = opt_get params1 "textbook_id" →
  opt_get params2 "module_id" = opt_get params1 "module_id" →
  ∃ r2,
    getModuleContent ext params2 w1 = (w1, Ok r2) ∧
    opt_get r2 "from_cache" = VBool true ∧
    opt_get r2 "images" = VUndef.
Proof.
  intros Hmiss Hrun Himages Hparams2 Htextbook Hmodule.
  assert (operation_key get_module_content params2
          = operation_key get_module_content params1) as Hkey.
  { unfold operation_key. by rewrite Htextbook, Hmodule. }
  destruct (run_operation_same_key ext get_module_content params1 params2 w w1 r1
              Hmiss Hrun Hparams2 Hkey) as [_ Hagain].
  exists (with_from_cache (json_roundtrip r1)). split; [exact Hagain|].
  unfold with_from_cache. cbn [opt_get]. split; [apply lookup_set_field|].
  rewrite lookup_set_field_other by done.
  clear Hagain Hkey. destruct Hmiss as (key & Hkey & Hmiss).
  unfold operation_cache, operation_key in *.
  unfold getModuleContent in Hrun. unfold_run.
  run_step Hrun. apply destructure_Ok in Hstep as [Hparams ->].
  rewrite !destructure_defined in Hrun by done.
  cbv beta iota zeta in Hkey, Hrun. rewrite Hkey in Hrun.
  cbv beta iota in Hrun. rewrite Hmiss, Himages in Hrun.
  repeat run_step Hrun; try discriminate Hrun. injection Hrun as _ <-.
  by apply lookup_json_roundtrip_absent.
Qed.

Lemma cached_module_ignores_include_images_witness :
  cache_miss get_module_content (module_m1_images false) empty_world ∧
  ∃ w1 r2,
    (getModuleContent every_module_upstream (module_m1_images false) empty_world).1 = w1 ∧
    getModuleContent every_module_upstream (module_m1_images true) w1 = (w1, Ok r2) ∧
    opt_get r2 "images" = VUndef.
Proof.
  assert (cache_miss get_module_content (module_m1_images false) empty_world) as Hmiss
    by (eexists; split; reflexivity).
  split; [exact Hmiss|].
  assert (getModuleContent every_module_upstream (module_m1_images false) empty_world
          = ((getModuleContent every_module_upstream (module_m1_images false)
                empty_world).1,
             Ok (VObj [("title", VStr "Kinematics");
                       ("content", VStr "Motion in one dimension.");
                       ("module_id", VStr "m1"); ("raw_xml", VStr "document");
                       ("from_cache", VBool false)]))) as Hrun
    by (vm_compute; reflexivity).
  destruct (cached_module_ignores_include_images every_module_upstream
              (module_m1_images false) (module_m1_images true) empty_world _ _
              Hmiss Hrun eq_refl eq_refl eq_refl eq_refl) as (r2 & Hagain & _ & Himages).
  eexists _, r2. split; [reflexivity|]. split; [exact Hagain|exact Himages].
Defined.

(** X11. The key of a module joins the textbook id and the module id with an
    underscore, so two pairs that differ only in where the underscore falls
    share one entry: after the module [m2] of the textbook [t_m1] was cached,
    a call for the module [m1_m2] of the textbook [t] returns that content. *)
Theorem module_key_joins_with_underscore (ext : Externals) (t m1 m2 : string)
    (w w1 : World) (r1 : value) :
  cache_miss get_module_content (module_args (t +:+ "_" +:+ m1) m2) w →
  getModuleContent ext (module_args (t +:+ "_" +:+ m1) m2) w = (w1, Ok r1) →
  getModuleContent ext (module_args t (m1 +:+ "_" +:+ m2)) w1
    = (w1, Ok (with_from_cache (json_roundtrip r1))).
Proof.
  intros Hmiss Hrun.
  apply (run_operation_same_key ext get_module_content
           (module_args (t +:+ "_" +:+ m1) m2) (module_args t (m1 +:+ "_" +:+ m2)) w w1 r1);
    try done.
  unfold operation_key, module_args. cbn [opt_get lookup_field String.eqb Ascii.eqb
    Bool.eqb to_string]. unfold mbind, result_bind.
  by rewrite !append_assoc.
Qed.

Lemma module_key_joins_with_underscore_witness :
  cache_miss get_module_content (module_args ("osbooks" +:+ "_" +:+ "a") "b") empty_world ∧
  ∃ w1 r1,
    getModuleContent every_module_upstream (module_args "osbooks_a" "b") empty_world
      = (w1, Ok r1) ∧
    opt_get r1 "module_id" = VStr "b" ∧
    getModuleContent every_module_upstream (module_args "osbooks" "a_b") w1
      = (w1, Ok (with_from_cache (json_roundtrip r1))).
Proof.
  assert (cache_miss get_module_content (module_args ("osbooks" +:+ "_" +:+ "a") "b")
            empty_world) as Hmiss
    by (eexists; split; reflexivity).
  split; [exact Hmiss|].
  eexists _, _.
  assert (getModuleContent every_module_upstream
            (module_args ("osbooks" +:+ "_" +:+ "a") "b") empty_world
          = ((getModuleContent every_module_upstream (module_args "osbooks_a" "b")
                empty_world).1,
             Ok (VObj [("title", VStr "Kinematics");
                       ("content", VStr "Motion in one dimension.");
                       ("module_id", VStr "b"); ("raw_xml", VStr "document");
                       ("from_cache", VBool false); ("images", VArr [])]))) as Hrun
    by (vm_compute; reflexivity).
  split; [exact Hrun|]. split; [reflexivity|].
  exact (module_key_joins_with_underscore every_module_upstream "osbooks" "a" "b"
           empty_world _ _ Hmiss Hrun).
Defined.

(** ** Structure extraction on any parser output *)

Lemma push_module_Ok (modules result : list value) (mod' : value) :
  push_module modules mod' = Ok result →
  result = modules ++ (if has_document mod' then [module_ref mod'] else []).
Proof.
  destruct (nullish mod') eqn:Hmod.
  - unfold push_module, get. by rewrite Hmod.
  - rewrite push_module_spec by done. by intros [= <-].
Qed.

Lemma foldR_push_module_Ok (mods modules result : list value) :
  foldR push_module mods modules = Ok result →
  ∃ ms, result = modules ++ ms ∧ Forall emitted_ref ms.
Proof.
  revert modules. induction mods as [|m mods IH]; intros modules; cbn [foldR].
  - intros [= <-]. exists []. by rewrite app_nil_r.
  - destruct (push_module modules m) as [modules'|e] eqn:Hpush; [|done].
    apply push_module_Ok in Hpush as ->.
    intros (ms & -> & Hms)%IH. eexists. rewrite <- app_assoc. split; [done|].
    apply Forall_app. split; [|done].
    destruct (has_document m) eqn:Hdoc; [|done].
    repeat constructor. by exists m.
Qed.

Lemma foldR_traverse_Ok (subs : list value) :
  Forall traverse_sound subs →
  ∀ modules result,
    foldR (λ modules sub, traverse sub modules) subs modules = Ok result →
    ∃ ms, result = modules ++ ms ∧ Forall emitted_ref ms.
Proof.
  induction 1 as [|sub subs Hsub _ IH]; intros modules result; cbn [foldR].
  - intros [= <-]. exists []. by rewrite app_nil_r.
  - destruct (traverse sub modules) as [modules'|e] eqn:Htraverse; [|done].
    apply Hsub in Htraverse as (ms & -> & Hms).
    intros (ms' & -> & Hms')%IH. eexists. rewrite <- app_assoc. split; [done|].
    by apply Forall_app.
Qed.

Lemma traverse_any_value (node : value) : traverse_sound node.
Proof.
  cut (traverse_sound node ∧
       match node with VArr items => Forall traverse_sound items | _ => True end);
    [by intros [? _]|].
  assert (∀ v, (∀ modules, traverse v modules = Ok modules) → traverse_sound v) as Hleaf.
  { intros v Hv modules result. rewrite Hv. intros [= <-].
    exists []. by rewrite app_nil_r. }
  induction node as [| |b|n|s|items IH|fields IH] using value_nested_ind;
    try (split; [by intros ? ? ?|done]); try (split; [by apply Hleaf|done]).
  - split; [by apply Hleaf|]. eapply Forall_impl; [apply IH|]. by intros ? [? _].
  - split; [|done]. intros modules result. rewrite traverse_unfold.
    cbn [nullish mbind result_bind].
    destruct (foldR push_module _ modules) as [modules'|e] eqn:Hmodules; [|done].
    apply foldR_push_module_Ok in Hmodules as (ms & -> & Hms).
    assert (Forall traverse_sound (subcollection_elements (VObj fields))) as Hsound.
    { unfold subcollection_elements. cbn [opt_get].
      destruct (lookup_field_Forall
                  (λ v, traverse_sound v ∧
                        match v with VArr items => Forall traverse_sound items | _ => True end)
                  "subcollection" fields IH) as [->|[Hs Hitems]];
        [done|].
      destruct (truthy (lookup_field "subcollection" fields)); [|done].
      destruct (lookup_field "subcollection" fields); simpl; by repeat constructor. }
    intros (ms' & -> & Hms')%(foldR_traverse_Ok _ Hsound).
    eexists. rewrite <- app_assoc. split; [done|]. by apply Forall_app.
Qed.

Lemma extractModules_Ok (collection : value) (modules : list value) :
  extractModules collection = Ok modules → Forall is_module_ref modules.
Proof.
  unfold extractModules, mbind, result_bind.
  destruct (get collection "content") as [content|e]; [|done].
  destruct (truthy content); [|by intros [= <-]].
  intros Hrun. apply foldR_traverse_Ok in Hrun as (ms & -> & Hms).
  - eapply Forall_impl; [exact Hms|]. intros m (mod' & Hdoc & ->).
    by apply module_ref_is_module_ref.
  - apply Forall_forall. intros ? _. apply traverse_any_value.
Qed.

(** X12. Whatever tree the XML parser returns, a structure that is fetched and
    returned has an array of modules in which every entry has exactly an id
    and a title, the id neither missing nor empty, the title not empty. *)
Theorem fresh_structure_modules (ext : Externals) (params : value) (w w1 : World)
    (r1 : value) :
  cache_miss get_textbook_structure params w →
  getTextbookStructure ext params w = (w1, Ok r1) →
  ∃ modules, opt_get r1 "modules" = VArr modules ∧ Forall is_module_ref modules.
Proof.
  intros Hmiss Hrun.
  destruct (fresh_structure_modules_list ext params w w1 r1 Hmiss Hrun)
    as (collection & modules & Hextract & Hmodules).
  exists modules. split; [done|]. by eapply extractModules_Ok.
Qed.

Lemma fresh_structure_modules_witness :
  cache_miss get_textbook_structure physics empty_world ∧
  ∃ w1 modules,
    getTextbookStructure mock physics empty_world = (w1, Ok physics_structure) ∧
    opt_get physics_structure "modules" = VArr modules ∧
    Forall is_module_ref modules.
Proof.
  assert (cache_miss get_textbook_structure physics empty_world) as Hmiss
    by (eexists; split; reflexivity).
  split; [exact Hmiss|].
  assert (getTextbookStructure mock physics empty_world
          = ((getTextbookStructure mock physics empty_world).1, Ok physics_structure))
    as Hrun by (vm_compute; reflexivity).
  destruct (fresh_structure_modules mock physics empty_world _ _ Hmiss Hrun)
    as (modules & Hmodules & Hrefs).
  by eexists _, modules.
Defined.

(** X13. The title and the metadata are read with optional chaining, the
    modules are not: when the parsed document has no [collection] property
    (the root element has another name, or a namespace prefix), a structure
    that is not cached is never returned; the call throws and stores nothing. *)
Theorem structure_needs_collection_root (ext : Externals) (params : value) (w : World) :
  cache_miss get_textbook_structure params w →
  (∀ xml parsed, parseStringPromise ext xml = Ok parsed →
                 nullish (opt_get parsed "collection") = true) →
  ∃ e, getTextbookStructure ext params w = (w, Throw e).
Proof.
  intros Hmiss Hroot.
  destruct (getTextbookStructure ext params w) as [w' [r|e]] eqn:Hrun.
  - exfalso. destruct Hmiss as (key & Hkey & Hmiss).
    unfold operation_cache, operation_key in Hkey, Hmiss.
    unfold getTextbookStructure in Hrun. unfold_run.
    run_step Hrun. apply destructure_Ok in Hstep as [Hparams ->].
    cbv beta iota zeta in Hkey, Hrun. rewrite Hkey in Hrun.
    cbv beta iota in Hrun. rewrite Hmiss in Hrun.
    repeat run_step Hrun; try discriminate Hrun.
    match goal with
    | Hparse : parseStringPromise ext _ = Ok _ |- _ => apply Hroot in Hparse as Hnull
    end.
    match goal with
    | Hget : get _ "collection" = Ok _ |- _ => apply get_Ok_not_nullish in Hget as [_ ->]
    end.
    match goal with
    | Hextract : extractModules _ = Ok _ |- _ =>
        unfold extractModules, get in Hextract; rewrite Hnull in Hextract;
        discriminate Hextract
    end.
  - exists e. by rewrite (getTextbookStructure_failure ext params w w' e Hrun).
Qed.

Lemma structure_needs_collection_root_witness :
  cache_miss get_textbook_structure physics empty_world ∧
  getTextbookStructure prefixed_upstream physics empty_world
    = (empty_world,
       Throw (JsError "Cannot read properties of undefined (reading 'content')")).
Proof.
  assert (cache_miss get_textbook_structure physics empty_world) as Hmiss
    by (eexists; split; reflexivity).
  split; [exact Hmiss|].
  destruct (structure_needs_collection_root prefixed_upstream physics empty_world Hmiss)
    as [e He].
  { intros xml parsed [= <-]. reflexivity. }
  rewrite He. f_equal. vm_compute in He. by injection He as <-.
Defined.

(** ** What indexing writes *)

(** X14. When the structure of the textbook resolves to a list of modules
    whose ids convert to strings and [max_modules] converts to a number,
    indexing returns and leaves the caches of problems and notebooks as they
    were.  No entry leaves the index; every entry that is new has the id of
    an attempted module, the textbook id and the module id joined by an
    underscore; and the index grows by at most [indexed] entries, because an
    entry with the id of an older entry takes its place. *)
Theorem index_writes_add_up (ext : Externals) (params : value) (w w1 : World)
    (structure : value) (modules attempted : list value) :
  nullish params = false →
  getTextbookStructure ext (VObj [("textbook_id", opt_get params "textbook_id")]) w
    = (w1, Ok structure) →
  opt_get structure "modules" = VArr modules →
  Forall identified modules →
  modules_to_index modules params = Ok attempted →
  ∃ w2 r (indexed : nat),
    indexTextbookForSearch ext params w = (w2, Ok r) ∧
    opt_get r "indexed" = VNum (Z.of_nat indexed) ∧
    dom (VECTORIZE w) ⊆ dom (VECTORIZE w2) ∧
    (∀ id, id ∈ dom (VECTORIZE w2) →
           id ∈ dom (VECTORIZE w) ∨
           ∃ module, module ∈ attempted ∧
                     entry_id (opt_get params "textbook_id") module = Ok id) ∧
    (size (VECTORIZE w2) ≤ size (VECTORIZE w) + indexed)%nat ∧
    PRACTICE_PROBLEMS w2 = PRACTICE_PROBLEMS w ∧ NOTEBOOKS w2 = NOTEBOOKS w.
Proof.
  intros Hparams Hstructure Hmodules Hdefined Hattempted.
  destruct (modules_to_index_prefix _ _ _ Hattempted) as (n & Hn & Htake & Hlength).
  assert (nullish structure = false) as Hobject.
  { destruct structure; try done; by simpl in Hmodules. }
  assert (Forall identified attempted) as Hprefix.
  { rewrite Htake. by apply Forall_take. }
  destruct (getTextbookStructure_frame _ _ _ _ _ Hstructure) as (Hp & Hn' & Hv & Hc).
  destruct (for_of_index_step ext (opt_get params "textbook_id") attempted Hprefix 0 w1)
    as (w2 & Hloop & Hp2 & Hn2 & Hd2 & Hids2 & Hs2 & _).
  exists w2. eexists.
  exists (successes (index_outcomes ext (opt_get params "textbook_id") attempted w1)).
  split.
  - unfold indexTextbookForSearch, mbind, M_bind, mret, M_ret, liftR, fmap, result_fmap.
    rewrite !destructure_defined by done. cbv beta iota zeta.
    rewrite Hstructure. cbv beta iota zeta.
    unfold result_bind. rewrite (get_defined structure) by done.
    rewrite Hmodules. cbn [slice_to]. fold (module_bound params).
    unfold mbind, result_bind. rewrite Hn. cbn [iterate].
    rewrite <- Htake, Hloop. cbn [get nullish opt_get]. reflexivity.
  - cbn [opt_get lookup_field String.eqb Ascii.eqb Bool.eqb].
    rewrite Z.add_0_l, Hp2, Hn2, Hp, Hn'. rewrite Hv in Hd2, Hids2, Hs2.
    repeat split; done.
Qed.

Lemma index_writes_add_up_witness :
  nullish (index_physics VUndef) = false ∧
  modules_to_index physics_modules (index_physics VUndef) = Ok physics_modules ∧
  ∃ w1 w2 r,
    (indexTextbookForSearch mock (index_physics VUndef) empty_world).1 = w1 ∧
    dom (VECTORIZE w1) = {["osbooks-physics_m1"; "osbooks-physics_m3"]} ∧
    indexTextbookForSearch mock (index_physics VUndef) w1 = (w2, Ok r) ∧
    opt_get r "indexed" = VNum 2 ∧
    dom (VECTORIZE w1) ⊆ dom (VECTORIZE w2) ∧
    size (VECTORIZE w2) = 2%nat.
Proof.
  split; [reflexivity|]. split; [reflexivity|].
  eexists _, _, _. split; [reflexivity|].
  set (w1 := (indexTextbookForSearch mock (index_physics VUndef) empty_world).1).
  assert (getTextbookStructure mock
            (VObj [("textbook_id", opt_get (index_physics VUndef) "textbook_id")]) w1
          = (w1, Ok (with_from_cache physics_structure))) as Hstructure
    by (vm_compute; reflexivity).
  assert (Forall identified physics_modules) as Hdefined
    by (repeat constructor; by eexists).
  destruct (index_writes_add_up mock (index_physics VUndef) w1 _
              (with_from_cache physics_structure) physics_modules physics_modules
              eq_refl Hstructure eq_refl Hdefined eq_refl)
    as (w2 & r & indexed & Hrun & Hindexed & Hkept & _ & _).
  assert (indexTextbookForSearch mock (index_physics VUndef) w1
          = ((indexTextbookForSearch mock (index_physics VUndef) w1).1,
             Ok (VObj [("indexed", VNum 2); ("total_modules", VNum 3);
                       ("textbook_id", VStr "osbooks-physics");
                       ("message",
                        VStr "Successfully indexed 2 modules for semantic search")])))
    as Hagain by (vm_compute; reflexivity).
  rewrite Hagain in Hrun. injection Hrun as <- <-.
  split; [by vm_compute|]. split; [exact Hagain|]. split; [reflexivity|].
  split; [exact Hkept|]. by vm_compute.
Defined.

(** ** Listings *)

Lemma array_filter_Ok (keep : value → result bool) (items kept : list value) :
  array_filter keep items = Ok kept →
  kept = List.filter (λ x, match keep x with Ok k => k | Throw _ => false end) items ∧
  Forall (λ x, ∃ k, keep x = Ok k) items.
Proof.
  revert kept. induction items as [|x items IH]; intros kept; cbn [array_filter List.filter].
  - by intros [= <-].
  - cbn [mbind result_bind]. destruct (keep x) as [k|e] eqn:Hx; [|done].
    destruct (array_filter keep items) as [rest|e]; [|done].
    destruct (IH rest eq_refl) as [-> Hall]. intros [= <-].
    split; [by destruct k|]. constructor; [by exists k|done].
Qed.

Lemma array_map_Ok (f : value → result value) (items mapped : list value) :
  array_map f items = Ok mapped → Forall2 (λ x y, f x = Ok y) items mapped.
Proof.
  revert mapped. induction items as [|x items IH]; intros mapped; cbn [array_map].
  - intros [= <-]. constructor.
  - cbn [mbind result_bind]. destruct (f x) as [y|e] eqn:Hx; [|done].
    destruct (array_map f items) as [rest|e]; [|done].
    intros [= <-]. constructor; [done|]. by apply IH.
Qed.

(** What a listing that is fetched is made of. *)
Lemma listTextbooks_fresh (ext : Externals) (params : value) (w w1 : World) (r1 : value) :
  cache_miss list_textbooks params w →
  listTextbooks ext params w = (w1, Ok r1) →
  ∃ response repos books derived textbooks,
    fetch ext (VStr "https://api.github.com/orgs/openstax/repos?per_page=100&type=public")
      github_headers = Ok response ∧
    FetchResponse.json response = Ok (VArr repos) ∧
    array_filter is_textbook_repo repos = Ok books ∧
    array_map textbook_of_repo books = Ok derived ∧
    array_filter (matches_filters (opt_get params "subject") (opt_get params "language"))
      derived = Ok textbooks ∧
    r1 = VObj [("textbooks", VArr textbooks);
               ("count", VNum (Z.of_nat (length textbooks)));
               ("from_cache", VBool false)].
Proof.
  unfold cache_miss, operation_cache, operation_key, listTextbooks.
  intros (key & Hkey & Hmiss) Hrun. unfold_run.
  run_step Hrun. apply destructure_Ok in Hstep as [Hparams ->].
  run_step Hrun. apply destructure_Ok in Hstep as [_ ->].
  cbv beta iota zeta in Hkey, Hrun. rewrite Hkey in Hrun.
  cbv beta iota in Hrun. rewrite Hmiss in Hrun.
  do 4 run_step Hrun. injection Hrun as _ <-.
  match goal with
  | H : result_bind _ _ _ (as_array ?repos _ _) = Ok _ |- _ =>
      unfold result_bind in H; destruct repos; try discriminate H; cbn [as_array] in H;
      repeat run_step H
  end.
  by eexists _, _, _, _, _.
Qed.

Lemma is_textbook_repo_true (r : value) :
  is_textbook_repo r = Ok true →
  ∃ name, opt_get r "name" = VStr name ∧ nullish r = false ∧
          startsWith name "osbooks-" = true ∧
          includes name "template" = false ∧ includes name "playground" = false.
Proof.
  unfold is_textbook_repo, get. destruct (nullish r) eqn:Hr; [done|].
  cbn [mbind result_bind]. destruct (opt_get r "name") as [| | | |name| |]; try done.
  unfold mbind, result_bind. cbn [as_string]. destruct (startsWith name "osbooks-") eqn:Hstarts;
    [|done].
  cbn [existsb]. intros [= Hex]. exists name.
  destruct (includes name "template"); [done|]. by destruct (includes name "playground").
Qed.

(** X15. Every entry of a listing that is fetched comes from a repository
    whose name starts with [osbooks-] and contains neither [template] nor
    [playground]; its id is that name, its language one of en, es and pl; and
    [count] is the number of entries. *)
Theorem fresh_listing_entries (ext : Externals) (params : value) (w w1 : World)
    (r1 : value) :
  cache_miss list_textbooks params w →
  listTextbooks ext params w = (w1, Ok r1) →
  ∃ textbooks,
    opt_get r1 "textbooks" = VArr textbooks ∧
    opt_get r1 "count" = VNum (Z.of_nat (length textbooks)) ∧
    Forall (λ t, ∃ name,
      opt_get t "id" = VStr name ∧
      startsWith name "osbooks-" = true ∧
      includes name "template" = false ∧ includes name "playground" = false ∧
      opt_get t "language" ∈ [VStr "en"; VStr "es"; VStr "pl"]) textbooks.
Proof.
  intros Hmiss Hrun.
  destruct (listTextbooks_fresh ext params w w1 r1 Hmiss Hrun)
    as (response & repos & books & derived & textbooks & _ & _ & Hbooks & Hderived
        & Htextbooks & ->).
  exists textbooks. split; [done|]. split; [done|].
  apply array_filter_Ok in Htextbooks as [-> _].
  apply array_filter_Ok in Hbooks as [-> _].
  apply array_map_Ok in Hderived.
  apply Forall_forall. intros t Ht.
  apply list_elem_of_In, filter_In in Ht as [Ht _]. apply list_elem_of_In in Ht.
  destruct (proj1 (list_elem_of_lookup _ _) Ht) as [i Hi].
  destruct (Forall2_lookup_r _ _ _ _ _ Hderived Hi) as (r & Hr & Hmap).
  apply list_elem_of_lookup_2, list_elem_of_In, filter_In in Hr as [_ Hkeep].
  destruct (is_textbook_repo r) as [[|]|] eqn:Hrepo; try done.
  apply is_textbook_repo_true in Hrepo as (name & Hname & Hnull & Hstarts & Ht1 & Ht2).
  exists name. unfold textbook_of_repo in Hmap.
  rewrite !(get_defined r) in Hmap by done. rewrite Hname in Hmap.
  cbn [mbind result_bind as_string] in Hmap. injection Hmap as <-.
  cbn [opt_get lookup_field String.eqb Ascii.eqb Bool.eqb].
  split; [done|]. split; [done|]. split; [done|]. split; [done|].
  rewrite !elem_of_cons.
  destruct (_ || _); [tauto|]. destruct (_ || _); tauto.
Qed.

Lemma fresh_listing_entries_witness :
  cache_miss list_textbooks list_es empty_world ∧
  ∃ w1 r1 textbooks,
    listTextbooks mock list_es empty_world = (w1, Ok r1) ∧
    opt_get r1 "textbooks" = VArr textbooks ∧
    opt_get r1 "count" = VNum 1.
Proof.
  assert (cache_miss list_textbooks list_es empty_world) as Hmiss
    by (eexists; split; reflexivity).
  split; [exact Hmiss|].
  assert (listTextbooks mock list_es empty_world
          = ((listTextbooks mock list_es empty_world).1,
             Ok (VObj [("textbooks",
                        VArr [mock_textbook "osbooks-fisica-universitaria-bundle"
                                "fisica universitaria" "es"]);
                       ("count", VNum 1); ("from_cache", VBool false)]))) as Hrun
    by (vm_compute; reflexivity).
  destruct (fresh_listing_entries mock list_es empty_world _ _ Hmiss Hrun)
    as (textbooks & Htextbooks & _).
  eexists _, _, textbooks. split; [exact Hrun|]. split; [exact Htextbooks|reflexivity].
Defined.

Lemma array_filter_all (keep : value → result bool) (items : list value) :
  (∀ x, keep x = Ok true) → array_filter keep items = Ok items.
Proof.
  intros Hkeep. induction items as [|x items IH]; [done|].
  cbn [array_filter mbind result_bind]. by rewrite Hkeep, IH.
Qed.

(** X16. The two filters compose: a listing fetched with a subject and a
    language is the listing fetched without filters, restricted to the
    textbooks that pass both filters, in the same order. *)
Theorem filtered_listing_restricts_full_listing (ext : Externals) (params : value)
    (w w0 w1 w2 : World) (full filtered : value) :
  cache_miss list_textbooks list_all w0 →
  listTextbooks ext list_all w0 = (w1, Ok full) →
  cache_miss list_textbooks params w →
  listTextbooks ext params w = (w2, Ok filtered) →
  ∃ all,
    opt_get full "textbooks" = VArr all ∧
    opt_get filtered "textbooks" =
      VArr (List.filter
              (passes_filters (opt_get params "subject") (opt_get params "language")) all).
Proof.
  intros Hmiss0 Hfull Hmiss Hfiltered.
  destruct (listTextbooks_fresh ext list_all w0 w1 full Hmiss0 Hfull)
    as (response & repos & books & derived & all & Hfetch & Hjson & Hbooks & Hderived
        & Hall & ->).
  destruct (listTextbooks_fresh ext params w w2 filtered Hmiss Hfiltered)
    as (response' & repos' & books' & derived' & some & Hfetch' & Hjson' & Hbooks'
        & Hderived' & Hsome & ->).
  rewrite Hfetch in Hfetch'. injection Hfetch' as <-.
  rewrite Hjson in Hjson'. injection Hjson' as <-.
  rewrite Hbooks in Hbooks'. injection Hbooks' as <-.
  rewrite Hderived in Hderived'. injection Hderived' as <-.
  rewrite array_filter_all in Hall by done. injection Hall as <-.
  exists derived. split; [done|].
  apply array_filter_Ok in Hsome as [-> _]. done.
Qed.

Lemma filtered_listing_restricts_full_listing_witness :
  cache_miss list_textbooks list_all empty_world ∧
  cache_miss list_textbooks list_es empty_world ∧
  ∃ all,
    opt_get (VObj [("textbooks",
               VArr [mock_textbook "osbooks-college-physics-bundle" "college physics" "en";
                     mock_textbook "osbooks-fisica-universitaria-bundle"
                       "fisica universitaria" "es";
                     mock_textbook "osbooks-calculus-all-volumes" "calculus all volumes" "en"]);
              ("count", VNum 3); ("from_cache", VBool false)]) "textbooks" = VArr all ∧
    List.filter (passes_filters VUndef (VStr "es")) all
      = [mock_textbook "osbooks-fisica-universitaria-bundle" "fisica universitaria" "es"].
Proof.
  assert (cache_miss list_textbooks list_all empty_world) as Hmiss0
    by (eexists; split; reflexivity).
  assert (cache_miss list_textbooks list_es empty_world) as Hmiss
    by (eexists; split; reflexivity).
  split; [exact Hmiss0|]. split; [exact Hmiss|].
  assert (listTextbooks mock list_all empty_world
          = ((listTextbooks mock list_all empty_world).1,
             Ok (VObj [("textbooks",
               VArr [mock_textbook "osbooks-college-physics-bundle" "college physics" "en";
                     mock_textbook "osbooks-fisica-universitaria-bundle"
                       "fisica universitaria" "es";
                     mock_textbook "osbooks-calculus-all-volumes" "calculus all volumes" "en"]);
              ("count", VNum 3); ("from_cache", VBool false)]))) as Hfull
    by (vm_compute; reflexivity).
  assert (listTextbooks mock list_es empty_world
          = ((listTextbooks mock list_es empty_world).1,
             Ok (VObj [("textbooks",
                        VArr [mock_textbook "osbooks-fisica-universitaria-bundle"
                                "fisica universitaria" "es"]);
                       ("count", VNum 1); ("from_cache", VBool false)]))) as Hfiltered
    by (vm_compute; reflexivity).
  destruct (filtered_listing_restricts_full_listing mock list_es empty_world empty_world
              _ _ _ _ Hmiss0 Hfull Hmiss Hfiltered) as (all & Hall & Hsome).
  exists all. split; [exact Hall|].
  cbn [opt_get lookup_field String.eqb Ascii.eqb Bool.eqb] in Hsome.
  by injection Hsome as <-.
Defined.

(** ** Search *)

(** X17. A search writes nothing, and when it returns it has asked the index
    for [limit] matches (5 when none is given) and has one result for each
    match of the answer, in the order of the answer, with the id, score and
    metadata of the match, and the query as it was given. *)
Theorem search_reads_only (ext : Externals) (params : value) (w w' : World)
    (o : result value) :
  semanticSearch ext params w = (w', o) →
  w' = w ∧
  ∀ r, o = Ok r →
    opt_get r "query" = opt_get params "query" ∧
    ∃ vector options answer matches results,
      vectorize_query ext (VECTORIZE w) vector options = Ok answer ∧
      opt_get options "topK" = or_default (opt_get params "limit") (VNum 5) ∧
      opt_get answer "matches" = VArr matches ∧
      opt_get r "results" = VArr results ∧
      Forall2 (λ m result,
        opt_get result "module_id" = opt_get m "id" ∧
        opt_get result "score" = opt_get m "score" ∧
        opt_get result "metadata" = opt_get m "metadata") matches results.
Proof.
  unfold semanticSearch, VECTORIZE_query. intros Hrun. unfold_run.
  repeat run_split Hrun; injection Hrun as <- <-; (split; [done|]); intros r Hr;
    try discriminate Hr.
  injection Hr as <-.
  match goal with
  | H : destructure params "query" _ = Ok _ |- _ => apply destructure_Ok in H as [_ ->]
  end.
  match goal with
  | H : match destructure params "limit" _ with Ok _ => _ | Throw _ => _ end = Ok _ |- _ =>
      destruct (destructure params "limit" "params") as [limit|] eqn:Hlimit;
        [|discriminate H];
      apply destructure_Ok in Hlimit as [_ ->]; injection H as <-
  end.
  split; [done|].
  match goal with
  | Hquery : vectorize_query ext _ ?vector ?options = Ok ?answer,
    H : result_bind _ _ _ (get ?answer "matches") = Ok ?results |- _ =>
      unfold result_bind in H;
      destruct (get answer "matches") as [matches|] eqn:Hmatches; [|discriminate H];
      apply get_Ok_not_nullish in Hmatches as [_ ->];
      destruct (as_array (opt_get answer "matches") "results.matches" "map")
        as [items|] eqn:Harray;
        [|discriminate H];
      exists vector, options, answer, items, results;
      destruct (opt_get answer "matches"); try discriminate Harray;
      injection Harray as ->; apply array_map_Ok in H;
      split; [exact Hquery|]
  end.
  split; [done|]. split; [done|]. split; [done|].
  eapply Forall2_impl; [eassumption|]. cbv beta. intros m result Hresult.
  unfold get in Hresult. destruct (nullish m); [done|]. by injection Hresult as <-.
Qed.

Lemma search_reads_only_witness :
  semanticSearch search_upstream search_motion empty_world
  = (empty_world,
     Ok (VObj [("query", VStr "motion");
               ("results", VArr [
                  VObj [("module_id", VStr "osbooks-physics_m3"); ("score", VNum 9);
                        ("metadata", VObj [("title", VStr "Three")])];
                  VObj [("module_id", VStr "osbooks-physics_m1"); ("score", VNum 7);
                        ("metadata", VObj [("title", VStr "One")])]])])).
Proof.
  assert (semanticSearch search_upstream search_motion empty_world
          = ((semanticSearch search_upstream search_motion empty_world).1,
             Ok (VObj [("query", VStr "motion");
               ("results", VArr [
                  VObj [("module_id", VStr "osbooks-physics_m3"); ("score", VNum 9);
                        ("metadata", VObj [("title", VStr "Three")])];
                  VObj [("module_id", VStr "osbooks-physics_m1"); ("score", VNum 7);
                        ("metadata", VObj [("title", VStr "One")])]])]))) as Hrun
    by (vm_compute; reflexivity).
  destruct (search_reads_only search_upstream search_motion empty_world _ _ Hrun)
    as [Hsame _].
  rewrite Hrun. by rewrite Hsame.
Defined.

(** ** The envelope of the responses *)

Lemma errorResponse_is_jsonrpc (id : value) (code : Z) (message : string) :
  code ∈ [-32601; -32602; -32603] →
  is_jsonrpc_response id (errorResponse id code message).
Proof.
  intros Hcode. unfold is_jsonrpc_response, errorResponse.
  split; [done|]. split; [done|]. right. split; [done|]. by exists code, message.
Qed.

(** X18. Every response of the dispatcher is a JSON-RPC 2.0 response to its
    request: it has the version, the id of the request, and either a result
    or an error with a code and a message, never both; the code is one of
    -32601, -32602 and -32603. *)
Theorem responses_are_jsonrpc (ext : Externals) (request : value) (w w' : World)
    (response : value) :
  handleRequest ext request w = (w', Ok response) →
  is_jsonrpc_response (opt_get request "id") response.
Proof.
  intros Hrun.
  destruct (nullish request) eqn:Hrequest.
  { unfold handleRequest, get in Hrun. rewrite Hrequest in Hrun.
    discriminate Hrun. }
  destruct (strict_eq (opt_get request "method") (VStr "tools/call")) eqn:Hcall.
  - apply strict_eq_string in Hcall.
    assert (handleRequest ext request w = handleToolCall ext request w) as Hroute.
    { unfold handleRequest. rewrite (get_defined request "method"), Hcall by done.
      reflexivity. }
    rewrite Hroute in Hrun.
    destruct (nullish (opt_get request "params")) eqn:Hparams.
    { destruct (handleToolCall_without_params ext request w Hrequest Hparams) as [e He].
      rewrite He in Hrun. discriminate Hrun. }
    rewrite handleToolCall_outcome in Hrun by done. cbv zeta in Hrun.
    destruct (tool_named ext _) as [tool|].
    + destruct (tool _ w) as [w1 [result|error]]; injection Hrun as _ <-.
      * split; [done|]. split; [done|]. by left.
      * apply errorResponse_is_jsonrpc. set_solver.
    + destruct (to_string _); injection Hrun as _ <-;
        apply errorResponse_is_jsonrpc; set_solver.
  - unfold handleRequest, handleInitialize, handleToolsList in Hrun.
    rewrite !(get_defined request) in Hrun by done.
    unfold mbind, result_bind in Hrun. rewrite Hcall in Hrun.
    destruct (strict_eq (opt_get request "method") (VStr "initialize")).
    { injection Hrun as _ <-. split; [done|]. split; [done|]. by left. }
    destruct (strict_eq (opt_get request "method") (VStr "tools/list")).
    { injection Hrun as _ <-. split; [done|]. split; [done|]. by left. }
    destruct (to_string _); injection Hrun as _ <-;
      apply errorResponse_is_jsonrpc; set_solver.
Qed.

Lemma responses_are_jsonrpc_witness :
  ∃ w' response,
    handleRequest mock tools_call_example empty_world = (w', Ok response) ∧
    is_jsonrpc_response (VStr "X") response.
Proof.
  assert (∃ response,
            handleRequest mock tools_call_example empty_world
            = ((handleRequest mock tools_call_example empty_world).1, Ok response))
    as [response Hrun] by (eexists; vm_compute; reflexivity).
  exists (handleRequest mock tools_call_example empty_world).1, response.
  split; [exact Hrun|].
  exact (responses_are_jsonrpc mock tools_call_example empty_world _ response Hrun).
Defined.
